(** * VoiceRecoginzing: the clip-preparation pipeline, embedded in Rocq

    The development follows three scripts of the repository:

    - [LayDataSet.py]  ([DatasetBuilder]): activity intervals of a clip are
      reduced to one processed segment ([_prepare_processed], the preview
      path) and whole label folders are converted ([_process_label], the
      batch path);
    - [train_ver3.py]  ([VoiceTrainer]): the processed files are turned into
      fixed-shape log-mel tensors ([_load_dataset]) and split for training
      ([_train]);
    - [test_ver3.py]   ([VoiceTestGUI._predict]): the same feature code on
      one recording.

    Samples and feature values are IEEE binary64 numbers (Rocq's primitive
    floats); sample indices are the integers numpy hands out (Z); Tk
    variables are fields of a record; the log widget is a list of entries.
    Calls into librosa, soundfile and scikit-learn are not code of the
    repository: they are section variables.  Where a property is about
    such a call itself, the stratified split is a definition written
    after the specification and marked as such, and the activity detector
    is [librosa.effects.split] as the library defines it, over the real
    numbers. *)

From Stdlib Require Import ZArith List Ascii Floats Uint63 Lia.
From Stdlib Require Reals QArith.
From stdpp Require Import gmap strings pretty list sorting.

Set Default Proof Using "Type".

(** ** Python exceptions as an error monad *)

Inductive exn : Type :=
| ValueError      (* np.concatenate on an empty sequence *)
| IndexError      (* lengths[0] on an empty list *)
| KeyError        (* a dictionary lookup with an unknown key *)
| LoadError       (* a missing folder, an unreadable file, a failing transform *)
| InvalidParameter. (* the specification's error for malformed configuration *)

Inductive result (T : Type) : Type :=
| Ok (v : T)
| Raise (e : exn).
Arguments Ok {T} v.
Arguments Raise {T} e.

#[global] Instance result_ret : MRet result := @Ok.
#[global] Instance result_bind : MBind result :=
  λ A B f m, match m with Ok v => f v | Raise e => Raise e end.

Definition is_Ok {T} (r : result T) : Prop := ∃ v, r = Ok v.

(** ** Module constants (LayDataSet.py:34, train_ver3.py:23-26) *)

Definition SAMPLE_RATE : Z := 16000.
Definition N_MFCC : nat := 40.
Definition MAX_LEN : nat := 64.

(** ** numpy and list primitives used by the scripts *)

(** An interval is a row [(start, end)] of the (n, 2) integer array that
    [librosa.effects.split] returns. *)
Definition interval : Type := Z * Z.

(** [slice.indices] for a step of 1: a negative bound counts from the end,
    and both bounds are clamped to the array. *)
Definition slice_index (n i : Z) : Z :=
  if (i <? 0)%Z then Z.max (i + n) 0 else Z.min i n.

(** [y[s:e]] *)
Definition py_slice (y : list float) (s e : Z) : list float :=
  let n := Z.of_nat (length y) in
  let s' := slice_index n s in
  let e' := slice_index n e in
  take (Z.to_nat (e' - s')) (drop (Z.to_nat s') y).

(** [np.concatenate(parts)]: raises ValueError ("need at least one array to
    concatenate") on an empty sequence. *)
Definition np_concatenate (parts : list (list float)) : result (list float) :=
  match parts with
  | [] => Raise ValueError
  | _ :: _ => Ok (concat parts)
  end.

(** [l[0]] *)
Definition index0 {T} (l : list T) : result T :=
  match l with
  | [] => Raise IndexError
  | x :: _ => Ok x
  end.

(** Python's [<] on 3-tuples of integers: lexicographic. *)
Definition tuple_lt (a b : Z * Z * Z) : bool :=
  let '(a1, a2, a3) := a in
  let '(b1, b2, b3) := b in
  if (a1 <? b1)%Z then true
  else if (b1 <? a1)%Z then false
  else if (a2 <? b2)%Z then true
  else if (b2 <? a2)%Z then false
  else (a3 <? b3)%Z.

(** The relation a stable ascending sort merges with: [a] may stay before
    [b] unless [b < a]. *)
Definition tuple_le (a b : Z * Z * Z) : Prop := tuple_lt b a = false.

#[global] Instance tuple_le_dec a b : Decision (tuple_le a b).
Proof. unfold tuple_le. apply _. Defined.

(** [l.sort(reverse=True)]: CPython reverses the list, runs its stable
    ascending merge sort (only [<] is consulted) and reverses the result. *)
Definition list_sort_reverse (l : list (Z * Z * Z)) : list (Z * Z * Z) :=
  reverse (merge_sort tuple_le (reverse l)).

(** [len(x) / SAMPLE_RATE]: true division of two integers, the binary64
    nearest the quotient (both operands are exact in binary64 for any
    length an array can have in practice, below 2^53). *)
Definition seconds (n : nat) : float :=
  PrimFloat.div (PrimFloat.of_uint63 (Uint63.of_Z (Z.of_nat n)))
                (PrimFloat.of_uint63 (Uint63.of_Z SAMPLE_RATE)).

(** [len(x) / SAMPLE_RATE < min_duration] *)
Definition too_short (n : nat) (min_duration : float) : bool :=
  PrimFloat.ltb (seconds n) min_duration.

(** ** DatasetBuilder (LayDataSet.py) *)

(** What [_log] appends to the text widget, one constructor per message. *)
Inductive log_entry : Type :=
| IntervalsFound (n : nat)            (* 'Intervals found:', len(intervals) *)
| ProcessedDiscarded                  (* 'Processed shorter than min_duration, discarding' *)
| ProcessedLength (sec : float)       (* 'Processed length (s):', len/SAMPLE_RATE *)
| NoActivity (src : string)           (* 'No activity:', src *)
| TooShortSkip (src : string)         (* 'Too short, skip:', src *)
| ErrorProcessing (src : string) (e : exn)   (* 'Error processing', src, e *)
| ProcessedLabel (label : string) (count : nat). (* 'Processed label', label, '->', count, 'files' *)

(** The fields of [DatasetBuilder] the processing methods read and write
    (LayDataSet.py:47-54, 115). *)
Record builder : Type := mkBuilder {
  top_db : float;
  min_duration : float;
  method : string;
  processed_y : option (list float);
  intervals : list interval;
  txt_log : list log_entry
}.

(** Two builders with the same settings in the entry fields. *)
Definition same_config (a b : builder) : Prop :=
  top_db a = top_db b ∧ min_duration a = min_duration b ∧ method a = method b.

Definition _log (self : builder) (m : log_entry) : builder :=
  mkBuilder (top_db self) (min_duration self) (method self)
            (processed_y self) (intervals self) (txt_log self ++ [m]).

Definition set_intervals (self : builder) (ivs : list interval) : builder :=
  mkBuilder (top_db self) (min_duration self) (method self)
            (processed_y self) ivs (txt_log self).

Definition set_processed_y (self : builder) (p : list float) : builder :=
  mkBuilder (top_db self) (min_duration self) (method self)
            (Some p) (intervals self) (txt_log self).

(** The policy branch shared by both paths (LayDataSet.py:184-191 and
    258-265): 'longest' sorts the [(end-start, start, end)] triples in
    reverse and slices the first one; anything else concatenates the
    slices in list order. *)
Definition select_segment (method : string) (y : list float)
    (ivs : list interval) : result (list float) :=
  if String.eqb method "longest" then
    let lengths := map (λ iv : interval, ((iv.2 - iv.1)%Z, iv.1, iv.2)) ivs in
    let lengths := list_sort_reverse lengths in
    t ← index0 lengths;
    Ok (py_slice y t.1.2 t.2)
  else
    let parts := map (λ iv : interval, py_slice y iv.1 iv.2) ivs in
    np_concatenate parts.

Section Builder.

(** [librosa.effects.split(y, top_db=...)], the activity detector. *)
Variable split : list float → float → list interval.

(** [_prepare_processed] (LayDataSet.py:176-196). *)
Definition _prepare_processed (self : builder) (y : list float) : result builder :=
  let top := top_db self in
  let self := set_intervals self (split y top) in
  let self := _log self (IntervalsFound (length (intervals self))) in
  if (length (intervals self) =? 0)%nat then
    Ok (set_processed_y self [])
  else
    let method := method self in
    p ← select_segment method y (intervals self);
    let self := set_processed_y self p in
    if too_short (length p) (min_duration self) then
      let self := _log self ProcessedDiscarded in
      Ok (set_processed_y self [])
    else
      Ok (_log self (ProcessedLength (seconds (length p)))).

(** *** The batch path: files, folders and [_process_label] *)

Definition RECORDINGS_DIR : string := "recordings".
Definition OUTPUT_DIR : string := "dataset".

(** [os.path.join(a, b)] for a relative component [b]. *)
Definition path_join (a b : string) : string := a +:+ "/" +:+ b.

(** [str.lower] on ASCII letters. *)
Definition ascii_lower (c : ascii) : ascii :=
  let n := nat_of_ascii c in
  if (65 <=? n)%nat && (n <=? 90)%nat then ascii_of_nat (n + 32) else c.

Fixpoint lower (s : string) : string :=
  match s with
  | EmptyString => EmptyString
  | String c s' => String (ascii_lower c) (lower s')
  end.

(** [s.endswith(suf)] *)
Definition endswith (s suf : string) : bool :=
  let n := String.length s in
  let k := String.length suf in
  (k <=? n)%nat && String.eqb (String.substring (n - k) k s) suf.

(** [f.lower().endswith('.wav')] *)
Definition is_wav (f : string) : bool := endswith (lower f) ".wav".

(** What one iteration of the loop decides before it writes: [continue]
    with a log line, or the segment to save. *)
Inductive clip_outcome : Type :=
| Skip (m : log_entry)
| Keep (proc : list float).

Section Files.

(** The content of a .wav file on disk. *)
Variable wavfile : Type.

(** [librosa.load(src, sr=SAMPLE_RATE, mono=True)]: the decoded waveform,
    or an exception for an unreadable file. *)
Variable librosa_load : wavfile → result (list float).

(** [sf.write(out_path, (proc*32767).astype(np.int16), SAMPLE_RATE,
    subtype='PCM_16')]: the file the scaled segment becomes. *)
Variable sf_write : list float → wavfile.

(** The two directory trees the scripts work on.  A recordings folder is
    the listing [os.listdir] returns, each name with its file; a dataset
    folder is a map, because writing a name again replaces the file. *)
Record disk : Type := mkDisk {
  recordings : gmap string (list (string * wavfile));
  dataset : gmap string (gmap string wavfile)
}.

(** [os.makedirs(out_dir, exist_ok=True)] *)
Definition makedirs (ds : gmap string (gmap string wavfile)) (label : string)
    : gmap string (gmap string wavfile) :=
  match ds !! label with
  | Some _ => ds
  | None => <[label := ∅]> ds
  end.

(** [sf.write] into [dataset/<label>/<f>]. *)
Definition write_file (ds : gmap string (gmap string wavfile))
    (label f : string) (w : wavfile) : gmap string (gmap string wavfile) :=
  <[label := <[f := w]> (default ∅ (ds !! label))]> ds.

(** The body of the [try] (LayDataSet.py:253-268) up to the decision. *)
Definition process_clip (self : builder) (src : string) (w : wavfile)
    : result clip_outcome :=
  y ← librosa_load w;
  let intervals := split y (top_db self) in
  if (length intervals =? 0)%nat then Ok (Skip (NoActivity src))
  else
    proc ← select_segment (method self) y intervals;
    if too_short (length proc) (min_duration self) then
      Ok (Skip (TooShortSkip src))
    else Ok (Keep proc).

(** The loop state: the builder (for its log), the dataset tree and
    [count]. *)
Definition loop_state : Type :=
  builder * gmap string (gmap string wavfile) * nat.

(** One iteration of [for f in files] (LayDataSet.py:250-273). *)
Definition process_file (label : string) (st : loop_state)
    (entry : string * wavfile) : loop_state :=
  let '(self, ds, count) := st in
  let src := path_join (path_join RECORDINGS_DIR label) entry.1 in
  match process_clip self src entry.2 with
  | Ok (Skip m) => (_log self m, ds, count)
  | Ok (Keep proc) => (self, write_file ds label entry.1 (sf_write proc), S count)
  | Raise e => (_log self (ErrorProcessing src e), ds, count)
  end.

(** The recordings the loop turns away as too short. *)
Definition rejected_too_short (self : builder) (label : string)
    (entry : string * wavfile) : bool :=
  match process_clip self (path_join (path_join RECORDINGS_DIR label) entry.1) entry.2 with
  | Ok (Skip (TooShortSkip _)) => true
  | _ => false
  end.

(** The disk as it would be had the rejected recordings of [label] never
    been recorded. *)
Definition without_rejected (self : builder) (d : disk) (label : string) : disk :=
  mkDisk (alter (filter (λ e, rejected_too_short self label e = false)) label (recordings d))
         (dataset d).

(** The files of a recordings folder the loop runs over. *)
Definition wav_entries (entries : list (string * wavfile)) : list (string * wavfile) :=
  filter (λ e, is_wav e.1 = true) entries.

(** [_process_label] (LayDataSet.py:244-274).  A missing recordings
    folder makes [os.listdir] raise. *)
Definition _process_label (self : builder) (d : disk) (label : string)
    : result (builder * disk) :=
  let ds := makedirs (dataset d) label in
  match recordings d !! label with
  | None => Raise LoadError
  | Some entries =>
      let files := wav_entries entries in
      let '(self, ds, count) := foldl (process_file label) (self, ds, 0%nat) files in
      Ok (_log self (ProcessedLabel label count), mkDisk (recordings d) ds)
  end.

End Files.

End Builder.

Arguments process_clip split {wavfile} librosa_load self src w.
Arguments process_file split {wavfile} librosa_load sf_write label st entry.
Arguments rejected_too_short split {wavfile} librosa_load self label entry.
Arguments without_rejected split {wavfile} librosa_load self d label.
Arguments _process_label split {wavfile} librosa_load sf_write self d label.
Arguments wav_entries {wavfile} entries.
Arguments makedirs {wavfile} ds label.
Arguments write_file {wavfile} ds label f w.
Arguments mkDisk {wavfile} recordings dataset.
Arguments recordings {wavfile} d.
Arguments dataset {wavfile} d.

(** ** VoiceTrainer (train_ver3.py) and VoiceTestGUI._predict (test_ver3.py) *)

(** A 2-D numpy array with its [shape]; [data] holds the rows. *)
Record matrix : Type := mkMatrix {
  nrows : nat;
  ncols : nat;
  data : list (list float)
}.

(** What numpy guarantees of a 2-D array: [shape[0]] rows of [shape[1]]
    entries each. *)
Definition rectangular (m : matrix) : Prop :=
  length (data m) = nrows m ∧ Forall (λ r, length r = ncols m) (data m).

(** [np.pad(mfe, ((0,0),(0,pad_width)), mode="constant")] *)
Definition np_pad (mfe : matrix) (pad_width : nat) : matrix :=
  mkMatrix (nrows mfe) (ncols mfe + pad_width)
           (map (λ r, r ++ replicate pad_width 0%float) (data mfe)).

(** [mfe[:, :k]] *)
Definition take_columns (mfe : matrix) (k : nat) : matrix :=
  mkMatrix (nrows mfe) (ncols mfe `min` k) (map (take k) (data mfe)).

(** The pad/truncate step (train_ver3.py:127-131, test_ver3.py:112-116). *)
Definition pad_or_truncate (mfe : matrix) : matrix :=
  if (ncols mfe <? MAX_LEN)%nat then
    let pad_width := MAX_LEN - ncols mfe in
    np_pad mfe pad_width
  else take_columns mfe MAX_LEN.

(** [mfe[..., np.newaxis]]: every entry becomes a one-element channel
    axis. *)
Definition add_channel (mfe : matrix) : list (list (list float)) :=
  map (map (λ x, [x])) (data mfe).

(** [LABEL_GROUPS] (train_ver3.py:28-32). *)
Definition LABEL_GROUPS : gmap string (list string) :=
  <["Action" := ["Bat"; "Tat"]]>
  (<["Device" := ["Den"; "Quat"]]>
  (<["Room" := ["Ngu"; "Khach"; "Bep"]]> ∅)).

Inductive train_log : Type :=
| SelectedLabels (ls : list string)        (* "Selected labels:", selected_labels *)
| FolderNotFound (folder : string)         (* "Folder not found:", folder *)
| ErrorLoading (path : string) (e : exn)   (* "Error loading", path, e *)
| LoadedDataset (n n_labels : nat)         (* "Loaded dataset:", X.shape, "labels:", len *)
| DatasetIsEmpty.                          (* "Dataset is empty" *)

Section Trainer.

Variable wavfile : Type.
Variable librosa_load : wavfile → result (list float).

(** [librosa.feature.melspectrogram(y=y, sr=sr, n_mels=N_MFCC, fmin=20,
    fmax=4000, power=2.0)] *)
Variable melspectrogram : list float → result matrix.

(** [librosa.power_to_db(S, ref=np.max)] *)
Variable power_to_db : matrix → result matrix.

(** The feature code both scripts run on a loaded waveform
    (train_ver3.py:116-131, test_ver3.py:102-116). *)
Definition extract (y : list float) : result matrix :=
  S ← melspectrogram y;
  mfe ← power_to_db S;
  Ok (pad_or_truncate mfe).

(** [_predict]'s input batch: [mfe[np.newaxis, ..., np.newaxis]]. *)
Definition predict_features (y : list float) : result (list (list (list (list float)))) :=
  mfe ← extract y;
  Ok [add_channel mfe].

(** The accumulators of [_load_dataset]: [X], [Y] and the log. *)
Definition load_state : Type :=
  list (list (list (list float))) * list nat * list train_log.

(** One iteration of [for f in files] (train_ver3.py:111-137). *)
Definition load_file (idx : nat) (folder : string) (st : load_state)
    (entry : string * wavfile) : load_state :=
  let '(X, Y, lg) := st in
  let path := path_join folder entry.1 in
  match (y ← librosa_load entry.2; mfe ← extract y; Ok (add_channel mfe)) with
  | Ok mfe => (X ++ [mfe], Y ++ [idx], lg)
  | Raise e => (X, Y, lg ++ [ErrorLoading path e])
  end.

(** One iteration of [for idx, label in enumerate(selected_labels)]
    (train_ver3.py:105-137). *)
Definition load_label (base_dir : string)
    (ds : gmap string (gmap string wavfile)) (st : load_state)
    (il : nat * string) : load_state :=
  let folder := path_join base_dir il.2 in
  match ds !! il.2 with
  | None => (st.1.1, st.1.2, st.2 ++ [FolderNotFound folder])
  | Some dir =>
      let files := filter (λ e, is_wav e.1 = true) (map_to_list dir) in
      foldl (load_file il.1 folder) st files
  end.

(** [_load_dataset] (train_ver3.py:99-141); [ds] is the tree at
    [base_dir].  An unknown [model_type] makes the dictionary lookup
    raise. *)
Definition _load_dataset (model_type base_dir : string)
    (ds : gmap string (gmap string wavfile)) : result load_state :=
  match LABEL_GROUPS !! model_type with
  | None => Raise KeyError
  | Some selected_labels =>
      let lg := [SelectedLabels selected_labels] in
      let '(X, Y, lg) :=
        foldl (load_label base_dir ds) ([], [], lg)
              (zip (seq 0 (length selected_labels)) selected_labels) in
      Ok (X, Y, lg ++ [LoadedDataset (length X) (length selected_labels)])
  end.

End Trainer.

Arguments load_file {wavfile} librosa_load melspectrogram power_to_db idx folder st entry.
Arguments load_label {wavfile} librosa_load melspectrogram power_to_db base_dir ds st il.
Arguments _load_dataset {wavfile} librosa_load melspectrogram power_to_db model_type base_dir ds.

Section Train.

(** [train_test_split(X, Y, test_size=..., random_state=42, stratify=Y)]
    of scikit-learn: [(X_train, X_test, y_train, y_test)]. *)
Variable train_test_split :
  list (list (list (list float))) → list nat → float → Z →
  list (list (list (list float))) * list (list (list (list float))) * list nat * list nat.

(** [_train] up to the split (train_ver3.py:162-168): an empty dataset is
    logged and nothing is trained. *)
Definition _train (X : list (list (list (list float)))) (Y : list nat)
    (test_split : float)
    : train_log + list (list (list (list float))) * list (list (list (list float))) * list nat * list nat :=
  if (length X =? 0)%nat then inl DatasetIsEmpty
  else inr (train_test_split X Y test_split 42%Z).

End Train.

(** ** The stratified split, after the specification *)

Section StratifiedSplit.

Context {T : Type}.

(** Modelled from the spec: the seeded permutation of one label's examples
    (section 4.4, "uses the given seed to permute within-label order before
    splitting").  The repository hands the split to scikit-learn; the
    permutation itself is left open here. *)
Variable permute : Z → list (T * nat) → list (T * nat).

(** Modelled from the spec: the held-out count of a label with [n]
    examples, [floor(testFraction * n)] (section 4.4, "rounding
    consistently (e.g. floor for the held-out count)"). *)
Definition held_out_count (testFraction : QArith_base.Q) (n : nat) : nat :=
  Z.to_nat (Qround.Qfloor
    (QArith_base.Qmult testFraction (QArith_base.inject_Z (Z.of_nat n)))).

(** Modelled from the spec: the kept examples of the label with index
    [idx], in dataset order. *)
Definition label_examples (examples : list (T * nat)) (idx : nat) : list (T * nat) :=
  filter (λ e, e.2 = idx) examples.

(** Modelled from the spec: one label's examples are permuted with the
    seed; the first [held_out_count] of them are held out and the rest
    train (section 4.4, "partition kept examples per label
    independently").  The pair is (training, held-out). *)
Definition split_label (examples : list (T * nat)) (testFraction : QArith_base.Q)
    (seed : Z) (idx : nat) : list (T * nat) * list (T * nat) :=
  let shuffled := permute seed (label_examples examples idx) in
  let k := held_out_count testFraction (length shuffled) in
  (drop k shuffled, take k shuffled).

(** Modelled from the spec: the stratified split of [DatasetAssembler.build]
    (section 4.4): every label of the group's ordered list is split on its
    own and the per-label subsets are concatenated.  The pair is
    (training, held-out). *)
Definition stratified_split (n_labels : nat) (examples : list (T * nat))
    (testFraction : QArith_base.Q) (seed : Z) : list (T * nat) * list (T * nat) :=
  let parts := map (split_label examples testFraction seed) (seq 0 n_labels) in
  (concat (map fst parts), concat (map snd parts)).

(** How many examples of a subset carry the label [idx]. *)
Definition count_label (idx : nat) (examples : list (T * nat)) : nat :=
  length (label_examples examples idx).

End StratifiedSplit.

(** ** librosa.effects.split *)

(** The activity detector is the call [librosa.effects.split(y,
    top_db=...)] (LayDataSet.py:178, 254).  The function is not under
    src/; this part follows librosa 0.10 (effects.py, feature/spectral.py,
    core/spectrum.py, util/utils.py) for a one-dimensional signal and the
    arguments that call leaves at their defaults ([frame_length=2048],
    [hop_length=512], [ref=np.max], [center=True], [pad_mode="constant"],
    [amin=1e-5]), with real numbers for the samples. *)
Module librosa.

Section Signal.

Import Reals.

Definition frame_length : nat := 2048.
Definition hop_length : nat := 512.

(** [np.max] of a one-dimensional array; it raises on an empty one. *)
Definition np_max (a : list R) : result R :=
  match a with
  | [] => Raise ValueError
  | x :: a' => Ok (foldl Rmax x a')
  end.

(** [util.frame(y, frame_length=frame_length, hop_length=hop_length)]:
    frame [t] is [y[t*hop_length : t*hop_length + frame_length]], and
    there are [1 + (len(y) - frame_length) // hop_length] of them; a
    signal shorter than one frame is refused. *)
Definition frame (y : list R) : result (list (list R)) :=
  if (length y <? frame_length)%nat then Raise InvalidParameter
  else Ok (map (λ t, take frame_length (drop (t * hop_length) y))
               (seq 0 (1 + (length y - frame_length) / hop_length))).

(** [np.sqrt(np.mean(x**2))] of one frame. *)
Definition root_mean_square (x : list R) : R :=
  sqrt (foldr Rplus 0%R (map (λ v, v * v)%R x) / INR (length x)).

(** [feature.rms(y=y, frame_length=frame_length, hop_length=hop_length)]:
    the signal is padded with [frame_length // 2] zeros on both sides and
    framed. *)
Definition rms (y : list R) : result (list R) :=
  let padding := replicate (frame_length / 2) 0%R in
  x ← frame (padding ++ y ++ padding);
  Ok (map root_mean_square x).

Definition log10 (x : R) : R := (ln x / ln 10)%R.

(** [power_to_db(S, ref=ref, amin=amin, top_db=None)]:
    [10*log10(maximum(amin, S)) - 10*log10(maximum(amin, abs(ref)))]. *)
Definition power_to_db (S : list R) (ref amin : R) : list R :=
  map (λ s, 10 * log10 (Rmax amin s) - 10 * log10 (Rmax amin (Rabs ref)))%R S.

(** [amplitude_to_db(S, ref=np.max, top_db=None)]: the reference is the
    greatest magnitude of [S] itself; [amin] is 1e-5. *)
Definition amplitude_to_db (S : list R) : result (list R) :=
  let amin := (1 / 100000)%R in
  let magnitude := map Rabs S in
  ref_value ← np_max magnitude;
  let power := map (λ m, m * m)%R magnitude in
  Ok (power_to_db power (ref_value * ref_value) (amin * amin)).

(** [_signal_to_frame_nonsilent(y, top_db=top_db)]: [db > -top_db]. *)
Definition _signal_to_frame_nonsilent (y : list R) (top_db : R) : result (list bool) :=
  mse ← rms y;
  db ← amplitude_to_db mse;
  Ok (map (λ d, if Rlt_dec (- top_db) d then true else false) db).

(** [np.flatnonzero(np.diff(non_silent.astype(int))) + 1]: the indices at
    which a flag differs from the one before it.  [prev] is the flag
    before [flags] and [i] the index of the first of [flags]. *)
Fixpoint flips (prev : bool) (i : nat) (flags : list bool) : list nat :=
  match flags with
  | [] => []
  | b :: flags' =>
      (if Bool.eqb prev b then [] else [i]) ++ flips b (S i) flags'
  end.

(** The frame indices [split] collects: 0 when the first frame is not
    silent, the flips, and the number of frames when the last frame is
    not silent. *)
Definition frame_edges (non_silent : list bool) : result (list nat) :=
  match non_silent with
  | [] => Raise IndexError
  | first :: rest =>
      Ok ((if first then [0%nat] else []) ++ flips first 1 rest ++
          (if default first (last rest) then [length non_silent] else []))
  end.

(** [edges.reshape((-1, 2))] *)
Fixpoint reshape_pairs (edges : list Z) : result (list interval) :=
  match edges with
  | [] => Ok []
  | [_] => Raise ValueError
  | a :: b :: rest => r ← reshape_pairs rest; Ok ((a, b) :: r)
  end.

(** [effects.split(y, top_db=top_db)]: the frame indices become sample
    indices ([frames_to_samples]: times [hop_length]) and are clipped to
    the length of the signal. *)
Definition split (y : list R) (top_db : R) : result (list interval) :=
  non_silent ← _signal_to_frame_nonsilent y top_db;
  edges ← frame_edges non_silent;
  let edges := map (λ f, Z.of_nat (f * hop_length)) edges in
  let edges := map (λ e, Z.min e (Z.of_nat (length y))) edges in
  reshape_pairs edges.

End Signal.

End librosa.

(** ** DatasetBuilder: selecting, saving and processing all labels *)

(** The lines the methods of this part write (LayDataSet.py:167, 174, 230,
    242, 291, 294).  They go to the same widget as the lines above; they
    are kept in a list of their own, so the order between the two kinds
    of lines is not represented. *)
Inductive notice : Type :=
| SelectedFile (path : string)         (* 'Selected file:', path *)
| LoadErrorLine (e : exn)              (* 'Load error:', e *)
| NoProcessedAudio                     (* showinfo 'No processed audio to save' *)
| SavedProcessed (out_path : string)   (* 'Saved processed to', out_path *)
| StartLabel (label : string)          (* 'Start label', l *)
| DoneProcessing (total : nat).        (* 'Done processing', total, 'labels' *)

(** The builder with the fields the selection methods add
    (LayDataSet.py:51-52): [core] holds the fields of [builder]. *)
Record preview : Type := mkPreview {
  core : builder;
  current_file : option string;
  current_y : option (list float);
  notices : list notice
}.

Definition note (g : preview) (n : notice) : preview :=
  mkPreview (core g) (current_file g) (current_y g) (notices g ++ [n]).

(** [rel.split(os.path.sep, 1)] for a [rel] with [os.sep in rel]: the text
    before the first separator and the text after it; [None] when [rel]
    has no separator.  The separator is '/'. *)
Fixpoint split_sep (rel : string) : option (string * string) :=
  match rel with
  | EmptyString => None
  | String c rest =>
      if Ascii.eqb c "/" then Some (EmptyString, rest)
      else match split_sep rest with
           | Some (label, fname) => Some (String c label, fname)
           | None => None
           end
  end.

Section BuilderRest.

Variable split : list float → float → list interval.
Variable wavfile : Type.
Variable librosa_load : wavfile → result (list float).
Variable sf_write : list float → wavfile.

(** [os.path.relpath(path, start)] *)
Variable relpath : string → string → string.

(** [_load_file] (LayDataSet.py:166-174); [w] is the file at [path].  The
    chart is not modelled.  An exception of [_prepare_processed] would
    leave behind what the method had set before raising; the branch is
    kept for the shape of the [try] only, as [_prepare_processed] never
    raises ([prepare_processed_cases] below). *)
Definition _load_file (g : preview) (path : string) (w : wavfile) : preview :=
  let g := note g (SelectedFile path) in
  match librosa_load w with
  | Raise e => note g (LoadErrorLine e)
  | Ok y =>
      let g := mkPreview (core g) (current_file g) (Some y) (notices g) in
      match _prepare_processed split (core g) y with
      | Ok self => mkPreview self (current_file g) (current_y g) (notices g)
      | Raise e => note g (LoadErrorLine e)
      end
  end.

(** [_select_file] and [_on_file_select] once they have a path
    (LayDataSet.py:133-138, 153-164): an empty path from the dialog
    changes nothing. *)
Definition select_file (g : preview) (path : string) (w : wavfile) : preview :=
  if String.eqb path "" then g
  else _load_file (mkPreview (core g) (Some path) (current_y g) (notices g)) path w.

(** [save_processed_single] (LayDataSet.py:228-242) on the dataset
    tree. *)
Definition save_processed_single (g : preview)
    (ds : gmap string (gmap string wavfile))
    : preview * gmap string (gmap string wavfile) :=
  match current_file g, processed_y (core g) with
  | Some path, Some processed =>
      if String.eqb path "" || (length processed =? 0)%nat then
        (note g NoProcessedAudio, ds)
      else
        let rel := relpath path RECORDINGS_DIR in
        let lf := match split_sep rel with
                  | Some lf => lf
                  | None => ("misc", rel)
                  end in
        let ds := makedirs ds lf.1 in
        let out_path := path_join (path_join OUTPUT_DIR lf.1) lf.2 in
        (note g (SavedProcessed out_path), write_file ds lf.1 lf.2 (sf_write processed))
  | _, _ => (note g NoProcessedAudio, ds)
  end.

(** The loop of [_process_all_worker] (LayDataSet.py:289-293): [notes]
    and [total] are threaded along with the builder and the disk; an
    exception of [_process_label] ends the worker. *)
Fixpoint process_labels (self : builder) (d : disk wavfile) (notes : list notice)
    (total : nat) (labels : list string)
    : result (builder * disk wavfile * list notice * nat) :=
  match labels with
  | [] => Ok (self, d, notes, total)
  | l :: labels' =>
      let notes := notes ++ [StartLabel l] in
      r ← _process_label split librosa_load sf_write self d l;
      process_labels r.1 r.2 notes (S total) labels'
  end.

(** [_process_all_worker] (LayDataSet.py:288-294). *)
Definition _process_all_worker (self : builder) (d : disk wavfile)
    (labels : list string) : result (builder * disk wavfile * list notice) :=
  r ← process_labels self d [] 0%nat labels;
  Ok (r.1.1.1, r.1.1.2, r.1.2 ++ [DoneProcessing r.2]).

(** [_process_all_labels] (LayDataSet.py:284-286): the labels are the
    folders of the recordings tree. *)
Definition _process_all_labels (self : builder) (d : disk wavfile)
    : result (builder * disk wavfile * list notice) :=
  _process_all_worker self d (map_to_list (recordings d)).*1.

End BuilderRest.

Arguments _load_file split {wavfile} librosa_load g path w.
Arguments select_file split {wavfile} librosa_load g path w.
Arguments save_processed_single {wavfile} sf_write relpath g ds.
Arguments process_labels split {wavfile} librosa_load sf_write self d notes total labels.
Arguments _process_all_worker split {wavfile} librosa_load sf_write self d labels.
Arguments _process_all_labels split {wavfile} librosa_load sf_write self d.

(** ** Saved models: VoiceTrainer (train_ver3.py) and VoiceTestGUI (test_ver3.py) *)

(** [for a in l: s = f(s, a)] with exceptions. *)
Fixpoint for_each {S A : Type} (f : S → A → result S) (s : S) (l : list A) : result S :=
  match l with
  | [] => Ok s
  | a :: l' => s' ← f s a; for_each f s' l'
  end.

(** [f"{base_name}_{i}.h5"] (train_ver3.py:203, 205) *)
Definition model_path (base_name : string) (i : nat) : string :=
  base_name +:+ "_" +:+ pretty i +:+ ".h5".

(** [path + "_labels.json"] (train_ver3.py:208, 221; test_ver3.py:82) *)
Definition labels_path (path : string) : string := path +:+ "_labels.json".

(** [{i: l for i, l in enumerate(self.labels)}] (train_ver3.py:207, 220) *)
Definition labelmap (labels : list string) : gmap nat string := map_seq 0 labels.

(** The object [json.dump] writes for a dictionary with integer keys and
    [json.load] reads back: every key is its decimal string. *)
Definition json_dump (m : gmap nat string) : gmap string string := kmap pretty m.

(** The lines the two save methods write (train_ver3.py:210, 214, 223). *)
Inductive save_log : Type :=
| ModelAutoSaved (path : string)    (* "Model auto-saved to", path *)
| NoModelTrainedYet                 (* "No model trained yet" *)
| ModelSaved (path : string).       (* "Model saved to", path *)

(** The messages of the status line (test_ver3.py:29, 76, 87, 89, 93,
    130).  'model loaded' shows the base name of [path]. *)
Inductive status : Type :=
| Ready
| LoadCanceled (group_name : string)
| ModelLoaded (group_name path : string)
| ErrorLoadingModel (group_name : string)
| NoRecordingToPredict
| PredictionDone.

Section Models.

(** A Keras model. *)
Variable model : Type.

(** What a file of the working directory holds for the methods of this
    part: a model as [model.save] writes it, a JSON object with string
    values, or anything else ([load_model] and [json.load] raise on
    it). *)
Inductive artifact : Type :=
| ModelFile (m : model)
| LabelFile (labelmap : gmap string string)
| OtherFile.

(** [model.save(path)] and the label map next to it (train_ver3.py:
    206-209, 219-222). *)
Definition save_with_labels (fs : gmap string artifact) (path : string)
    (m : model) (labels : list string) : gmap string artifact :=
  let fs := <[path := ModelFile m]> fs in
  <[labels_path path := LabelFile (json_dump (labelmap labels))]> fs.

(** The loop [while os.path.exists(f"{base_name}_{i}.h5"): i += 1]
    (train_ver3.py:203-204), for at most [fuel] tests. *)
Fixpoint free_index (fs : gmap string artifact) (base_name : string)
    (fuel i : nat) : option nat :=
  match fuel with
  | O => None
  | S fuel' =>
      match fs !! model_path base_name i with
      | Some _ => free_index fs base_name fuel' (S i)
      | None => Some i
      end
  end.

(** [_auto_save_model] (train_ver3.py:200-210): the path chosen, the
    working directory afterwards and the line logged; [None] when the
    fuel runs out in the loop. *)
Definition _auto_save_model (fuel : nat) (fs : gmap string artifact)
    (base_name : string) (m : model) (labels : list string)
    : option (string * gmap string artifact * save_log) :=
  i ← free_index fs base_name fuel 1;
  let path := model_path base_name i in
  Some (path, save_with_labels fs path m labels, ModelAutoSaved path).

(** [_save_model] (train_ver3.py:212-223) with the path the dialog
    returns. *)
Definition _save_model (fs : gmap string artifact) (trained : option model)
    (path : string) (labels : list string)
    : gmap string artifact * option save_log :=
  match trained with
  | None => (fs, Some NoModelTrainedYet)
  | Some m =>
      if String.eqb path "" then (fs, None)
      else (save_with_labels fs path m labels, Some (ModelSaved path))
  end.

End Models.

Arguments ModelFile {model} m.
Arguments LabelFile {model} labelmap.
Arguments OtherFile {model}.

Module VoiceTestGUI.

(** [LABEL_GROUPS] (test_ver3.py:18) *)
Definition LABEL_GROUPS : list string := ["Action"; "Device"; "Room"].

Section Tester.

Variable model : Type.
Variable wavfile : Type.
Variable librosa_load : wavfile → result (list float).
Variable melspectrogram : list float → result matrix.
Variable power_to_db : matrix → result matrix.

(** [np.argmax(model.predict(mfe, verbose=0))] *)
Variable predict : model → list (list (list (list float))) → nat.

(** The fields of the window the methods below use (test_ver3.py:
    26-30). *)
Record tester : Type := mkTester {
  models : gmap string (option model);
  label_maps : gmap string (gmap string string);
  result_vars : gmap string string;
  status_var : status
}.

(** [__init__] (test_ver3.py:26-30) *)
Definition __init__ : tester :=
  mkTester (list_to_map ((λ name, (name, None)) <$> LABEL_GROUPS))
           (list_to_map ((λ name, (name, ∅)) <$> LABEL_GROUPS))
           (list_to_map ((λ name, (name, EmptyString)) <$> LABEL_GROUPS))
           Ready.

(** [_update_status] (test_ver3.py:132-134) *)
Definition _update_status (t : tester) (msg : status) : tester :=
  mkTester (models t) (label_maps t) (result_vars t) msg.

(** [self.result_vars[group].set(value)] *)
Definition set_result (t : tester) (group value : string) : result tester :=
  match result_vars t !! group with
  | None => Raise KeyError
  | Some _ =>
      Ok (mkTester (models t) (label_maps t) (<[group := value]> (result_vars t))
                   (status_var t))
  end.

(** [_load_model] (test_ver3.py:73-89) with the path the dialog
    returns. *)
Definition _load_model (t : tester) (fs : gmap string (artifact model))
    (group_name path : string) : tester :=
  if String.eqb path "" then _update_status t (LoadCanceled group_name)
  else
    match fs !! path with
    | Some (ModelFile m) =>
        let t := mkTester (<[group_name := Some m]> (models t)) (label_maps t)
                          (result_vars t) (status_var t) in
        match fs !! labels_path path with
        | None => _update_status t (ModelLoaded group_name path)
        | Some (LabelFile lm) =>
            let t := mkTester (models t) (<[group_name := lm]> (label_maps t))
                              (result_vars t) (status_var t) in
            _update_status t (ModelLoaded group_name path)
        | Some _ => _update_status t (ErrorLoadingModel group_name)
        end
    | _ => _update_status t (ErrorLoadingModel group_name)
    end.

(** One iteration of [for group in LABEL_GROUPS] (test_ver3.py:120-128). *)
Definition predict_group (mfe : list (list (list (list float)))) (t : tester)
    (group : string) : result tester :=
  match models t !! group with
  | None => Raise KeyError
  | Some None => set_result t group "No model loaded"
  | Some (Some m) =>
      let idx := predict m mfe in
      match label_maps t !! group with
      | None => Raise KeyError
      | Some lm =>
          let label := default ("Label " +:+ pretty idx) (lm !! pretty idx) in
          set_result t group label
      end
  end.

(** [_predict] (test_ver3.py:91-130); [record] is the file at
    [RECORD_FILE], if there is one. *)
Definition _predict (t : tester) (record : option wavfile) : result tester :=
  match record with
  | None => Ok (_update_status t NoRecordingToPredict)
  | Some w =>
      t ← for_each (λ t group, set_result t group EmptyString) t LABEL_GROUPS;
      y ← librosa_load w;
      mfe ← predict_features melspectrogram power_to_db y;
      t ← for_each (predict_group mfe) t LABEL_GROUPS;
      Ok (_update_status t PredictionDone)
  end.

End Tester.

Arguments mkTester {model} models label_maps result_vars status_var.
Arguments models {model} t.
Arguments label_maps {model} t.
Arguments result_vars {model} t.
Arguments status_var {model} t.
Arguments __init__ {model}.
Arguments _update_status {model} t msg.
Arguments set_result {model} t group value.
Arguments _load_model {model} t fs group_name path.
Arguments predict_group {model} predict mfe t group.
Arguments _predict {model wavfile} librosa_load melspectrogram power_to_db predict t record.

End VoiceTestGUI.

(** ** Vocabulary of the statements *)

(** [end - start], the sample span of an interval. *)
Definition span (iv : interval) : Z := (iv.2 - iv.1)%Z.

(** An interval as the detector's contract describes it:
    [0 <= start < end <= len(waveform)]. *)
Definition valid_interval (y : list float) (iv : interval) : Prop :=
  (0 ≤ iv.1)%Z ∧ (iv.1 < iv.2)%Z ∧ (iv.2 ≤ Z.of_nat (length y))%Z.

(** [iv] is an interval of the list with the greatest span. *)
Definition longest (ivs : list interval) (iv : interval) : Prop :=
  iv ∈ ivs ∧ ∀ iv', iv' ∈ ivs → (span iv' ≤ span iv)%Z.

(** Among the longest intervals, the one that starts first ... *)
Definition earliest_longest (ivs : list interval) (iv : interval) : Prop :=
  longest ivs iv ∧ ∀ iv', longest ivs iv' → (iv.1 ≤ iv'.1)%Z.

(** ... and the one that starts last. *)
Definition latest_longest (ivs : list interval) (iv : interval) : Prop :=
  longest ivs iv ∧ ∀ iv', longest ivs iv' → (iv'.1 ≤ iv.1)%Z.

(** The sum of the spans of a list of intervals. *)
Definition total_span (ivs : list interval) : Z :=
  foldr (λ iv acc, (span iv + acc)%Z) 0%Z ivs.

(** Ascending start-position order, as a stable insertion sort on the
    start. *)
Fixpoint insert_by_start (iv : interval) (ivs : list interval) : list interval :=
  match ivs with
  | [] => [iv]
  | iv' :: rest =>
      if (iv'.1 <? iv.1)%Z then iv' :: insert_by_start iv rest
      else iv :: iv' :: rest
  end.

Definition sort_by_start (ivs : list interval) : list interval :=
  foldr insert_by_start [] ivs.

(** The interval list is in ascending start order. *)
Definition ascending_starts (ivs : list interval) : Prop :=
  StronglySorted (λ a b : interval, (a.1 ≤ b.1)%Z) ivs.

(** The file named [f] in the dataset folder of [label], if any. *)
Definition dataset_file {wavfile : Type} (ds : gmap string (gmap string wavfile))
    (label f : string) : option wavfile :=
  ds !! label ≫= λ dir, dir !! f.

(** The source path the batch loop logs for an entry. *)
Definition src_of {wavfile : Type} (label : string) (entry : string * wavfile) : string :=
  path_join (path_join RECORDINGS_DIR label) entry.1.

(** The name shown for class [idx] of a model trained on [labels]. *)
Definition shown_label (labels : list string) (idx : nat) : string :=
  default ("Label " +:+ pretty idx) (labels !! idx).

(** Every group has its entry in the three dictionaries of the tester,
    as [__init__] sets them up. *)
Definition groups_present {model : Type} (t : VoiceTestGUI.tester model) : Prop :=
  ∀ g, g ∈ VoiceTestGUI.LABEL_GROUPS →
       is_Some (VoiceTestGUI.models t !! g) ∧
       is_Some (VoiceTestGUI.label_maps t !! g) ∧
       is_Some (VoiceTestGUI.result_vars t !! g).

(** The .wav files [_load_dataset] finds for a label. *)
Definition wav_files_of {wavfile : Type} (ds : gmap string (gmap string wavfile))
    (label : string) : list (string * wavfile) :=
  match ds !! label with
  | Some dir => filter (λ e, is_wav e.1 = true) (map_to_list dir)
  | None => []
  end.

(** The 'Error loading' and the 'Folder not found' lines of a log. *)
Definition is_error_loading (m : train_log) : bool :=
  match m with
  | ErrorLoading _ _ => true
  | _ => false
  end.

Definition is_folder_not_found (m : train_log) : bool :=
  match m with
  | FolderNotFound _ => true
  | _ => false
  end.

Definition error_lines (lg : list train_log) : nat :=
  length (filter (λ m, is_error_loading m = true) lg).

Definition missing_lines (lg : list train_log) : nat :=
  length (filter (λ m, is_folder_not_found m = true) lg).

(** A label without a folder in the dataset tree. *)
Definition missing_folder {wavfile : Type} (ds : gmap string (gmap string wavfile))
    (label : string) : bool :=
  match ds !! label with
  | Some _ => false
  | None => true
  end.

Section FloatValue.

Import Reals.


End FloatValue.

(** ** Sample data for the concrete instances below *)

(** A clip of 16384 samples (about a second): two bursts of 4096 samples
    each, at amplitudes 0.5 and 0.25, with silence after each. *)
Definition two_burst_clip : list float :=
  replicate 4096 0.5%float ++ replicate 4096 0%float ++
  replicate 4096 0.25%float ++ replicate 4096 0%float.

(** The intervals of the two bursts. *)
Definition two_bursts : list interval := [(0, 4096); (8192, 12288)]%Z.

(** A detector that reports the two bursts. *)
Definition detect_two_bursts (y : list float) (top_db : float) : list interval :=
  two_bursts.

(** The builder as [__init__] sets it up (top_db 25.0, min_duration 0.2,
    method 'longest'), and the same with method 'concat'. *)
Definition default_builder : builder :=
  mkBuilder 25%float 0x1.999999999999ap-3%float "longest" None [] [].

Definition concat_builder : builder :=
  mkBuilder 25%float 0x1.999999999999ap-3%float "concat" None [] [].

(** The same with a minimum duration of one second. *)
Definition strict_builder : builder :=
  mkBuilder 25%float 1%float "concat" None [] [].

(** A detector that reports every non-empty clip as one burst. *)
Definition detect_whole_clip (y : list float) (top_db : float) : list interval :=
  match y with
  | [] => []
  | _ :: _ => [(0, Z.of_nat (length y))%Z]
  end.

(** A detector that reports every clip as one run, the empty clip as the
    interval (0, 0). *)
Definition detect_one_run (y : list float) (top_db : float) : list interval :=
  [(0, Z.of_nat (length y))%Z].

(** The builder with a minimum duration of zero seconds. *)
Definition lenient_builder : builder :=
  mkBuilder 25%float 0%float "longest" None [] [].

(** A recordings folder 'Bat' with a clip of 4096 samples (0.256 s) and
    one of 1024 samples (0.064 s), and no dataset folder yet.  A file is
    identified with the waveform it decodes to. *)
Definition long_take : string * list float := ("bat_1.wav", replicate 4096 0.5%float).
Definition short_take : string * list float := ("bat_2.wav", replicate 1024 0.5%float).

Definition studio_disk : disk (list float) :=
  mkDisk (<["Bat" := [long_take; short_take]]> ∅) ∅.

(** A stand-in for the mel transform in the concrete instances: one
    frame per sample, every band a copy of the clip. *)
Definition toy_melspectrogram (y : list float) : result matrix :=
  Ok (mkMatrix N_MFCC (length y) (replicate N_MFCC y)).

(** The all-zero matrix of the target shape. *)
Definition zero_features : matrix :=
  mkMatrix N_MFCC MAX_LEN (replicate N_MFCC (replicate MAX_LEN 0%float)).

(** A seeded permutation for the concrete instances: odd seeds reverse. *)
Definition toy_permute {T : Type} (seed : Z) (l : list (T * nat)) : list (T * nat) :=
  if Z.even seed then l else reverse l.

(** 100 kept examples of label 0 (A) and 20 of label 1 (B). *)
Definition hundred_and_twenty : list (unit * nat) :=
  replicate 100 ((), 0) ++ replicate 20 ((), 1).

(** [testFraction = 0.2] *)
Definition one_fifth : QArith_base.Q := QArith_base.Qmake 1 5.

(** What the loops of [_load_dataset] maintain: as many labels as
    tensors, and every label an index below [n]. *)
Definition labelled_below (n : nat) (st : load_state) : Prop :=
  length st.1.1 = length st.1.2 ∧ Forall (λ i, i < n) st.1.2.

(** A dataset tree with one processed file of two samples under 'Bat'. *)
Definition tiny_dataset : gmap string (gmap string (list float)) :=
  <["Bat" := <["bat_1.wav" := [0.5; 0.25]%float]> ∅]> ∅.

Section BatchVocabulary.

Variable split : list float → float → list interval.
Variable wavfile : Type.
Variable librosa_load : wavfile → result (list float).

(** The line one iteration of the batch loop writes for an entry: none
    when the segment is written. *)
Definition clip_line (self : builder) (label : string)
    (entry : string * wavfile) : option log_entry :=
  match process_clip split librosa_load self (src_of label entry) entry.2 with
  | Ok (Skip m) => Some m
  | Ok (Keep _) => None
  | Raise e => Some (ErrorProcessing (src_of label entry) e)
  end.

(** The entries whose segment the batch loop writes. *)
Definition clip_kept (self : builder) (label : string)
    (entry : string * wavfile) : bool :=
  match process_clip split librosa_load self (src_of label entry) entry.2 with
  | Ok (Keep _) => true
  | _ => false
  end.

End BatchVocabulary.

Arguments clip_line split {wavfile} librosa_load self label entry.
Arguments clip_kept split {wavfile} librosa_load self label entry.

(** A stand-in for [os.path.relpath] in the concrete instances: the path
    without the start folder and the separator after it. *)
Definition strip_start (path start : string) : string :=
  String.substring (S (String.length start))
                   (String.length path - S (String.length start)) path.

(** A preview in which nothing has been selected yet. *)
Definition fresh_preview : preview := mkPreview default_builder None None [].

(** A preview that shows the long take while the file selected next does
    not decode. *)
Definition long_take_preview : preview :=
  mkPreview (set_processed_y default_builder long_take.2)
            (Some "recordings/Bat/bat_1.wav") (Some long_take.2) [].

(** A loader that fails on empty files. *)
Definition load_nonempty (w : list float) : result (list float) :=
  match w with
  | [] => Raise LoadError
  | _ :: _ => Ok w
  end.

(** A third file of the folder 'Bat', which that loader cannot read. *)
Definition broken_take : string * list float := ("bat_3.wav", []).

(** A stand-in for a model in the concrete instances: the class it
    answers for every input. *)
Definition constant_predict (m : nat) (mfe : list (list (list (list float)))) : nat := m.

(** A working directory in which the first auto-save name is taken. *)
Definition taken_once : gmap string (artifact nat) :=
  <["Action_1.h5" := OtherFile]> ∅.

(** A working directory with a model and no label file next to it. *)
Definition bare_model : gmap string (artifact nat) :=
  <["b.h5" := ModelFile 0]> ∅.

(** A dataset tree with a file under 'Bat' that the loader of
    [load_nonempty] rejects, and no folder 'Tat'. *)
Definition patchy_dataset : gmap string (gmap string (list float)) :=
  <["Bat" := <["bat_1.wav" := [0.5; 0.25]%float]> (<["bat_3.wav" := []]> ∅)]> ∅.

(** * Properties *)

(** ** The primitives on small inputs *)

Example py_slice_inside :
  py_slice [1; 2; 3; 4; 5]%float 1 3 = [2; 3]%float.
Proof. reflexivity. Qed.

Example py_slice_negative_start :
  py_slice [1; 2; 3; 4; 5]%float (-2) 5 = [4; 5]%float.
Proof. reflexivity. Qed.

Example py_slice_clamped :
  py_slice [1; 2; 3; 4; 5]%float 3 9 = [4; 5]%float ∧
  py_slice [1; 2; 3; 4; 5]%float 4 2 = [].
Proof. split; reflexivity. Qed.

Example list_sort_reverse_ties :
  list_sort_reverse [(2, 0, 2); (1, 3, 4); (2, 5, 7)]%Z = [(2, 5, 7); (2, 0, 2); (1, 3, 4)]%Z.
Proof. vm_compute. reflexivity. Qed.

Example np_concatenate_empty : np_concatenate [] = Raise ValueError.
Proof. reflexivity. Qed.

Example is_wav_cases :
  is_wav "bat_1.wav" = true ∧ is_wav "BAT_2.WAV" = true ∧
  is_wav "notes.txt" = false ∧ is_wav "wav" = false.
Proof. repeat split; reflexivity. Qed.

(** 0.2 s at 16 kHz is 3200 samples: 3200/16000 rounds to the binary64
    nearest 0.2, which is not below it. *)
Example too_short_boundary :
  too_short 3199 (min_duration default_builder) = true ∧
  too_short 3200 (min_duration default_builder) = false.
Proof. split; vm_compute; reflexivity. Qed.

Example select_segment_small :
  select_segment "longest" [1; 2; 3; 4; 5; 6]%float [(0, 1); (2, 5)]%Z = Ok [3; 4; 5]%float ∧
  select_segment "concat" [1; 2; 3; 4; 5; 6]%float [(0, 1); (2, 5)]%Z = Ok [1; 3; 4; 5]%float.
Proof. split; vm_compute; reflexivity. Qed.

Example pad_or_truncate_small :
  pad_or_truncate (mkMatrix 2 1 [[1]; [2]]%float) =
  mkMatrix 2 MAX_LEN [1%float :: replicate 63 0%float; 2%float :: replicate 63 0%float].
Proof. reflexivity. Qed.

Example held_out_count_floors :
  held_out_count one_fifth 100 = 20 ∧ held_out_count one_fifth 20 = 4 ∧
  held_out_count one_fifth 9 = 1.
Proof. repeat split; reflexivity. Qed.

(** ** Slices *)

Lemma slice_index_in_range n i :
  (0 ≤ i ≤ n)%Z → slice_index n i = i.
Proof.
  intros Hi. unfold slice_index.
  destruct (Z.ltb_spec i 0); lia.
Qed.

Lemma py_slice_in_range y s e :
  (0 ≤ s)%Z → (s ≤ e)%Z → (e ≤ Z.of_nat (length y))%Z →
  py_slice y s e = take (Z.to_nat (e - s)) (drop (Z.to_nat s) y).
Proof.
  intros Hs Hse He. unfold py_slice.
  rewrite !slice_index_in_range by lia. reflexivity.
Qed.

Lemma py_slice_length y s e :
  (0 ≤ s)%Z → (s ≤ e)%Z → (e ≤ Z.of_nat (length y))%Z →
  Z.of_nat (length (py_slice y s e)) = (e - s)%Z.
Proof.
  intros Hs Hse He. rewrite py_slice_in_range by lia.
  rewrite length_take, length_drop. lia.
Qed.

Lemma py_slice_valid_nonempty y iv :
  valid_interval y iv → py_slice y iv.1 iv.2 ≠ [].
Proof.
  intros (H0 & Hlt & Hle) Hnil.
  pose proof (py_slice_length y iv.1 iv.2) as Hlen.
  rewrite Hnil in Hlen. simpl in Hlen. lia.
Qed.

(** ** Python's tuple order and the reverse sort *)

Lemma tuple_le_spec (a b : Z * Z * Z) :
  tuple_le a b ↔
  (a.1.1 < b.1.1 ∨ (a.1.1 = b.1.1 ∧ (a.1.2 < b.1.2 ∨ (a.1.2 = b.1.2 ∧ a.2 ≤ b.2))))%Z.
Proof.
  destruct a as [[a1 a2] a3], b as [[b1 b2] b3]. unfold tuple_le, tuple_lt. simpl.
  repeat match goal with
         | |- context [(?x <? ?y)%Z] => destruct (Z.ltb_spec x y)
         end; split; intros; try discriminate; try reflexivity; lia.
Qed.

Lemma tuple_le_trans : Transitive tuple_le.
Proof. intros a b c. rewrite !tuple_le_spec. lia. Qed.

Lemma tuple_le_total : Total tuple_le.
Proof. intros a b. rewrite !tuple_le_spec. lia. Qed.

#[global] Existing Instances tuple_le_trans tuple_le_total.

Lemma tuple_le_antisym a b : tuple_le a b → tuple_le b a → a = b.
Proof.
  rewrite !tuple_le_spec. destruct a as [[a1 a2] a3], b as [[b1 b2] b3]. simpl.
  intros. f_equal; [f_equal|]; lia.
Qed.

(** The first element after [sort(reverse=True)] is a greatest element of
    the list. *)
Lemma list_sort_reverse_head l :
  l ≠ [] →
  ∃ m, index0 (list_sort_reverse l) = Ok m ∧ m ∈ l ∧ ∀ x, x ∈ l → tuple_le x m.
Proof.
  intros Hne. unfold list_sort_reverse.
  pose proof (StronglySorted_merge_sort tuple_le (reverse l)) as Hsorted.
  pose proof (merge_sort_Permutation tuple_le (reverse l)) as Hperm.
  destruct (reverse (merge_sort tuple_le (reverse l))) as [|m rest] eqn:Hrev.
  - apply (f_equal reverse) in Hrev. rewrite reverse_involutive in Hrev.
    rewrite Hrev in Hperm. simpl in Hperm.
    apply Permutation_nil_l in Hperm.
    apply (f_equal reverse) in Hperm. rewrite reverse_involutive in Hperm.
    done.
  - exists m. split; [reflexivity|].
    apply (f_equal reverse) in Hrev. rewrite reverse_involutive, reverse_cons in Hrev.
    rewrite Hrev in Hsorted, Hperm.
    assert (Hin : ∀ x, x ∈ l ↔ x ∈ reverse rest ++ [m]).
    { intros x. rewrite Hperm, elem_of_reverse. done. }
    split.
    + apply Hin, elem_of_app. right. apply list_elem_of_singleton. reflexivity.
    + intros x Hx. apply Hin in Hx. apply elem_of_app in Hx as [Hx|Hx].
      * eapply StronglySorted_app_1_elem_of; [exact Hsorted|exact Hx|].
        apply list_elem_of_singleton. reflexivity.
      * apply list_elem_of_singleton in Hx. subst x.
        destruct (total tuple_le m m); done.
Qed.

(** ** The policy branch *)

Lemma longest_span_eq ivs iv iv' :
  longest ivs iv → longest ivs iv' → span iv = span iv'.
Proof.
  intros [Hin Hmax] [Hin' Hmax'].
  specialize (Hmax _ Hin'). specialize (Hmax' _ Hin). lia.
Qed.

(** 'longest' on a non-empty list: the slice of the longest interval that
    starts last. *)
Lemma select_segment_longest y ivs :
  ivs ≠ [] →
  ∃ iv, latest_longest ivs iv ∧
        select_segment "longest" y ivs = Ok (py_slice y iv.1 iv.2).
Proof.
  intros Hne. unfold select_segment. simpl String.eqb. cbv iota.
  set (key := λ iv : interval, ((iv.2 - iv.1)%Z, iv.1, iv.2)).
  destruct (list_sort_reverse_head (map key ivs)) as (m & Hhead & Hin & Hmax).
  { destruct ivs; [done|discriminate]. }
  apply list_elem_of_fmap in Hin as (iv & -> & Hiv).
  exists iv. rewrite Hhead. split; [|reflexivity].
  assert (Hle : ∀ iv', iv' ∈ ivs → tuple_le (key iv') (key iv)).
  { intros iv' Hiv'. apply Hmax, list_elem_of_fmap. eauto. }
  assert (Hlongest : longest ivs iv).
  { split; [exact Hiv|]. intros iv' Hiv'.
    specialize (Hle _ Hiv'). apply tuple_le_spec in Hle.
    unfold key, span in *. simpl in Hle. lia. }
  split; [exact Hlongest|].
  intros iv' Hlongest'.
  pose proof (longest_span_eq _ _ _ Hlongest Hlongest') as Hspan.
  destruct Hlongest' as [Hiv' _].
  specialize (Hle _ Hiv'). apply tuple_le_spec in Hle.
  unfold key, span in *. simpl in Hle. lia.
Qed.

(** Any other method on a non-empty list: the slices in list order. *)
Lemma select_segment_concat method y ivs :
  method ≠ "longest" → ivs ≠ [] →
  select_segment method y ivs = Ok (concat (map (λ iv : interval, py_slice y iv.1 iv.2) ivs)).
Proof.
  intros Hm Hne. unfold select_segment.
  destruct (String.eqb_spec method "longest") as [->|_]; [done|].
  destruct ivs; [done|reflexivity].
Qed.

Lemma select_segment_total method y ivs :
  ivs ≠ [] → is_Ok (select_segment method y ivs).
Proof.
  intros Hne. destruct (decide (method = "longest")) as [->|Hm].
  - destruct (select_segment_longest y ivs Hne) as (iv & _ & ->). by eexists.
  - rewrite select_segment_concat by done. by eexists.
Qed.

Lemma select_segment_nil method y :
  select_segment method y [] =
  Raise (if String.eqb method "longest" then IndexError else ValueError).
Proof. unfold select_segment. destruct (String.eqb method "longest"); reflexivity. Qed.

(** With intervals as the detector describes them the selected segment
    has samples. *)
Lemma select_segment_nonempty method y ivs p :
  ivs ≠ [] → Forall (valid_interval y) ivs →
  select_segment method y ivs = Ok p → p ≠ [].
Proof.
  intros Hne Hvalid Hsel. destruct (decide (method = "longest")) as [->|Hm].
  - destruct (select_segment_longest y ivs Hne) as (iv & [[Hin _] _] & Heq).
    rewrite Heq in Hsel. injection Hsel as <-.
    apply py_slice_valid_nonempty.
    rewrite Forall_forall in Hvalid. by apply Hvalid.
  - rewrite select_segment_concat in Hsel by done. injection Hsel as <-.
    destruct ivs as [|iv ivs]; [done|].
    apply Forall_cons in Hvalid as [Hiv _]. simpl.
    pose proof (py_slice_valid_nonempty y iv Hiv).
    destruct (py_slice y iv.1 iv.2); [done|discriminate].
Qed.

(** ** The preview path *)

Section PreviewPath.

Variable split : list float → float → list interval.

(** [_prepare_processed] never raises, and its outcome has one of three
    shapes. *)
Lemma prepare_processed_cases self y :
  ∃ self', _prepare_processed split self y = Ok self' ∧
    intervals self' = split y (top_db self) ∧
    ((split y (top_db self) = [] ∧ processed_y self' = Some []) ∨
     (split y (top_db self) ≠ [] ∧
      ∃ p, select_segment (method self) y (split y (top_db self)) = Ok p ∧
           processed_y self' =
             Some (if too_short (length p) (min_duration self) then [] else p))).
Proof.
  unfold _prepare_processed. simpl.
  destruct (split y (top_db self)) as [|iv ivs] eqn:Hivs; simpl.
  - eexists. split; [reflexivity|]. simpl. split; [reflexivity|]. left. done.
  - destruct (select_segment_total (method self) y (iv :: ivs)) as [p Hp]; [done|].
    rewrite Hp. simpl.
    destruct (too_short (length p) (min_duration self)) eqn:Hshort.
    + eexists. split; [reflexivity|]. simpl. split; [reflexivity|].
      right. split; [done|]. exists p. rewrite Hshort. done.
    + eexists. split; [reflexivity|]. simpl. split; [reflexivity|].
      right. split; [done|]. exists p. rewrite Hshort. done.
Qed.

End PreviewPath.

(** ** The batch path *)

Section BatchPath.

Variable split : list float → float → list interval.
Variable wavfile : Type.
Variable librosa_load : wavfile → result (list float).
Variable sf_write : list float → wavfile.

(** The [try] body raises only when the loader does; otherwise its
    outcome has one of three shapes. *)
Lemma process_clip_cases self src w :
  (∃ e, librosa_load w = Raise e ∧ process_clip split librosa_load self src w = Raise e) ∨
  (∃ y, librosa_load w = Ok y ∧
     ((split y (top_db self) = [] ∧ process_clip split librosa_load self src w = Ok (Skip (NoActivity src))) ∨
      (split y (top_db self) ≠ [] ∧
       ∃ p, select_segment (method self) y (split y (top_db self)) = Ok p ∧
            process_clip split librosa_load self src w =
              Ok (if too_short (length p) (min_duration self)
                  then Skip (TooShortSkip src) else Keep p)))).
Proof.
  unfold process_clip.
  destruct (librosa_load w) as [y|e] eqn:Hload; simpl; [right|left; eauto].
  exists y. split; [reflexivity|].
  destruct (split y (top_db self)) as [|iv ivs] eqn:Hivs; simpl; [left; done|right].
  split; [done|].
  destruct (select_segment_total (method self) y (iv :: ivs)) as [p Hp]; [done|].
  exists p. rewrite Hp. simpl. split; [reflexivity|].
  destruct (too_short (length p) (min_duration self)); reflexivity.
Qed.

Lemma process_clip_same_config a b src w :
  same_config a b → process_clip split librosa_load a src w = process_clip split librosa_load b src w.
Proof.
  intros (Htop & Hmin & Hmethod). unfold process_clip.
  rewrite Htop, Hmin, Hmethod. reflexivity.
Qed.

Lemma rejected_same_config a b label entry :
  same_config a b → rejected_too_short split librosa_load a label entry = rejected_too_short split librosa_load b label entry.
Proof.
  intros Hab. unfold rejected_too_short.
  rewrite (process_clip_same_config a b) by done. reflexivity.
Qed.

Lemma same_config_log a b m : same_config a b → same_config a (_log b m).
Proof. intros H. exact H. Qed.

Lemma same_config_sym a b : same_config a b → same_config b a.
Proof. intros (? & ? & ?). by repeat split. Qed.

Lemma same_config_trans a b c : same_config a b → same_config b c → same_config a c.
Proof. intros (? & ? & ?) (? & ? & ?). repeat split; congruence. Qed.

(** A rejected recording changes nothing but the log. *)
Lemma process_file_rejected label self ds count entry :
  rejected_too_short split librosa_load self label entry = true →
  process_file split librosa_load sf_write label (self, ds, count) entry =
  (_log self (TooShortSkip (src_of label entry)), ds, count).
Proof.
  unfold rejected_too_short, process_file, src_of.
  set (src := path_join _ _).
  destruct (process_clip_cases self src entry.2)
    as [(e & _ & ->)|(y & _ & [[_ ->]|(_ & p & _ & ->)])]; try discriminate.
  destruct (too_short (length p) (min_duration self)); [reflexivity|discriminate].
Qed.

(** One iteration keeps the settings and only ever adds to the log. *)
Lemma process_file_frame label self ds count entry :
  ∃ self' ds' count',
    process_file split librosa_load sf_write label (self, ds, count) entry = (self', ds', count') ∧
    same_config self self' ∧
    ∀ m, m ∈ txt_log self → m ∈ txt_log self'.
Proof.
  unfold process_file.
  destruct (process_clip split librosa_load self _ entry.2) as [[m|proc]|e];
    do 3 eexists; (split; [reflexivity|]); (split; [done|]);
    intros m' Hm'; simpl; try apply elem_of_app; auto.
Qed.

(** The loop as a whole keeps the settings and the earlier log lines. *)
Lemma process_files_frame label files :
  ∀ self ds count,
    ∃ self' ds' count',
      foldl (process_file split librosa_load sf_write label) (self, ds, count) files
        = (self', ds', count') ∧
      same_config self self' ∧
      ∀ m, m ∈ txt_log self → m ∈ txt_log self'.
Proof.
  induction files as [|entry files IH]; intros self ds count; cbn [foldl].
  - do 3 eexists. split; [reflexivity|]. split; [by repeat split|]. auto.
  - destruct (process_file_frame label self ds count entry)
      as (s & ds1 & c1 & -> & Hcfg & Hlog).
    destruct (IH s ds1 c1) as (s' & ds' & c' & -> & Hcfg' & Hlog').
    do 3 eexists. split; [reflexivity|].
    split; [by eapply same_config_trans|]. auto.
Qed.

(** Every rejected recording of the folder leaves its line in the log. *)
Lemma process_files_skip_logged label files entry :
  ∀ self ds count,
    entry ∈ files →
    rejected_too_short split librosa_load self label entry = true →
    ∃ self' ds' count',
      foldl (process_file split librosa_load sf_write label) (self, ds, count) files
        = (self', ds', count') ∧
      TooShortSkip (src_of label entry) ∈ txt_log self'.
Proof.
  induction files as [|e files IH]; intros self ds count Hin Hrej.
  - by apply elem_of_nil in Hin.
  - cbn [foldl]. apply elem_of_cons in Hin as [<-|Hin].
    + rewrite process_file_rejected by done.
      destruct (process_files_frame label files (_log self (TooShortSkip (src_of label entry))) ds count)
        as (s' & ds' & c' & Hfold & _ & Hlog).
      unfold src_of in *. rewrite Hfold.
      do 3 eexists. split; [reflexivity|].
      apply Hlog. simpl. apply elem_of_app. right. by apply list_elem_of_singleton.
    + destruct (process_file_frame label self ds count e)
        as (s & ds1 & c1 & -> & Hcfg & _).
      apply IH; [done|].
      rewrite <- (rejected_same_config self s) by done. done.
Qed.

(** The dataset tree, and the count, are those of a run over the folder
    without its rejected recordings. *)
Lemma process_files_without_rejected label self0 files :
  ∀ self self' ds count,
    same_config self0 self → same_config self0 self' →
    ∃ s1 s2 ds' count',
      foldl (process_file split librosa_load sf_write label) (self, ds, count) files
        = (s1, ds', count') ∧
      foldl (process_file split librosa_load sf_write label) (self', ds, count)
            (filter (λ e, rejected_too_short split librosa_load self0 label e = false) files)
        = (s2, ds', count').
Proof.
  induction files as [|e files IH]; intros self self' ds count Hcfg Hcfg'.
  - cbn [foldl filter]. by do 4 eexists.
  - destruct (rejected_too_short split librosa_load self0 label e) eqn:Hrej.
    + rewrite filter_cons_False by (rewrite Hrej; done). cbn [foldl].
      rewrite process_file_rejected
        by (rewrite <- (rejected_same_config self0 self) by done; done).
      apply IH; [|done]. by apply same_config_log.
    + rewrite filter_cons_True by done. cbn [foldl].
      unfold process_file at 2 4.
      rewrite <- (process_clip_same_config self0 self) by done.
      rewrite <- (process_clip_same_config self0 self') by done.
      destruct (process_clip split librosa_load self0 _ e.2) as [[m|proc]|err];
        apply IH; done || by apply same_config_log.
Qed.

(** A name whose recordings are all turned away keeps the file it had in
    the dataset folder. *)
Lemma process_files_file_kept label f files :
  ∀ self ds count,
    (∀ e, e ∈ files → e.1 = f →
          rejected_too_short split librosa_load self label e = true) →
    ∃ self' ds' count',
      foldl (process_file split librosa_load sf_write label) (self, ds, count) files
        = (self', ds', count') ∧
      dataset_file ds' label f = dataset_file ds label f.
Proof.
  induction files as [|e files IH]; intros self ds count Hall; cbn [foldl].
  - by do 3 eexists.
  - assert (Htail : ∀ s, same_config self s →
              ∀ e', e' ∈ files → e'.1 = f →
                    rejected_too_short split librosa_load s label e' = true).
    { intros s Hs e' He' Hf. rewrite <- (rejected_same_config self s) by done.
      apply Hall; [by apply elem_of_cons; right|done]. }
    destruct (decide (e.1 = f)) as [Hf|Hf].
    + rewrite process_file_rejected by (apply Hall; [by apply elem_of_cons; left|done]).
      apply IH, Htail. by apply same_config_log.
    + unfold process_file at 2.
      destruct (process_clip split librosa_load self _ e.2) as [[m|proc]|err].
      * apply IH, Htail. by apply same_config_log.
      * destruct (IH self (write_file ds label e.1 (sf_write proc)) (S count))
          as (s' & ds' & c' & -> & Hfile); [by apply Htail|].
        do 3 eexists. split; [reflexivity|]. rewrite Hfile.
        unfold dataset_file, write_file. rewrite lookup_insert_eq. simpl.
        rewrite lookup_insert_ne by done.
        destruct (ds !! label); reflexivity.
      * apply IH, Htail. by apply same_config_log.
Qed.

End BatchPath.

(** ** The selection claims *)

Lemma concat_slices_length y ivs :
  Forall (valid_interval y) ivs →
  Z.of_nat (length (concat (map (λ iv : interval, py_slice y iv.1 iv.2) ivs))) = total_span ivs.
Proof.
  induction 1 as [|iv ivs (H0 & Hlt & Hle) _ IH]; [reflexivity|].
  simpl. rewrite length_app, Nat2Z.inj_add, IH.
  rewrite py_slice_length by lia. reflexivity.
Qed.

Lemma sort_by_start_ascending ivs :
  ascending_starts ivs → sort_by_start ivs = ivs.
Proof.
  induction 1 as [|iv ivs _ IH Hall]; [reflexivity|].
  unfold sort_by_start in *. cbn [foldr]. rewrite IH.
  destruct Hall as [|iv' rest Hle _]; [reflexivity|].
  cbn [insert_by_start]. destruct (Z.ltb_spec iv'.1 iv.1); [lia|reflexivity].
Qed.

Section Selection.

Variable split : list float → float → list interval.
Variable wavfile : Type.
Variable librosa_load : wavfile → result (list float).

(** C1 (as amended): with method 'longest' and at least one interval, the
    selected segment is the waveform slice of an interval of greatest span
    (end - start), and among several intervals of that span it is the one
    with the LATEST start; both paths then apply the minimum-duration test
    to that slice. *)
Theorem longest_policy_takes_latest_longest self y :
  method self = "longest" →
  split y (top_db self) ≠ [] →
  ∃ iv, latest_longest (split y (top_db self)) iv ∧
    select_segment (method self) y (split y (top_db self)) = Ok (py_slice y iv.1 iv.2) ∧
    (∃ self', _prepare_processed split self y = Ok self' ∧
       processed_y self' =
         Some (if too_short (length (py_slice y iv.1 iv.2)) (min_duration self)
               then [] else py_slice y iv.1 iv.2)) ∧
    (∀ src w, librosa_load w = Ok y →
       process_clip split librosa_load self src w =
         Ok (if too_short (length (py_slice y iv.1 iv.2)) (min_duration self)
             then Skip (TooShortSkip src) else Keep (py_slice y iv.1 iv.2))).
Proof.
  intros Hm Hne.
  destruct (select_segment_longest y _ Hne) as (iv & Hiv & Hsel).
  rewrite <- Hm in Hsel.
  exists iv. split; [exact Hiv|]. split; [exact Hsel|]. split.
  - destruct (prepare_processed_cases split self y)
      as (self' & Hrun & _ & [[Hnil _]|(_ & p & Hp & Hproc)]); [done|].
    rewrite Hsel in Hp. injection Hp as <-. eauto.
  - intros src w Hload.
    destruct (process_clip_cases split wavfile librosa_load self src w)
      as [(e & He & _)|(y' & Hy' & Hcases)]; [congruence|].
    rewrite Hload in Hy'. injection Hy' as <-.
    destruct Hcases as [[Hnil _]|(_ & p & Hp & Hclip)]; [done|].
    rewrite Hsel in Hp. injection Hp as <-. exact Hclip.
Qed.

(** C4: with method 'concat' (any method but 'longest'), at least one
    interval, and intervals as the detector's contract gives them (inside
    the waveform, in ascending start order), the selected segment is the
    concatenation of the interval slices in ascending start order and its
    length is the sum of the spans; both paths then apply the
    minimum-duration test to it. *)
Theorem concatenate_policy_joins_slices self y :
  method self ≠ "longest" →
  split y (top_db self) ≠ [] →
  Forall (valid_interval y) (split y (top_db self)) →
  ascending_starts (split y (top_db self)) →
  ∃ p, select_segment (method self) y (split y (top_db self)) = Ok p ∧
    p = concat (map (λ iv : interval, py_slice y iv.1 iv.2)
                    (sort_by_start (split y (top_db self)))) ∧
    Z.of_nat (length p) = total_span (split y (top_db self)) ∧
    (∃ self', _prepare_processed split self y = Ok self' ∧
       processed_y self' =
         Some (if too_short (length p) (min_duration self) then [] else p)) ∧
    (∀ src w, librosa_load w = Ok y →
       process_clip split librosa_load self src w =
         Ok (if too_short (length p) (min_duration self)
             then Skip (TooShortSkip src) else Keep p)).
Proof.
  intros Hm Hne Hvalid Hasc.
  pose proof (select_segment_concat (method self) y _ Hm Hne) as Hsel.
  eexists. split; [exact Hsel|].
  split; [by rewrite sort_by_start_ascending|].
  split; [by apply concat_slices_length|]. split.
  - destruct (prepare_processed_cases split self y)
      as (self' & Hrun & _ & [[Hnil _]|(_ & p & Hp & Hproc)]); [done|].
    rewrite Hsel in Hp. injection Hp as <-. eauto.
  - intros src w Hload.
    destruct (process_clip_cases split wavfile librosa_load self src w)
      as [(e & He & _)|(y' & Hy' & Hcases)]; [congruence|].
    rewrite Hload in Hy'. injection Hy' as <-.
    destruct Hcases as [[Hnil _]|(_ & p & Hp & Hclip)]; [done|].
    rewrite Hsel in Hp. injection Hp as <-. exact Hclip.
Qed.

End Selection.

Lemma longest_policy_witness :
  method default_builder = "longest" ∧
  detect_two_bursts two_burst_clip (top_db default_builder) ≠ [] ∧
  ∃ iv, latest_longest (detect_two_bursts two_burst_clip (top_db default_builder)) iv ∧
    select_segment (method default_builder) two_burst_clip
      (detect_two_bursts two_burst_clip (top_db default_builder))
      = Ok (py_slice two_burst_clip iv.1 iv.2) ∧
    (∃ self', _prepare_processed detect_two_bursts default_builder two_burst_clip = Ok self' ∧
       processed_y self' =
         Some (if too_short (length (py_slice two_burst_clip iv.1 iv.2))
                            (min_duration default_builder)
               then [] else py_slice two_burst_clip iv.1 iv.2)) ∧
    (∀ src w, @Ok (list float) w = Ok two_burst_clip →
       process_clip detect_two_bursts Ok default_builder src w =
         Ok (if too_short (length (py_slice two_burst_clip iv.1 iv.2))
                          (min_duration default_builder)
             then Skip (TooShortSkip src) else Keep (py_slice two_burst_clip iv.1 iv.2))).
Proof.
  split; [reflexivity|]. split; [discriminate|].
  apply (longest_policy_takes_latest_longest detect_two_bursts (list float) Ok
           default_builder two_burst_clip); [reflexivity|discriminate].
Defined.

Lemma float_half_quarter : 0.25%float ≠ 0.5%float.
Proof.
  intros H. apply (f_equal (λ x, PrimFloat.eqb x 0.5%float)) in H.
  vm_compute in H. discriminate.
Qed.

(** C1, the tie as the claim states it: on a clip with two bursts of the
    same span (4096 samples, at 0 and at 8192) the preview path with the
    default settings keeps the second burst, while the burst of greatest
    span with the earliest start is the first one. *)
Lemma longest_policy_tie_keeps_later_burst :
  earliest_longest two_bursts (0, 4096)%Z ∧
  ∃ self', _prepare_processed detect_two_bursts default_builder two_burst_clip = Ok self' ∧
    processed_y self' = Some (py_slice two_burst_clip 8192 12288) ∧
    ∀ iv, earliest_longest two_bursts iv →
          processed_y self' ≠ Some (py_slice two_burst_clip iv.1 iv.2).
Proof.
  assert (Hlongest : ∀ iv, iv ∈ two_bursts → longest two_bursts iv).
  { intros iv Hiv. split; [exact Hiv|]. intros iv' Hiv'.
    unfold two_bursts in *.
    repeat (apply elem_of_cons in Hiv as [->|Hiv]);
      repeat (apply elem_of_cons in Hiv' as [->|Hiv']);
      try (by apply elem_of_nil in Hiv); try (by apply elem_of_nil in Hiv');
      unfold span; simpl; lia. }
  assert (Hfirst : (0, 4096)%Z ∈ two_bursts) by (unfold two_bursts; left).
  assert (Hearliest : earliest_longest two_bursts (0, 4096)%Z).
  { split; [by apply Hlongest|]. intros iv' [Hiv' _]. unfold two_bursts in Hiv'.
    repeat (apply elem_of_cons in Hiv' as [->|Hiv']);
      try (by apply elem_of_nil in Hiv'); simpl; lia. }
  split; [exact Hearliest|].
  eexists. split; [vm_compute; reflexivity|].
  split; [vm_compute; reflexivity|].
  intros iv [[Hiv _] Hmin].
  specialize (Hmin _ (Hlongest _ Hfirst)). simpl in Hmin.
  unfold two_bursts in Hiv.
  repeat (apply elem_of_cons in Hiv as [->|Hiv]);
    try (by apply elem_of_nil in Hiv); simpl in Hmin; [|lia].
  intros H.
  apply (f_equal (λ o, match o with Some (x :: _) => x | _ => 0%float end)) in H.
  vm_compute in H. by apply float_half_quarter.
Qed.

Lemma two_burst_clip_length : Z.of_nat (length two_burst_clip) = 16384%Z.
Proof. vm_compute. reflexivity. Qed.

Lemma two_bursts_valid : Forall (valid_interval two_burst_clip) two_bursts.
Proof.
  unfold two_bursts, valid_interval.
  rewrite !Forall_cons, two_burst_clip_length. cbn [fst snd].
  repeat split; try lia. apply Forall_nil_2.
Qed.

Lemma two_bursts_ascending : ascending_starts two_bursts.
Proof.
  unfold two_bursts, ascending_starts.
  repeat (apply SSorted_cons || apply SSorted_nil || apply Forall_cons_2
          || apply Forall_nil_2); cbn [fst snd]; lia.
Qed.

Lemma concatenate_policy_witness :
  method concat_builder ≠ "longest" ∧
  ∃ p, select_segment (method concat_builder) two_burst_clip
         (detect_two_bursts two_burst_clip (top_db concat_builder)) = Ok p ∧
    p = concat (map (λ iv : interval, py_slice two_burst_clip iv.1 iv.2)
                    (sort_by_start (detect_two_bursts two_burst_clip (top_db concat_builder)))) ∧
    Z.of_nat (length p) = total_span (detect_two_bursts two_burst_clip (top_db concat_builder)) ∧
    (∃ self', _prepare_processed detect_two_bursts concat_builder two_burst_clip = Ok self' ∧
       processed_y self' =
         Some (if too_short (length p) (min_duration concat_builder) then [] else p)) ∧
    (∀ src w, @Ok (list float) w = Ok two_burst_clip →
       process_clip detect_two_bursts Ok concat_builder src w =
         Ok (if too_short (length p) (min_duration concat_builder)
             then Skip (TooShortSkip src) else Keep p)).
Proof.
  split; [discriminate|].
  apply (concatenate_policy_joins_slices detect_two_bursts (list float) Ok
           concat_builder two_burst_clip).
  - discriminate.
  - discriminate.
  - exact two_bursts_valid.
  - exact two_bursts_ascending.
Defined.

(** ** The admission rule and totality of the per-clip processing *)

Section Admission.

Variable split : list float → float → list interval.
Variable wavfile : Type.
Variable librosa_load : wavfile → result (list float).

(** The two paths in terms of [too_short]. *)
Lemma admission_cases self y :
  (∃ self', _prepare_processed split self y = Ok self' ∧
     (split y (top_db self) = [] → processed_y self' = Some []) ∧
     (∀ p, select_segment (method self) y (split y (top_db self)) = Ok p →
           too_short (length p) (min_duration self) = true →
           processed_y self' = Some []) ∧
     (∀ p, select_segment (method self) y (split y (top_db self)) = Ok p →
           too_short (length p) (min_duration self) = false →
           processed_y self' = Some p) ∧
     (processed_y self' = Some [] ↔
        split y (top_db self) = [] ∨
        ∃ p, select_segment (method self) y (split y (top_db self)) = Ok p ∧
             (too_short (length p) (min_duration self) = true ∨ p = [])) ∧
     (Forall (valid_interval y) (split y (top_db self)) →
      processed_y self' = Some [] →
      split y (top_db self) = [] ∨
      ∃ p, select_segment (method self) y (split y (top_db self)) = Ok p ∧
           too_short (length p) (min_duration self) = true)) ∧
  (∀ src w, librosa_load w = Ok y →
     ((∃ m, process_clip split librosa_load self src w = Ok (Skip m)) ↔
        split y (top_db self) = [] ∨
        ∃ p, select_segment (method self) y (split y (top_db self)) = Ok p ∧
             too_short (length p) (min_duration self) = true) ∧
     (∀ p, select_segment (method self) y (split y (top_db self)) = Ok p →
           too_short (length p) (min_duration self) = false →
           process_clip split librosa_load self src w = Ok (Keep p))).
Proof.
  split.
  - destruct (prepare_processed_cases split self y)
      as (self' & Hrun & _ & [[Hnil Hproc]|(Hne & p0 & Hp0 & Hproc)]);
      exists self'; (split; [exact Hrun|]).
    + split; [done|]. split; [|split; [|split]].
      * intros p Hp. rewrite Hnil, select_segment_nil in Hp. discriminate.
      * intros p Hp. rewrite Hnil, select_segment_nil in Hp. discriminate.
      * split; auto.
      * auto.
    + split; [done|]. split; [|split; [|split]].
      * intros p Hp Hshort. rewrite Hp in Hp0. injection Hp0 as <-.
        by rewrite Hproc, Hshort.
      * intros p Hp Hlong. rewrite Hp in Hp0. injection Hp0 as <-.
        by rewrite Hproc, Hlong.
      * rewrite Hproc. split.
        -- intros Hempty. right. exists p0. split; [exact Hp0|].
           destruct (too_short (length p0) (min_duration self)); [by left|right].
           congruence.
        -- intros [Hnil|(p & Hp & Hcase)]; [done|].
           rewrite Hp in Hp0. injection Hp0 as <-.
           destruct Hcase as [->| ->]; [reflexivity|].
           by destruct (too_short _ _).
      * intros Hvalid Hempty. right. exists p0. split; [exact Hp0|].
        pose proof (select_segment_nonempty _ _ _ _ Hne Hvalid Hp0) as Hp0ne.
        destruct (too_short (length p0) (min_duration self)); [reflexivity|].
        rewrite Hproc in Hempty. destruct p0; [done|discriminate].
  - intros src w Hload.
    destruct (process_clip_cases split wavfile librosa_load self src w)
      as [(e & He & _)|(y' & Hy' & Hcases)]; [congruence|].
    rewrite Hload in Hy'. injection Hy' as <-.
    destruct Hcases as [[Hnil Hclip]|(Hne & p0 & Hp0 & Hclip)].
    + split; [split; eauto|].
      intros p Hp. rewrite Hnil, select_segment_nil in Hp. discriminate.
    + destruct (too_short (length p0) (min_duration self)) eqn:Hshort.
      * split; [split; eauto|]. intros p Hp Hlong. congruence.
      * split.
        -- rewrite Hclip. split.
           ++ intros [m Hm]. discriminate.
           ++ intros [Hnil|(p & Hp & Hshort')]; [done|congruence].
        -- intros p Hp _. congruence.
Qed.

(** C2 (as amended): the preview path leaves an empty processed segment
    when there is no interval (whatever the method) and when the selected
    segment lasts strictly less than min_duration, that is when
    len / 16000, a binary64 division, is below min_duration in binary64;
    in every other case it leaves the selected segment unchanged.  The
    processed segment is empty in exactly these two cases and when the
    selected segment is itself empty; for intervals with
    0 <= start < end <= len the selected segment is never empty, so that
    the two cases are then the only ones.  The batch path skips the file
    in exactly the two cases and otherwise keeps the selected segment. *)
Theorem admission_rule self y :
  (∃ self', _prepare_processed split self y = Ok self' ∧
     (split y (top_db self) = [] → processed_y self' = Some []) ∧
     (∀ p, select_segment (method self) y (split y (top_db self)) = Ok p →
           PrimFloat.ltb
             (PrimFloat.div (PrimFloat.of_uint63 (Uint63.of_Z (Z.of_nat (length p))))
                            (PrimFloat.of_uint63 (Uint63.of_Z 16000)))
             (min_duration self) = true →
           processed_y self' = Some []) ∧
     (∀ p, select_segment (method self) y (split y (top_db self)) = Ok p →
           PrimFloat.ltb
             (PrimFloat.div (PrimFloat.of_uint63 (Uint63.of_Z (Z.of_nat (length p))))
                            (PrimFloat.of_uint63 (Uint63.of_Z 16000)))
             (min_duration self) = false →
           processed_y self' = Some p) ∧
     (processed_y self' = Some [] ↔
        split y (top_db self) = [] ∨
        ∃ p, select_segment (method self) y (split y (top_db self)) = Ok p ∧
             (PrimFloat.ltb
                (PrimFloat.div (PrimFloat.of_uint63 (Uint63.of_Z (Z.of_nat (length p))))
                               (PrimFloat.of_uint63 (Uint63.of_Z 16000)))
                (min_duration self) = true ∨ p = [])) ∧
     (Forall (valid_interval y) (split y (top_db self)) →
      processed_y self' = Some [] →
      split y (top_db self) = [] ∨
      ∃ p, select_segment (method self) y (split y (top_db self)) = Ok p ∧
           PrimFloat.ltb
             (PrimFloat.div (PrimFloat.of_uint63 (Uint63.of_Z (Z.of_nat (length p))))
                            (PrimFloat.of_uint63 (Uint63.of_Z 16000)))
             (min_duration self) = true)) ∧
  (∀ src w, librosa_load w = Ok y →
     ((∃ m, process_clip split librosa_load self src w = Ok (Skip m)) ↔
        split y (top_db self) = [] ∨
        ∃ p, select_segment (method self) y (split y (top_db self)) = Ok p ∧
             PrimFloat.ltb
               (PrimFloat.div (PrimFloat.of_uint63 (Uint63.of_Z (Z.of_nat (length p))))
                              (PrimFloat.of_uint63 (Uint63.of_Z 16000)))
               (min_duration self) = true) ∧
     (∀ p, select_segment (method self) y (split y (top_db self)) = Ok p →
           PrimFloat.ltb
             (PrimFloat.div (PrimFloat.of_uint63 (Uint63.of_Z (Z.of_nat (length p))))
                            (PrimFloat.of_uint63 (Uint63.of_Z 16000)))
             (min_duration self) = false →
           process_clip split librosa_load self src w = Ok (Keep p))).
Proof.
  assert (Hdur : ∀ n m,
            too_short n m =
            PrimFloat.ltb
              (PrimFloat.div (PrimFloat.of_uint63 (Uint63.of_Z (Z.of_nat n)))
                             (PrimFloat.of_uint63 (Uint63.of_Z 16000))) m)
    by reflexivity.
  destruct (admission_cases self y)
    as [(self' & Hrun & Hnil & Hshort & Hlong & Hiff & Hvalid) Hbatch].
  split.
  - exists self'. split; [exact Hrun|]. split; [exact Hnil|].
    split; [|split; [|split]].
    + intros p Hp Hlt. apply (Hshort p Hp). by rewrite Hdur.
    + intros p Hp Hge. apply (Hlong p Hp). by rewrite Hdur.
    + rewrite Hiff. split.
      * intros [Hempty|(p & Hp & Hcase)]; [by left|right].
        exists p. split; [exact Hp|]. by rewrite <- Hdur.
      * intros [Hempty|(p & Hp & Hcase)]; [by left|right].
        exists p. split; [exact Hp|]. by rewrite Hdur.
    + intros Hivs Hempty.
      destruct (Hvalid Hivs Hempty) as [Hnone|(p & Hp & Hlt)]; [by left|right].
      exists p. split; [exact Hp|]. by rewrite <- Hdur.
  - intros src w Hload. destruct (Hbatch src w Hload) as [Hskip Hkeep]. split.
    + rewrite Hskip. split.
      * intros [Hempty|(p & Hp & Hlt)]; [by left|right].
        exists p. split; [exact Hp|]. by rewrite <- Hdur.
      * intros [Hempty|(p & Hp & Hlt)]; [by left|right].
        exists p. split; [exact Hp|]. by rewrite Hdur.
    + intros p Hp Hge. apply (Hkeep p Hp). by rewrite Hdur.
Qed.

(** C10: neither path ever reaches the policy branch with zero intervals.
    The branch itself raises on an empty list (IndexError from
    [lengths[0]], ValueError from [np.concatenate]) and succeeds on every
    non-empty one; [_prepare_processed] returns normally on every input;
    and the [try] body of the batch loop raises only what the loader
    raises. *)
Theorem policy_branch_guarded :
  (∀ method y,
     select_segment method y [] =
     Raise (if String.eqb method "longest" then IndexError else ValueError)) ∧
  (∀ method y ivs, ivs ≠ [] →
     is_Ok (select_segment method y ivs) ∧
     is_Ok (np_concatenate (map (λ iv : interval, py_slice y iv.1 iv.2) ivs))) ∧
  (∀ self y, is_Ok (_prepare_processed split self y)) ∧
  (∀ self src w e,
     process_clip split librosa_load self src w = Raise e → librosa_load w = Raise e).
Proof.
  split; [exact select_segment_nil|]. split; [|split].
  - intros method y ivs Hne. split; [by apply select_segment_total|].
    destruct ivs; [done|]. by eexists.
  - intros self y.
    destruct (prepare_processed_cases split self y) as (self' & -> & _). by eexists.
  - intros self src w e Hraise.
    destruct (process_clip_cases split wavfile librosa_load self src w)
      as [(e' & He' & Hclip)|(y & _ & [[_ Hclip]|(_ & p & _ & Hclip)])];
      rewrite Hclip in Hraise.
    + congruence.
    + discriminate.
    + destruct (too_short (length p) (min_duration self)); discriminate.
Qed.

End Admission.

Lemma admission_rule_witness :
  ∃ self', _prepare_processed detect_two_bursts strict_builder two_burst_clip = Ok self' ∧
    select_segment "concat" two_burst_clip two_bursts
      = Ok (replicate 4096 0.5%float ++ replicate 4096 0.25%float) ∧
    PrimFloat.ltb (PrimFloat.div 8192 16000) 1 = true ∧
    processed_y self' = Some [].
Proof.
  destruct (admission_rule detect_two_bursts (list float) Ok strict_builder two_burst_clip)
    as [(self' & Hrun & _ & Hshort & _) _].
  assert (Hsel : select_segment "concat" two_burst_clip two_bursts
                 = Ok (replicate 4096 0.5%float ++ replicate 4096 0.25%float))
    by (vm_compute; reflexivity).
  exists self'. split; [exact Hrun|]. split; [exact Hsel|].
  split; [vm_compute; reflexivity|].
  apply (Hshort _ Hsel). vm_compute. reflexivity.
Defined.

(** C2, the claim as it stands: with a minimum duration of zero and the
    single interval (0, 0) on an empty clip, the interval list is not
    empty and the duration 0 / 16000 is not below the minimum, yet the
    processed segment is empty: it is the selected segment, unchanged. *)
Lemma empty_segment_is_admitted :
  detect_one_run [] (top_db lenient_builder) = [(0, 0)%Z] ∧
  select_segment (method lenient_builder) [] [(0, 0)%Z] = Ok [] ∧
  PrimFloat.ltb (PrimFloat.div 0 16000) (min_duration lenient_builder) = false ∧
  ∃ self', _prepare_processed detect_one_run lenient_builder [] = Ok self' ∧
           processed_y self' = Some [].
Proof.
  split; [reflexivity|]. split; [vm_compute; reflexivity|].
  split; [vm_compute; reflexivity|].
  eexists. split; [vm_compute; reflexivity|]. reflexivity.
Qed.

(** ** Rejected recordings and the dataset *)

Lemma NoDup_fst_eq {A B} (l : list (A * B)) (a b : A * B) :
  NoDup (l.*1) → a ∈ l → b ∈ l → a.1 = b.1 → a = b.
Proof.
  induction l as [|c l IH]; intros Hnd Ha Hb Hfst.
  - by apply elem_of_nil in Ha.
  - rewrite fmap_cons in Hnd. apply NoDup_cons in Hnd as [Hc Hnd].
    apply elem_of_cons in Ha as [->|Ha]; apply elem_of_cons in Hb as [->|Hb].
    + reflexivity.
    + exfalso. apply Hc. rewrite Hfst. by apply list_elem_of_fmap_2.
    + exfalso. apply Hc. rewrite <- Hfst. by apply list_elem_of_fmap_2.
    + by apply IH.
Qed.

Lemma dataset_file_makedirs {wavfile : Type}
    (ds : gmap string (gmap string wavfile)) (label l f : string) :
  dataset_file (makedirs ds l) label f = dataset_file ds label f.
Proof.
  unfold dataset_file, makedirs.
  destruct (ds !! l) eqn:Hl; [reflexivity|].
  destruct (decide (l = label)) as [->|Hne].
  - rewrite lookup_insert_eq, Hl. reflexivity.
  - rewrite lookup_insert_ne by done. reflexivity.
Qed.

Lemma wav_entries_filter {wavfile : Type} (P : string * wavfile → Prop) `{∀ e, Decision (P e)} entries :
  wav_entries (filter P entries) = filter P (wav_entries entries).
Proof.
  unfold wav_entries. rewrite !list_filter_filter.
  apply list_filter_iff. intros e. tauto.
Qed.

Section Rejected.

Variable split : list float → float → list interval.
Variable wavfile : Type.
Variable librosa_load : wavfile → result (list float).
Variable sf_write : list float → wavfile.

(** C9: a recording of a label folder that the batch path rejects as too
    short is skipped with a 'Too short, skip:' line in the log and is not
    written: the dataset folder holds under its name whatever it held
    before the run (nothing, for a fresh folder), the whole dataset tree
    is the one a run without the rejected recordings produces, and so
    [_load_dataset] builds the same examples as if they had never been
    recorded. *)
Theorem rejected_recordings_stay_out self d label entries entry self1 d1 :
  _process_label split librosa_load sf_write self d label = Ok (self1, d1) →
  recordings d !! label = Some entries →
  NoDup (entries.*1) →
  entry ∈ wav_entries entries →
  rejected_too_short split librosa_load self label entry = true →
  TooShortSkip (src_of label entry) ∈ txt_log self1 ∧
  dataset_file (dataset d1) label entry.1 = dataset_file (dataset d) label entry.1 ∧
  ∃ self2 d2,
    _process_label split librosa_load sf_write self
      (without_rejected split librosa_load self d label) label = Ok (self2, d2) ∧
    dataset d2 = dataset d1 ∧
    ∀ melspectrogram power_to_db model_type base_dir,
      _load_dataset librosa_load melspectrogram power_to_db model_type base_dir (dataset d1) =
      _load_dataset librosa_load melspectrogram power_to_db model_type base_dir (dataset d2).
Proof.
  intros Hrun Hdir Hnames Hentry Hrej.
  unfold _process_label in Hrun. rewrite Hdir in Hrun.
  destruct (foldl _ _ (wav_entries entries)) as [[s1 ds1] c1] eqn:Hfold.
  injection Hrun as <- <-.
  split; [|split].
  - destruct (process_files_skip_logged split wavfile librosa_load sf_write label
                (wav_entries entries) entry self (makedirs (dataset d) label) 0%nat Hentry Hrej)
      as (s' & ds' & c' & Hfold' & Hlog).
    rewrite Hfold in Hfold'. injection Hfold' as <- <- <-.
    simpl. apply elem_of_app. by left.
  - destruct (process_files_file_kept split wavfile librosa_load sf_write label entry.1
                (wav_entries entries) self (makedirs (dataset d) label) 0%nat)
      as (s' & ds' & c' & Hfold' & Hfile).
    { intros e He Hfst.
      assert (e = entry) as ->; [|done].
      apply (NoDup_fst_eq entries); [done| | |done].
      - apply list_elem_of_filter in He. tauto.
      - apply list_elem_of_filter in Hentry. tauto. }
    rewrite Hfold in Hfold'. injection Hfold' as <- <- <-.
    simpl. rewrite Hfile. apply dataset_file_makedirs.
  - destruct (process_files_without_rejected split wavfile librosa_load sf_write label self
                (wav_entries entries) self self (makedirs (dataset d) label) 0%nat)
      as (s1' & s2 & ds' & c' & Hfold1 & Hfold2); [by repeat split..|].
    rewrite Hfold in Hfold1. injection Hfold1 as <- <- <-.
    unfold _process_label, without_rejected. simpl.
    rewrite lookup_alter_eq, Hdir. simpl.
    rewrite wav_entries_filter, Hfold2.
    do 2 eexists. split; [reflexivity|]. split; [reflexivity|]. reflexivity.
Qed.

End Rejected.

Lemma rejected_recordings_witness :
  ∃ self1 d1,
    _process_label detect_whole_clip Ok id default_builder studio_disk "Bat" = Ok (self1, d1) ∧
    rejected_too_short detect_whole_clip Ok default_builder "Bat" short_take = true ∧
    TooShortSkip "recordings/Bat/bat_2.wav" ∈ txt_log self1 ∧
    dataset_file (dataset d1) "Bat" "bat_2.wav" = None.
Proof.
  destruct (_process_label detect_whole_clip Ok id default_builder studio_disk "Bat")
    as [[self1 d1]|e] eqn:Hrun; [|vm_compute in Hrun; discriminate].
  assert (Hrej : rejected_too_short detect_whole_clip Ok default_builder "Bat" short_take = true)
    by (vm_compute; reflexivity).
  exists self1, d1. split; [reflexivity|]. split; [exact Hrej|].
  destruct (rejected_recordings_stay_out detect_whole_clip (list float) Ok id
              default_builder studio_disk "Bat" [long_take; short_take] short_take self1 d1)
    as (Hlog & Hfile & _).
  - exact Hrun.
  - apply lookup_insert_eq.
  - compute_done.
  - apply list_elem_of_filter. split; [reflexivity|].
    apply list_elem_of_further, list_elem_of_here.
  - exact Hrej.
  - split; [exact Hlog|]. etrans; [exact Hfile|reflexivity].
Defined.

(** ** Feature tensors *)

Lemma pad_or_truncate_rectangular mfe :
  rectangular mfe →
  rectangular (pad_or_truncate mfe) ∧
  nrows (pad_or_truncate mfe) = nrows mfe ∧
  ncols (pad_or_truncate mfe) = MAX_LEN.
Proof.
  intros [Hrows Hcols]. unfold pad_or_truncate, rectangular.
  destruct (Nat.ltb_spec (ncols mfe) MAX_LEN) as [Hlt|Hge];
    cbn [np_pad take_columns data nrows ncols].
  - split; [split|split; [reflexivity|lia]]; [by rewrite length_map|].
    apply Forall_map. eapply Forall_impl; [exact Hcols|].
    intros r Hr. cbn beta in *. rewrite length_app, length_replicate. lia.
  - split; [split|split; [reflexivity|lia]]; [by rewrite length_map|].
    apply Forall_map. eapply Forall_impl; [exact Hcols|].
    intros r Hr. cbn beta in *. rewrite length_take. lia.
Qed.

Lemma add_channel_shape mfe :
  rectangular mfe →
  length (add_channel mfe) = nrows mfe ∧
  Forall (λ row, length row = ncols mfe ∧ Forall (λ cell, length cell = 1) row)
         (add_channel mfe).
Proof.
  intros [Hrows Hcols]. unfold add_channel. split; [by rewrite length_map|].
  apply Forall_map. eapply Forall_impl; [exact Hcols|].
  intros r Hr. cbn beta in *. split; [by rewrite length_map|].
  apply Forall_map. by apply Forall_true.
Qed.

Section Features.

Variable melspectrogram : list float → result matrix.
Variable power_to_db : matrix → result matrix.

(** C3: whenever the transform yields a (N_MFCC x actualFrames) matrix for
    a segment, of whatever length, the feature code returns a matrix of
    exactly (N_MFCC, MAX_LEN) shape: with fewer than MAX_LEN frames every
    row is right-padded with zeros, with more it is cut to its first
    MAX_LEN entries, with exactly MAX_LEN it is unchanged; the tensor
    appended to X has shape (N_MFCC, MAX_LEN, 1). *)
Theorem extract_has_fixed_shape y S mfe :
  melspectrogram y = Ok S →
  power_to_db S = Ok mfe →
  rectangular mfe →
  nrows mfe = N_MFCC →
  ∃ out, extract melspectrogram power_to_db y = Ok out ∧
    rectangular out ∧ nrows out = N_MFCC ∧ ncols out = MAX_LEN ∧
    (ncols mfe < MAX_LEN →
       data out = map (λ r, r ++ replicate (MAX_LEN - ncols mfe) 0%float) (data mfe)) ∧
    (MAX_LEN < ncols mfe → data out = map (take MAX_LEN) (data mfe)) ∧
    (ncols mfe = MAX_LEN → data out = data mfe) ∧
    length (add_channel out) = N_MFCC ∧
    Forall (λ row, length row = MAX_LEN ∧ Forall (λ cell, length cell = 1) row)
           (add_channel out).
Proof.
  intros HS Hdb Hrect Hbands.
  exists (pad_or_truncate mfe).
  split; [unfold extract; rewrite HS; simpl; rewrite Hdb; reflexivity|].
  destruct (pad_or_truncate_rectangular mfe Hrect) as (Hrect' & Hrows' & Hcols').
  split; [exact Hrect'|]. split; [congruence|]. split; [exact Hcols'|].
  split; [|split; [|split]].
  - intros Hlt. unfold pad_or_truncate.
    destruct (Nat.ltb_spec (ncols mfe) MAX_LEN); [reflexivity|lia].
  - intros Hgt. unfold pad_or_truncate.
    destruct (Nat.ltb_spec (ncols mfe) MAX_LEN); [lia|reflexivity].
  - intros Heq. unfold pad_or_truncate.
    destruct (Nat.ltb_spec (ncols mfe) MAX_LEN); [lia|]. simpl.
    destruct Hrect as [_ Hcols]. clear -Hcols Heq.
    induction Hcols as [|r rows Hr _ IH]; [reflexivity|].
    simpl. rewrite IH, take_ge by lia. reflexivity.
  - destruct (add_channel_shape _ Hrect') as [Hlen Hall].
    rewrite Hlen, Hrows', Hbands. split; [reflexivity|].
    rewrite Hcols' in Hall. exact Hall.
Qed.

End Features.

Lemma extract_has_fixed_shape_witness :
  toy_melspectrogram [] = Ok (mkMatrix N_MFCC 0 (replicate N_MFCC [])) ∧
  rectangular (mkMatrix N_MFCC 0 (replicate N_MFCC [])) ∧
  ∃ out, extract toy_melspectrogram Ok [] = Ok out ∧
    rectangular out ∧ nrows out = N_MFCC ∧ ncols out = MAX_LEN ∧
    data out = data zero_features.
Proof.
  assert (Hrect : rectangular (mkMatrix N_MFCC 0 (replicate N_MFCC []))).
  { split; [reflexivity|]. by apply Forall_replicate. }
  split; [reflexivity|]. split; [exact Hrect|].
  destruct (extract_has_fixed_shape toy_melspectrogram Ok []
              (mkMatrix N_MFCC 0 (replicate N_MFCC []))
              (mkMatrix N_MFCC 0 (replicate N_MFCC []))
              eq_refl eq_refl Hrect eq_refl)
    as (out & Hout & Hrect' & Hrows & Hcols & Hpad & _).
  exists out. repeat (split; [assumption|]).
  rewrite Hpad; [reflexivity|]. unfold MAX_LEN. simpl. lia.
Defined.

(** ** The stratified split of the specification *)

Section Stratified.

Context {T : Type}.
Variable permute : Z → list (T * nat) → list (T * nat).
Hypothesis permute_perm : ∀ seed l, permute seed l ≡ₚ l.

Lemma count_label_app idx (a b : list (T * nat)) :
  count_label idx (a ++ b) = count_label idx a + count_label idx b.
Proof. unfold count_label, label_examples. by rewrite filter_app, length_app. Qed.

Lemma count_label_uniform idx i (l : list (T * nat)) :
  Forall (λ e, e.2 = i) l →
  count_label idx l = if decide (i = idx) then length l else 0.
Proof.
  unfold count_label, label_examples.
  induction 1 as [|e l He _ IH]; [by destruct (decide (i = idx))|].
  cbn beta in He. destruct (decide (i = idx)) as [Hi|Hi].
  - rewrite filter_cons_True by congruence. simpl. by rewrite IH.
  - rewrite filter_cons_False by congruence. exact IH.
Qed.

Lemma label_examples_labels (examples : list (T * nat)) idx :
  Forall (λ e, e.2 = idx) (label_examples examples idx).
Proof.
  apply Forall_forall. intros e He.
  apply list_elem_of_filter in He. tauto.
Qed.

Lemma split_label_labels examples f seed idx :
  Forall (λ e, e.2 = idx) (split_label permute examples f seed idx).1 ∧
  Forall (λ e, e.2 = idx) (split_label permute examples f seed idx).2.
Proof using permute_perm.
  assert (Hall : Forall (λ e : T * nat, e.2 = idx)
                        (permute seed (label_examples examples idx))).
  { rewrite permute_perm. apply label_examples_labels. }
  unfold split_label. simpl. split.
  - by apply Forall_drop.
  - by apply Forall_take.
Qed.

Lemma split_label_lengths examples f seed idx :
  length (split_label permute examples f seed idx).2 =
    held_out_count f (count_label idx examples) `min` count_label idx examples ∧
  length (split_label permute examples f seed idx).1 =
    count_label idx examples - held_out_count f (count_label idx examples).
Proof using permute_perm.
  unfold split_label, count_label. simpl.
  rewrite length_take, length_drop, !permute_perm. done.
Qed.

(** Over distinct label indices, a concatenation of per-label subsets
    holds of one label exactly that label's subset. *)
Lemma count_label_concat (g : nat → list (T * nat)) (idxs : list nat) idx :
  NoDup idxs →
  (∀ i, Forall (λ e, e.2 = i) (g i)) →
  count_label idx (concat (map g idxs)) =
    if decide (idx ∈ idxs) then length (g idx) else 0.
Proof.
  intros Hnd Hg. induction Hnd as [|i idxs Hi _ IH].
  - simpl. destruct (decide (idx ∈ [])) as [Hin|_]; [by apply elem_of_nil in Hin|done].
  - simpl. rewrite count_label_app, IH, (count_label_uniform idx i) by apply Hg.
    destruct (decide (i = idx)) as [->|Hne].
    + rewrite (decide_True (P := idx ∈ idx :: idxs)) by left.
      rewrite (decide_False (P := idx ∈ idxs)) by done. lia.
    + destruct (decide (idx ∈ idxs)) as [Hin|Hnin].
      * rewrite (decide_True (P := idx ∈ i :: idxs)) by (by right). done.
      * rewrite (decide_False (P := idx ∈ i :: idxs)); [done|].
        intros Hin. apply elem_of_cons in Hin as [->|Hin]; done.
Qed.

(** Per label, the held-out subset has [floor(testFraction * n)] of the
    label's [n] examples (all of them if that is more) and the training
    subset the rest. *)
Lemma stratified_split_counts n_labels examples f seed idx :
  idx < n_labels →
  count_label idx (stratified_split permute n_labels examples f seed).2 =
    held_out_count f (count_label idx examples) `min` count_label idx examples ∧
  count_label idx (stratified_split permute n_labels examples f seed).1 =
    count_label idx examples - held_out_count f (count_label idx examples).
Proof using permute_perm.
  intros Hidx. unfold stratified_split. simpl.
  rewrite !map_map.
  assert (Hin : idx ∈ seq 0 n_labels) by (apply elem_of_seq; lia).
  split.
  - rewrite (count_label_concat (λ i, (split_label permute examples f seed i).2));
      [|apply NoDup_seq|intros i; apply split_label_labels].
    rewrite decide_True by done. apply split_label_lengths.
  - rewrite (count_label_concat (λ i, (split_label permute examples f seed i).1));
      [|apply NoDup_seq|intros i; apply split_label_labels].
    rewrite decide_True by done. apply split_label_lengths.
Qed.

(** A fifth, rounded down. *)
Lemma held_out_count_one_fifth n : held_out_count one_fifth n = n / 5.
Proof.
  unfold held_out_count, one_fifth, Qround.Qfloor, QArith_base.Qmult, QArith_base.inject_Z.
  cbn [QArith_base.Qnum QArith_base.Qden].
  rewrite Z.mul_1_l. change (Z.pos (5 * 1)) with (Z.of_nat 5).
  rewrite <- Nat2Z.inj_div. apply Nat2Z.id.
Qed.

Lemma filter_lt_succ (l : list (T * nat)) n :
  filter (λ e, e.2 < n) l ++ filter (λ e, e.2 = n) l ≡ₚ filter (λ e, e.2 < S n) l.
Proof.
  induction l as [|e l IH]; [reflexivity|].
  destruct (decide (e.2 < n)) as [Hlt|Hge].
  - rewrite (filter_cons_True (λ e, e.2 < n)) by done.
    rewrite (filter_cons_False (λ e, e.2 = n)) by (cbn beta; lia).
    rewrite (filter_cons_True (λ e, e.2 < S n)) by (cbn beta; lia).
    simpl. by rewrite IH.
  - rewrite (filter_cons_False (λ e, e.2 < n)) by done.
    destruct (decide (e.2 = n)) as [Heq|Hne].
    + rewrite (filter_cons_True (λ e, e.2 = n)) by done.
      rewrite (filter_cons_True (λ e, e.2 < S n)) by (cbn beta; lia).
      rewrite <- Permutation_middle. by rewrite IH.
    + rewrite (filter_cons_False (λ e, e.2 = n)) by done.
      rewrite (filter_cons_False (λ e, e.2 < S n)) by (cbn beta; lia).
      exact IH.
Qed.

Lemma label_groups_cover (examples : list (T * nat)) n :
  concat (map (label_examples examples) (seq 0 n)) ≡ₚ filter (λ e, e.2 < n) examples.
Proof.
  induction n as [|n IH].
  - simpl. symmetry. apply Permutation_nil_r.
    induction examples as [|e l IHl]; [reflexivity|].
    rewrite filter_cons_False by (cbn beta; lia). exact IHl.
  - rewrite seq_S, map_app, concat_app. simpl. rewrite app_nil_r, IH.
    apply filter_lt_succ.
Qed.

(** The two subsets together are the examples of the group's labels. *)
Lemma stratified_split_partition n_labels examples f seed :
  Forall (λ e, e.2 < n_labels) examples →
  (stratified_split permute n_labels examples f seed).1 ++
  (stratified_split permute n_labels examples f seed).2 ≡ₚ examples.
Proof using permute_perm.
  intros Hall. unfold stratified_split. simpl. rewrite !map_map.
  assert (Hone : ∀ i,
    (split_label permute examples f seed i).1 ++
    (split_label permute examples f seed i).2 ≡ₚ label_examples examples i).
  { intros i. unfold split_label. simpl.
    rewrite Permutation_app_comm, take_drop. apply permute_perm. }
  assert (Hparts : ∀ idxs,
    concat (map (λ i, (split_label permute examples f seed i).1) idxs) ++
    concat (map (λ i, (split_label permute examples f seed i).2) idxs)
    ≡ₚ concat (map (label_examples examples) idxs)).
  { induction idxs as [|i idxs IH]; [reflexivity|]. simpl.
    etrans; [|apply Permutation_app; [apply Hone|apply IH]].
    rewrite <- !app_assoc.
    apply Permutation_app_head, Permutation_app_swap_app. }
  rewrite Hparts, label_groups_cover.
  clear Hparts Hone. induction Hall as [|e l He _ IH]; [reflexivity|].
  rewrite filter_cons_True by done. apply Permutation_skip, IH.
Qed.

(** C5: with labels A (index 0, 100 kept examples) and B (index 1, 20 kept
    examples) and testFraction 0.2, the held-out subset has exactly 20
    examples of A and 4 of B, the training subset the remaining 80 and 16;
    the per-label held-out count is the floor of a fifth of the label's
    examples; when the group has no other label the two subsets are a
    partition of the examples; and the split is a function of the
    examples and the seed. *)
Theorem stratified_split_of_100_and_20 examples seed :
  count_label 0 examples = 100 →
  count_label 1 examples = 20 →
  count_label 0 (stratified_split permute 2 examples one_fifth seed).2 = 20 ∧
  count_label 1 (stratified_split permute 2 examples one_fifth seed).2 = 4 ∧
  count_label 0 (stratified_split permute 2 examples one_fifth seed).1 = 80 ∧
  count_label 1 (stratified_split permute 2 examples one_fifth seed).1 = 16 ∧
  (∀ n, held_out_count one_fifth n = n / 5) ∧
  (Forall (λ e, e.2 < 2) examples →
     (stratified_split permute 2 examples one_fifth seed).1 ++
     (stratified_split permute 2 examples one_fifth seed).2 ≡ₚ examples) ∧
  (∀ examples' seed', examples' = examples → seed' = seed →
     stratified_split permute 2 examples' one_fifth seed' =
     stratified_split permute 2 examples one_fifth seed).
Proof using permute_perm.
  intros HA HB.
  destruct (stratified_split_counts 2 examples one_fifth seed 0) as [HA2 HA1]; [lia|].
  destruct (stratified_split_counts 2 examples one_fifth seed 1) as [HB2 HB1]; [lia|].
  rewrite HA in HA1, HA2. rewrite HB in HB1, HB2.
  assert (H100 : held_out_count one_fifth 100 = 20) by reflexivity.
  assert (H20 : held_out_count one_fifth 20 = 4) by reflexivity.
  rewrite H100 in HA1, HA2. rewrite H20 in HB1, HB2.
  repeat split; try done.
  - apply held_out_count_one_fifth.
  - by apply stratified_split_partition.
  - by intros ? ? -> ->.
Qed.

End Stratified.

Lemma toy_permute_perm {T : Type} seed (l : list (T * nat)) : toy_permute seed l ≡ₚ l.
Proof. unfold toy_permute. destruct (Z.even seed); [reflexivity|apply reverse_Permutation]. Qed.

Lemma stratified_split_witness :
  count_label 0 hundred_and_twenty = 100 ∧
  count_label 1 hundred_and_twenty = 20 ∧
  count_label 0 (stratified_split toy_permute 2 hundred_and_twenty one_fifth 42).2 = 20 ∧
  count_label 1 (stratified_split toy_permute 2 hundred_and_twenty one_fifth 42).2 = 4 ∧
  count_label 0 (stratified_split toy_permute 2 hundred_and_twenty one_fifth 42).1 = 80 ∧
  count_label 1 (stratified_split toy_permute 2 hundred_and_twenty one_fifth 42).1 = 16.
Proof.
  split; [reflexivity|]. split; [reflexivity|].
  destruct (stratified_split_of_100_and_20 toy_permute toy_permute_perm
              hundred_and_twenty 42 eq_refl eq_refl)
    as (HA2 & HB2 & HA1 & HB1 & _).
  repeat split; assumption.
Defined.

(** ** Further properties of the scripts *)

Section PathsAgree.

Variable split : list float → float → list interval.
Variable wavfile : Type.
Variable librosa_load : wavfile → result (list float).

(** X1: the preview and the batch loop decide alike.  On a file that
    loads the loop either skips the file or keeps a segment; when it
    skips, the preview ends with an empty processed segment; when it
    keeps a segment, the preview shows that very segment.  The preview is
    empty exactly when the loop skips the file or keeps an empty segment,
    and for intervals with 0 <= start < end <= len exactly when the loop
    skips the file. *)
Theorem preview_matches_batch self src w y :
  librosa_load w = Ok y →
  ∃ self', _prepare_processed split self y = Ok self' ∧
    ((∃ m, process_clip split librosa_load self src w = Ok (Skip m)) ∨
     (∃ p, process_clip split librosa_load self src w = Ok (Keep p))) ∧
    (∀ m, process_clip split librosa_load self src w = Ok (Skip m) →
          processed_y self' = Some []) ∧
    (∀ p, process_clip split librosa_load self src w = Ok (Keep p) →
          processed_y self' = Some p) ∧
    (processed_y self' = Some [] ↔
       (∃ m, process_clip split librosa_load self src w = Ok (Skip m)) ∨
       process_clip split librosa_load self src w = Ok (Keep [])) ∧
    (Forall (valid_interval y) (split y (top_db self)) →
     (processed_y self' = Some [] ↔
      ∃ m, process_clip split librosa_load self src w = Ok (Skip m))).
Proof.
  intros Hload.
  destruct (prepare_processed_cases split self y)
    as (self' & Hrun & _ & Hpreview).
  exists self'. split; [exact Hrun|].
  destruct (process_clip_cases split wavfile librosa_load self src w)
    as [(e & He & _)|(y' & Hy' & Hbatch)]; [congruence|].
  rewrite Hload in Hy'. injection Hy' as <-.
  destruct Hpreview as [[Hnil Hproc]|(Hne & p & Hp & Hproc)];
    destruct Hbatch as [[Hnil' Hclip]|(Hne' & p' & Hp' & Hclip)]; try done.
  - rewrite Hclip, Hproc. split; [left; by eexists|].
    split; [done|]. split; [intros p [=]|].
    split; [|intros _]; (split; [intros _|done]); try left; by eexists.
  - rewrite Hp in Hp'. injection Hp' as <-. rewrite Hclip, Hproc.
    destruct (too_short (length p) (min_duration self)) eqn:Hshort.
    + split; [left; by eexists|]. split; [done|]. split; [intros q [=]|].
      split; [|intros _]; (split; [intros _|done]); try left; by eexists.
    + split; [right; by eexists|]. split; [intros m [=]|].
      split; [by intros q [= <-]|]. split.
      * split.
        -- intros [= ->]. by right.
        -- intros [[m [=]]|[= ->]]. reflexivity.
      * intros Hvalid.
        pose proof (select_segment_nonempty _ _ _ _ Hne Hvalid Hp) as Hpne.
        split; [intros [= ->]; done|intros [m [=]]].
Qed.

End PathsAgree.

Lemma preview_matches_batch_witness :
  ∃ self', _prepare_processed detect_whole_clip default_builder long_take.2 = Ok self' ∧
    process_clip detect_whole_clip Ok default_builder
      "recordings/Bat/bat_1.wav" long_take.2 = Ok (Keep long_take.2) ∧
    processed_y self' = Some long_take.2.
Proof.
  destruct (preview_matches_batch detect_whole_clip (list float) Ok default_builder
              "recordings/Bat/bat_1.wav" long_take.2 long_take.2 eq_refl)
    as (self' & Hrun & _ & _ & Hkeep & _).
  assert (Hclip : process_clip detect_whole_clip Ok default_builder
                    "recordings/Bat/bat_1.wav" long_take.2 = Ok (Keep long_take.2))
    by (vm_compute; reflexivity).
  exists self'. split; [exact Hrun|]. split; [exact Hclip|]. exact (Hkeep _ Hclip).
Defined.

Section LabelFrame.

Variable split : list float → float → list interval.
Variable wavfile : Type.
Variable librosa_load : wavfile → result (list float).
Variable sf_write : list float → wavfile.

Lemma process_files_other_folders label l files :
  l ≠ label →
  ∀ self ds count,
    ∃ self' ds' count',
      foldl (process_file split librosa_load sf_write label) (self, ds, count) files
        = (self', ds', count') ∧
      ds' !! l = ds !! l.
Proof.
  intros Hne. induction files as [|e files IH]; intros self ds count; cbn [foldl].
  - by do 3 eexists.
  - unfold process_file at 2.
    destruct (process_clip split librosa_load self _ e.2) as [[m|proc]|err]; try apply IH.
    destruct (IH self (write_file ds label e.1 (sf_write proc)) (S count))
      as (s' & ds' & c' & -> & Hother).
    do 3 eexists. split; [reflexivity|]. rewrite Hother.
    unfold write_file. by rewrite lookup_insert_ne.
Qed.

(** The loop only appends to the log. *)
Lemma process_files_log_extends label files :
  ∀ self ds count,
    ∃ self' ds' count' lines,
      foldl (process_file split librosa_load sf_write label) (self, ds, count) files
        = (self', ds', count') ∧
      txt_log self' = txt_log self ++ lines.
Proof.
  induction files as [|e files IH]; intros self ds count; cbn [foldl].
  - exists self, ds, count, []. by rewrite app_nil_r.
  - unfold process_file at 2.
    destruct (process_clip split librosa_load self _ e.2) as [[m|proc]|err].
    + destruct (IH (_log self m) ds count) as (s' & ds' & c' & lines & -> & Hlog).
      exists s', ds', c', (m :: lines). split; [reflexivity|].
      rewrite Hlog. simpl. by rewrite <- app_assoc.
    + apply IH.
    + destruct (IH (_log self (ErrorProcessing (path_join (path_join RECORDINGS_DIR label) e.1) err))
                   ds count) as (s' & ds' & c' & lines & -> & Hlog).
      eexists s', ds', c', (_ :: lines). split; [reflexivity|].
      rewrite Hlog. simpl. by rewrite <- app_assoc.
Qed.

(** X2: [_process_label] works on one label only: it leaves the recordings
    tree as it is, touches no dataset folder but the label's own, keeps
    the builder's settings, and only appends to its log: the log after
    the run is the log before it, then the lines of the run, the last of
    which is the 'Processed label' line of this label. *)
Theorem process_label_frame self d label self1 d1 :
  _process_label split librosa_load sf_write self d label = Ok (self1, d1) →
  recordings d1 = recordings d ∧
  (∀ l, l ≠ label → dataset d1 !! l = dataset d !! l) ∧
  same_config self self1 ∧
  (∃ lines count,
     txt_log self1 = txt_log self ++ lines ++ [ProcessedLabel label count]) ∧
  (∀ m, m ∈ txt_log self → m ∈ txt_log self1) ∧
  (∃ count, last (txt_log self1) = Some (ProcessedLabel label count)).
Proof.
  intros Hrun. unfold _process_label in Hrun.
  destruct (recordings d !! label) as [entries|] eqn:Hdir; [|discriminate].
  destruct (foldl _ _ (wav_entries entries)) as [[s1 ds1] c1] eqn:Hfold.
  injection Hrun as <- <-.
  destruct (process_files_frame split wavfile librosa_load sf_write label
              (wav_entries entries) self (makedirs (dataset d) label) 0%nat)
    as (s' & ds' & c' & Hfold' & Hcfg & Hlog).
  rewrite Hfold in Hfold'. injection Hfold' as <- <- <-.
  split; [reflexivity|]. split; [|split; [exact Hcfg|split; [|split]]].
  - intros l Hne.
    destruct (process_files_other_folders label l (wav_entries entries) Hne
                self (makedirs (dataset d) label) 0%nat)
      as (s' & ds' & c' & Hfold' & Hother).
    rewrite Hfold in Hfold'. injection Hfold' as <- <- <-.
    simpl. rewrite Hother. unfold makedirs.
    destruct (dataset d !! label); [reflexivity|]. by rewrite lookup_insert_ne.
  - destruct (process_files_log_extends label (wav_entries entries)
                self (makedirs (dataset d) label) 0%nat)
      as (s' & ds' & c' & lines & Hfold' & Hlines).
    rewrite Hfold in Hfold'. injection Hfold' as <- <- <-.
    exists lines, c1. simpl. by rewrite Hlines, <- app_assoc.
  - intros m Hm. simpl. apply elem_of_app. left. by apply Hlog.
  - exists c1. simpl. apply last_snoc.
Qed.

End LabelFrame.

Lemma process_label_frame_witness :
  ∃ self1 d1,
    _process_label detect_whole_clip Ok id default_builder studio_disk "Bat" = Ok (self1, d1) ∧
    recordings d1 = recordings studio_disk ∧
    (∀ l, l ≠ "Bat" → dataset d1 !! l = dataset studio_disk !! l) ∧
    same_config default_builder self1.
Proof.
  destruct (_process_label detect_whole_clip Ok id default_builder studio_disk "Bat")
    as [[self1 d1]|e] eqn:Hrun; [|vm_compute in Hrun; discriminate].
  exists self1, d1. split; [reflexivity|].
  destruct (process_label_frame detect_whole_clip (list float) Ok id
              default_builder studio_disk "Bat" self1 d1 Hrun)
    as (Hrec & Hother & Hcfg & _).
  split; [exact Hrec|]. split; [exact Hother|exact Hcfg].
Defined.

Section Loader.

Variable wavfile : Type.
Variable librosa_load : wavfile → result (list float).
Variable melspectrogram : list float → result matrix.
Variable power_to_db : matrix → result matrix.

Lemma load_file_labelled n idx folder st entry :
  idx < n → labelled_below n st →
  labelled_below n (load_file librosa_load melspectrogram power_to_db idx folder st entry).
Proof.
  intros Hidx. destruct st as [[X Y] lg]. intros [Hlen Hall].
  unfold load_file, labelled_below in *. simpl in *.
  destruct (librosa_load entry.2) as [y|e]; simpl; [|done].
  destruct (extract melspectrogram power_to_db y) as [mfe|e]; simpl; [|done].
  split.
  - rewrite !length_app. simpl. lia.
  - apply Forall_app. split; [done|]. by apply Forall_singleton.
Qed.

Lemma load_files_labelled n idx folder files :
  idx < n → ∀ st, labelled_below n st →
  labelled_below n
    (foldl (load_file librosa_load melspectrogram power_to_db idx folder) st files).
Proof.
  intros Hidx. induction files as [|e files IH]; intros st Hst; cbn [foldl]; [done|].
  apply IH. by apply load_file_labelled.
Qed.

Lemma load_label_labelled n base_dir ds st il :
  il.1 < n → labelled_below n st →
  labelled_below n (load_label librosa_load melspectrogram power_to_db base_dir ds st il).
Proof.
  intros Hidx Hst. unfold load_label.
  destruct (ds !! il.2) as [dir|]; [by apply load_files_labelled|].
  destruct st as [[X Y] lg]. exact Hst.
Qed.

Lemma load_labels_labelled n base_dir ds ils :
  Forall (λ il : nat * string, il.1 < n) ils →
  ∀ st, labelled_below n st →
  labelled_below n
    (foldl (load_label librosa_load melspectrogram power_to_db base_dir ds) st ils).
Proof.
  induction 1 as [|il ils Hil _ IH]; intros st Hst; cbn [foldl]; [done|].
  apply IH. by apply load_label_labelled.
Qed.

(** X3: the arrays [_load_dataset] returns go together: [Y] has one label per
    tensor of [X], and every label is an index into the list of labels
    selected by the model type. *)
Theorem load_dataset_labels model_type base_dir ds X Y lg :
  _load_dataset librosa_load melspectrogram power_to_db model_type base_dir ds
    = Ok (X, Y, lg) →
  ∃ selected_labels,
    LABEL_GROUPS !! model_type = Some selected_labels ∧
    length X = length Y ∧
    Forall (λ idx, idx < length selected_labels) Y.
Proof.
  unfold _load_dataset.
  destruct (LABEL_GROUPS !! model_type) as [labels|]; [|discriminate].
  intros Hrun. exists labels. split; [reflexivity|].
  pose proof (load_labels_labelled (length labels) base_dir ds
                (zip (seq 0 (length labels)) labels)) as Hinv.
  destruct (foldl _ _ (zip (seq 0 (length labels)) labels)) as [[X' Y'] lg'] eqn:Hfold.
  injection Hrun as <- <- _.
  assert (Hidx : Forall (λ il : nat * string, il.1 < length labels)
                        (zip (seq 0 (length labels)) labels)).
  { apply Forall_forall. intros [i l] Hin.
    apply elem_of_zip_l in Hin. apply elem_of_seq in Hin. simpl. lia. }
  specialize (Hinv Hidx ([], [], [SelectedLabels labels])).
  rewrite Hfold in Hinv. apply Hinv. split; [reflexivity|constructor].
Qed.

End Loader.

Lemma load_dataset_labels_witness :
  ∃ X Y lg,
    _load_dataset Ok toy_melspectrogram Ok "Action" "dataset" tiny_dataset = Ok (X, Y, lg) ∧
    length X = length Y ∧
    Forall (λ idx, idx < 2) Y.
Proof.
  destruct (_load_dataset Ok toy_melspectrogram Ok "Action" "dataset" tiny_dataset)
    as [[[X Y] lg]|e] eqn:Hrun; [|vm_compute in Hrun; discriminate].
  exists X, Y, lg. split; [reflexivity|].
  destruct (load_dataset_labels (list float) Ok toy_melspectrogram Ok
              "Action" "dataset" tiny_dataset X Y lg Hrun)
    as (labels & Hlabels & Hlen & Hall).
  split; [exact Hlen|].
  assert (labels = ["Bat"; "Tat"]) as -> by (vm_compute in Hlabels; congruence).
  exact Hall.
Defined.

(** ** Selecting and saving one file *)

Lemma split_sep_path_join label fname :
  split_sep label = None →
  split_sep (path_join label fname) = Some (label, fname).
Proof.
  unfold path_join. induction label as [|c label IH]; intros Hnone; [reflexivity|].
  simpl in *.
  destruct (Ascii.eqb c "/"); [discriminate|].
  destruct (split_sep label) as [[a b]|]; [discriminate|].
  rewrite IH by reflexivity. reflexivity.
Qed.

Lemma src_of_nonempty {wavfile : Type} label (entry : string * wavfile) :
  String.eqb (src_of label entry) "" = false.
Proof. reflexivity. Qed.

Section SingleSave.

Variable split : list float → float → list interval.
Variable wavfile : Type.
Variable librosa_load : wavfile → result (list float).
Variable sf_write : list float → wavfile.
Variable relpath : string → string → string.

(** What selecting a loadable file leaves in the preview. *)
Lemma select_file_loaded g label (entry : string * wavfile) y :
  librosa_load entry.2 = Ok y →
  ∃ self',
    _prepare_processed split (core g) y = Ok self' ∧
    select_file split librosa_load g (src_of label entry) entry.2 =
      mkPreview self' (Some (src_of label entry)) (Some y)
                (notices g ++ [SelectedFile (src_of label entry)]).
Proof.
  intros Hload.
  destruct (prepare_processed_cases split (core g) y) as (self' & Hrun & _).
  exists self'. split; [exact Hrun|].
  unfold select_file. rewrite src_of_nonempty.
  unfold _load_file. cbn [note core current_file current_y notices].
  rewrite Hload, Hrun. reflexivity.
Qed.

(** X4: selecting a recording of a label folder and pressing 'Save
    Processed (single)' writes what the batch loop writes for that
    recording: when the loop keeps a non-empty segment, the dataset tree
    after the single save is the tree after the loop's iteration (the same
    file under the same label and name); when the loop skips the
    recording, the single save writes nothing and reports that there is
    nothing to save. *)
Theorem single_save_matches_batch g ds count label (entry : string * wavfile) y :
  librosa_load entry.2 = Ok y →
  split_sep label = None →
  relpath (src_of label entry) RECORDINGS_DIR = path_join label entry.1 →
  (∀ p, process_clip split librosa_load (core g) (src_of label entry) entry.2 = Ok (Keep p) →
        p ≠ [] →
        (save_processed_single sf_write relpath
           (select_file split librosa_load g (src_of label entry) entry.2) ds).2 =
        (process_file split librosa_load sf_write label
           (core g, makedirs ds label, count) entry).1.2 ∧
        dataset_file
          (save_processed_single sf_write relpath
             (select_file split librosa_load g (src_of label entry) entry.2) ds).2
          label entry.1 = Some (sf_write p)) ∧
  (∀ m, process_clip split librosa_load (core g) (src_of label entry) entry.2 = Ok (Skip m) →
        save_processed_single sf_write relpath
          (select_file split librosa_load g (src_of label entry) entry.2) ds =
        (note (select_file split librosa_load g (src_of label entry) entry.2)
              NoProcessedAudio, ds)).
Proof.
  intros Hload Hlabel Hrel.
  destruct (select_file_loaded g label entry y Hload) as (self' & Hrun & ->).
  destruct (prepare_processed_cases split (core g) y)
    as (self'' & Hrun' & _ & Hpreview).
  rewrite Hrun in Hrun'. injection Hrun' as <-.
  destruct (process_clip_cases split wavfile librosa_load (core g) (src_of label entry) entry.2)
    as [(e & He & _)|(y' & Hy' & Hbatch)]; [congruence|].
  rewrite Hload in Hy'. injection Hy' as <-.
  assert (Hseg : ∀ p, p ≠ [] → processed_y self' = Some p →
    save_processed_single sf_write relpath
      (mkPreview self' (Some (src_of label entry)) (Some y)
                 (notices g ++ [SelectedFile (src_of label entry)])) ds =
    (note (mkPreview self' (Some (src_of label entry)) (Some y)
                     (notices g ++ [SelectedFile (src_of label entry)]))
          (SavedProcessed (path_join (path_join OUTPUT_DIR label) entry.1)),
     write_file (makedirs ds label) label entry.1 (sf_write p))).
  { intros p Hp Hproc. unfold save_processed_single.
    cbn [core current_file]. rewrite Hproc, src_of_nonempty.
    destruct p as [|x p]; [done|]. cbn [length Nat.eqb orb].
    rewrite Hrel, split_sep_path_join by done. reflexivity. }
  assert (Hnone : processed_y self' = Some [] →
    save_processed_single sf_write relpath
      (mkPreview self' (Some (src_of label entry)) (Some y)
                 (notices g ++ [SelectedFile (src_of label entry)])) ds =
    (note (mkPreview self' (Some (src_of label entry)) (Some y)
                     (notices g ++ [SelectedFile (src_of label entry)]))
          NoProcessedAudio, ds)).
  { intros Hproc. unfold save_processed_single.
    cbn [core current_file]. rewrite Hproc, src_of_nonempty. reflexivity. }
  split.
  - intros p Hkeep Hp.
    destruct Hpreview as [[Hnil _]|(_ & p0 & Hp0 & Hproc)];
      destruct Hbatch as [[Hnil' Hclip]|(Hne' & p1 & Hp1 & Hclip)];
      try done; try congruence.
    rewrite Hp0 in Hp1. injection Hp1 as <-.
    rewrite Hclip in Hkeep.
    destruct (too_short (length p0) (min_duration (core g))); [discriminate|].
    assert (p0 = p) as -> by congruence.
    rewrite (Hseg p Hp Hproc). cbn [snd]. split.
    + unfold process_file. cbn [fst snd]. unfold src_of in Hclip. rewrite Hclip.
      reflexivity.
    + unfold dataset_file, write_file. rewrite lookup_insert_eq. simpl.
      apply lookup_insert_eq.
  - intros m Hskip. apply Hnone.
    destruct Hpreview as [[Hnil Hproc]|(Hne & p0 & Hp0 & Hproc)]; [exact Hproc|].
    destruct Hbatch as [[Hnil' _]|(_ & p1 & Hp1 & Hclip)]; [done|].
    rewrite Hp0 in Hp1. injection Hp1 as <-.
    rewrite Hclip in Hskip. rewrite Hproc.
    destruct (too_short (length p0) (min_duration (core g))); [reflexivity|discriminate].
Qed.

(** X5: when the newly selected file cannot be loaded, the preview keeps
    the waveform and the processed segment of the file selected before
    while [current_file] already names the new file, so a following
    'Save Processed (single)' writes the earlier file's segment under the
    new file's label and name. *)
Theorem failed_load_keeps_previous_segment g ds label (entry : string * wavfile) e p :
  librosa_load entry.2 = Raise e →
  processed_y (core g) = Some p → p ≠ [] →
  split_sep label = None →
  relpath (src_of label entry) RECORDINGS_DIR = path_join label entry.1 →
  core (select_file split librosa_load g (src_of label entry) entry.2) = core g ∧
  current_y (select_file split librosa_load g (src_of label entry) entry.2) = current_y g ∧
  current_file (select_file split librosa_load g (src_of label entry) entry.2)
    = Some (src_of label entry) ∧
  notices (select_file split librosa_load g (src_of label entry) entry.2)
    = notices g ++ [SelectedFile (src_of label entry); LoadErrorLine e] ∧
  dataset_file
    (save_processed_single sf_write relpath
       (select_file split librosa_load g (src_of label entry) entry.2) ds).2
    label entry.1 = Some (sf_write p).
Proof.
  intros Hload Hproc Hp Hlabel Hrel.
  assert (Hsel : select_file split librosa_load g (src_of label entry) entry.2 =
                 mkPreview (core g) (Some (src_of label entry)) (current_y g)
                   (notices g ++ [SelectedFile (src_of label entry); LoadErrorLine e])).
  { unfold select_file. rewrite src_of_nonempty.
    unfold _load_file. cbn [note core current_file current_y notices].
    rewrite Hload. unfold note. cbn [core current_file current_y notices].
    by rewrite <- app_assoc. }
  rewrite Hsel. cbn [core current_y current_file notices].
  repeat split; try reflexivity.
  unfold save_processed_single. cbn [core current_file].
  rewrite Hproc, src_of_nonempty.
  destruct p as [|x p]; [done|]. cbn [length Nat.eqb orb].
  rewrite Hrel, split_sep_path_join by done. cbn [fst snd].
  unfold dataset_file, write_file. rewrite lookup_insert_eq. simpl.
  apply lookup_insert_eq.
Qed.

End SingleSave.

Lemma single_save_matches_batch_witness :
  (save_processed_single id strip_start
     (select_file detect_whole_clip Ok fresh_preview (src_of "Bat" long_take) long_take.2) ∅).2 =
  (process_file detect_whole_clip Ok id "Bat"
     (default_builder, makedirs ∅ "Bat", 0) long_take).1.2 ∧
  dataset_file
    (save_processed_single id strip_start
       (select_file detect_whole_clip Ok fresh_preview (src_of "Bat" long_take) long_take.2) ∅).2
    "Bat" "bat_1.wav" = Some long_take.2.
Proof.
  destruct (single_save_matches_batch detect_whole_clip (list float) Ok id strip_start
              fresh_preview ∅ 0 "Bat" long_take long_take.2 eq_refl eq_refl eq_refl)
    as [Hkeep _].
  apply (Hkeep long_take.2).
  - vm_compute. reflexivity.
  - discriminate.
Defined.

Lemma failed_load_keeps_previous_segment_witness :
  current_file (select_file detect_whole_clip load_nonempty long_take_preview
                  (src_of "Bat" broken_take) broken_take.2)
    = Some "recordings/Bat/bat_3.wav" ∧
  dataset_file
    (save_processed_single id strip_start
       (select_file detect_whole_clip load_nonempty long_take_preview
          (src_of "Bat" broken_take) broken_take.2) ∅).2
    "Bat" "bat_3.wav" = Some long_take.2.
Proof.
  destruct (failed_load_keeps_previous_segment detect_whole_clip (list float)
              load_nonempty id strip_start long_take_preview ∅ "Bat" broken_take
              LoadError long_take.2 eq_refl eq_refl)
    as (_ & _ & Hfile & _ & Hsaved); [discriminate|reflexivity|reflexivity|].
  split; [exact Hfile|exact Hsaved].
Defined.

(** ** One label folder, and all of them *)

Lemma omap_cons {A B : Type} (f : A → option B) (x : A) (l : list A) :
  omap f (x :: l) = match f x with Some y => y :: omap f l | None => omap f l end.
Proof. reflexivity. Qed.

Section LabelFolder.

Variable split : list float → float → list interval.
Variable wavfile : Type.
Variable librosa_load : wavfile → result (list float).
Variable sf_write : list float → wavfile.

(** [_process_label] returns whenever the recordings folder exists. *)
Lemma process_label_runs self d label entries :
  recordings d !! label = Some entries →
  ∃ s1 ds1 c1,
    foldl (process_file split librosa_load sf_write label)
          (self, makedirs (dataset d) label, 0) (wav_entries entries) = (s1, ds1, c1) ∧
    _process_label split librosa_load sf_write self d label =
      Ok (_log s1 (ProcessedLabel label c1), mkDisk (recordings d) ds1).
Proof.
  intros Hdir. unfold _process_label. rewrite Hdir.
  destruct (foldl _ _ _) as [[s1 ds1] c1]. by do 3 eexists.
Qed.

(** The loop writes one line for each file it does not keep, in the
    order of the listing, and counts the others. *)
Lemma process_files_account label self0 files :
  ∀ self ds count,
    same_config self0 self →
    ∃ s' ds',
      foldl (process_file split librosa_load sf_write label) (self, ds, count) files
        = (s', ds',
           count + length (filter (λ e, clip_kept split librosa_load self0 label e = true) files)) ∧
      txt_log s' = txt_log self ++ omap (clip_line split librosa_load self0 label) files.
Proof.
  induction files as [|e files IH]; intros self ds count Hcfg; cbn [foldl].
  - exists self, ds. rewrite filter_nil. simpl. rewrite Nat.add_0_r, app_nil_r. done.
  - unfold process_file at 2.
    rewrite <- (process_clip_same_config split wavfile librosa_load self0 self) by done.
    cbn [omap]. unfold clip_line at 1, src_of.
    destruct (process_clip split librosa_load self0 _ e.2) as [[m|proc]|err] eqn:Hclip.
    + rewrite filter_cons_False
        by (unfold clip_kept, src_of; rewrite Hclip; done).
      destruct (IH (_log self m) ds count) as (s' & ds' & -> & Hlog); [done|].
      exists s', ds'. split; [reflexivity|]. rewrite Hlog. simpl. rewrite Hclip.
      by rewrite <- app_assoc.
    + rewrite filter_cons_True
        by (unfold clip_kept, src_of; rewrite Hclip; done).
      destruct (IH self (write_file ds label e.1 (sf_write proc)) (S count))
        as (s' & ds' & -> & Hlog); [done|].
      exists s', ds'. split; [|rewrite Hlog; simpl; by rewrite Hclip].
      simpl. do 2 f_equal. lia.
    + rewrite filter_cons_False
        by (unfold clip_kept, src_of; rewrite Hclip; done).
      destruct (IH (_log self (ErrorProcessing (path_join (path_join RECORDINGS_DIR label) e.1) err))
                   ds count) as (s' & ds' & -> & Hlog); [done|].
      exists s', ds'. split; [reflexivity|]. rewrite Hlog. simpl. rewrite Hclip.
      by rewrite <- app_assoc.
Qed.

(** A name none of whose recordings is kept holds what it held. *)
Lemma process_files_not_kept label self0 f files :
  ∀ self ds count,
    same_config self0 self →
    (∀ e, e ∈ files → e.1 = f → clip_kept split librosa_load self0 label e = false) →
    ∃ self' ds' count',
      foldl (process_file split librosa_load sf_write label) (self, ds, count) files
        = (self', ds', count') ∧
      dataset_file ds' label f = dataset_file ds label f.
Proof.
  induction files as [|e files IH]; intros self ds count Hcfg Hall; cbn [foldl].
  - by do 3 eexists.
  - assert (Htail : ∀ e', e' ∈ files → e'.1 = f →
                          clip_kept split librosa_load self0 label e' = false).
    { intros e' He'. apply Hall. by apply elem_of_cons; right. }
    assert (Hhead : e.1 = f → clip_kept split librosa_load self0 label e = false).
    { apply Hall. by apply elem_of_cons; left. }
    unfold process_file at 2.
    rewrite <- (process_clip_same_config split wavfile librosa_load self0 self) by done.
    unfold clip_kept, src_of in Hhead.
    destruct (process_clip split librosa_load self0 _ e.2) as [[m|proc]|err].
    + by apply IH.
    + destruct (IH self (write_file ds label e.1 (sf_write proc)) (S count))
        as (s' & ds' & c' & -> & Hfile); [done|done|].
      do 3 eexists. split; [reflexivity|]. rewrite Hfile.
      assert (e.1 ≠ f) as Hne by (intros Hf; by specialize (Hhead Hf)).
      unfold dataset_file, write_file. rewrite lookup_insert_eq. simpl.
      rewrite lookup_insert_ne by done.
      destruct (ds !! label); reflexivity.
    + by apply IH.
Qed.

(** A kept recording with a name of its own is in the folder after the
    loop. *)
Lemma process_files_written label self0 entry p files :
  NoDup files.*1 →
  entry ∈ files →
  process_clip split librosa_load self0 (src_of label entry) entry.2 = Ok (Keep p) →
  ∀ self ds count,
    same_config self0 self →
    ∃ self' ds' count',
      foldl (process_file split librosa_load sf_write label) (self, ds, count) files
        = (self', ds', count') ∧
      dataset_file ds' label entry.1 = Some (sf_write p).
Proof.
  intros Hnd Hin Hkeep.
  induction files as [|e files IH]; intros self ds count Hcfg; cbn [foldl].
  - by apply elem_of_nil in Hin.
  - rewrite fmap_cons in Hnd. apply NoDup_cons in Hnd as [Hfresh Hnd].
    apply elem_of_cons in Hin as [<-|Hin].
    + unfold process_file at 2.
      rewrite <- (process_clip_same_config split wavfile librosa_load self0 self) by done.
      unfold src_of in Hkeep. rewrite Hkeep.
      destruct (process_files_not_kept label self0 entry.1 files
                  self (write_file ds label entry.1 (sf_write p)) (S count) Hcfg)
        as (s' & ds' & c' & -> & Hfile).
      { intros e' He' Hname. exfalso. apply Hfresh. rewrite <- Hname.
        by apply list_elem_of_fmap_2. }
      do 3 eexists. split; [reflexivity|]. rewrite Hfile.
      unfold dataset_file, write_file. rewrite lookup_insert_eq. simpl.
      apply lookup_insert_eq.
    + destruct (process_file_frame split wavfile librosa_load sf_write label self ds count e)
        as (s & ds1 & c1 & -> & Hcfg1 & _).
      apply IH; [done|done|]. by eapply same_config_trans.
Qed.

(** The folder of [label] after the loop depends on the settings and on
    that folder only. *)
Lemma process_files_local label files :
  ∀ a b dsA dsB cA cB,
    same_config a b → dsA !! label = dsB !! label →
    ∃ sA dsA' cA' sB dsB' cB',
      foldl (process_file split librosa_load sf_write label) (a, dsA, cA) files
        = (sA, dsA', cA') ∧
      foldl (process_file split librosa_load sf_write label) (b, dsB, cB) files
        = (sB, dsB', cB') ∧
      dsA' !! label = dsB' !! label.
Proof.
  induction files as [|e files IH]; intros a b dsA dsB cA cB Hcfg Hdir; cbn [foldl].
  - by do 6 eexists.
  - unfold process_file at 2 4.
    rewrite <- (process_clip_same_config split wavfile librosa_load a b) by done.
    destruct (process_clip split librosa_load a _ e.2) as [[m|proc]|err].
    + by apply IH.
    + apply IH; [done|]. unfold write_file. by rewrite !lookup_insert_eq, Hdir.
    + by apply IH.
Qed.

Lemma makedirs_lookup (ds : gmap string (gmap string wavfile)) label :
  makedirs ds label !! label = Some (default ∅ (ds !! label)).
Proof.
  unfold makedirs. destruct (ds !! label) eqn:Hdir; [by rewrite Hdir|].
  by rewrite lookup_insert_eq.
Qed.

Lemma makedirs_lookup_ne (ds : gmap string (gmap string wavfile)) label l :
  l ≠ label → makedirs ds label !! l = ds !! l.
Proof.
  intros Hne. unfold makedirs. destruct (ds !! label); [done|].
  by rewrite lookup_insert_ne.
Qed.

Lemma process_label_local a b dA dB label entries :
  same_config a b →
  recordings dA !! label = Some entries →
  recordings dB !! label = Some entries →
  dataset dA !! label = dataset dB !! label →
  ∃ sA dA' sB dB',
    _process_label split librosa_load sf_write a dA label = Ok (sA, dA') ∧
    _process_label split librosa_load sf_write b dB label = Ok (sB, dB') ∧
    dataset dA' !! label = dataset dB' !! label.
Proof.
  intros Hcfg HA HB Hdir.
  destruct (process_files_local label (wav_entries entries) a b
              (makedirs (dataset dA) label) (makedirs (dataset dB) label) 0 0 Hcfg)
    as (sA & dsA' & cA' & sB & dsB' & cB' & HfA & HfB & Heq).
  { by rewrite !makedirs_lookup, Hdir. }
  unfold _process_label. rewrite HA, HB, HfA, HfB.
  do 4 eexists. split; [reflexivity|]. split; [reflexivity|]. exact Heq.
Qed.

(** What one run of [_process_label] leaves alone. *)
Lemma process_label_effects self d label entries :
  recordings d !! label = Some entries →
  ∃ s1 d1,
    _process_label split librosa_load sf_write self d label = Ok (s1, d1) ∧
    recordings d1 = recordings d ∧
    same_config self s1 ∧
    ∀ l, l ≠ label → dataset d1 !! l = dataset d !! l.
Proof.
  intros Hdir.
  destruct (process_label_runs self d label entries Hdir)
    as (s1 & ds1 & c1 & Hfold & Hrun).
  do 2 eexists. split; [exact Hrun|]. split; [reflexivity|]. split.
  - destruct (process_files_frame split wavfile librosa_load sf_write label
                (wav_entries entries) self (makedirs (dataset d) label) 0)
      as (s' & ds' & c' & Hfold' & Hcfg & _).
    rewrite Hfold in Hfold'. injection Hfold' as <- <- <-. exact Hcfg.
  - intros l Hne.
    destruct (process_files_other_folders split wavfile librosa_load sf_write
                label l (wav_entries entries) Hne self (makedirs (dataset d) label) 0)
      as (s' & ds' & c' & Hfold' & Hother).
    rewrite Hfold in Hfold'. injection Hfold' as <- <- <-.
    simpl. rewrite Hother. by apply makedirs_lookup_ne.
Qed.

(** The loop of the worker, label by label. *)
Lemma process_labels_by_label labels :
  NoDup labels →
  ∀ self d notes total,
    (∀ l, l ∈ labels → is_Some (recordings d !! l)) →
    ∃ self' d',
      process_labels split librosa_load sf_write self d notes total labels =
        Ok (self', d', notes ++ (StartLabel <$> labels), total + length labels) ∧
      recordings d' = recordings d ∧
      same_config self self' ∧
      (∀ l, l ∉ labels → dataset d' !! l = dataset d !! l) ∧
      (∀ l, l ∈ labels →
         ∃ s1 d1, _process_label split librosa_load sf_write self d l = Ok (s1, d1) ∧
                  dataset d' !! l = dataset d1 !! l).
Proof.
  induction 1 as [|label labels Hfresh Hnd IH]; intros self d notes total Hdirs.
  - exists self, d. cbn [process_labels fmap list_fmap length].
    rewrite app_nil_r, Nat.add_0_r.
    split; [reflexivity|]. split; [reflexivity|]. split; [by repeat split|].
    split; [done|]. intros l Hl. by apply elem_of_nil in Hl.
  - destruct (Hdirs label) as [entries Hdir]; [by apply elem_of_cons; left|].
    destruct (process_label_effects self d label entries Hdir)
      as (s1 & d1 & Hrun & Hrec & Hcfg & Hother).
    destruct (IH s1 d1 (notes ++ [StartLabel label]) (S total))
      as (self' & d' & Hrest & Hrec' & Hcfg' & Hout & Hin).
    { intros l Hl. rewrite Hrec. apply Hdirs. by apply elem_of_cons; right. }
    exists self', d'. cbn [process_labels]. rewrite Hrun. cbn [mbind result_bind fst snd].
    rewrite Hrest. split.
    { rewrite fmap_cons, <- app_assoc. cbn [length app].
      by rewrite Nat.add_succ_r. }
    split; [congruence|]. split; [by eapply same_config_trans|]. split.
    + intros l Hl. apply not_elem_of_cons in Hl as [Hne Hl].
      rewrite Hout by done. by apply Hother.
    + intros l Hl. apply elem_of_cons in Hl as [->|Hl].
      * exists s1, d1. split; [exact Hrun|]. by apply Hout.
      * destruct (Hin l Hl) as (s2 & d2 & Hrun2 & Heq).
        assert (l ≠ label) as Hne by (intros ->; done).
        destruct (Hdirs l) as [entries' Hdir']; [by apply elem_of_cons; right|].
        destruct (process_label_local self s1 d d1 l entries' Hcfg Hdir')
          as (sA & dA' & sB & dB' & HrunA & HrunB & Hsame).
        { by rewrite Hrec. }
        { symmetry. by apply Hother. }
        rewrite Hrun2 in HrunB. injection HrunB as <- <-.
        exists sA, dA'. split; [exact HrunA|]. by rewrite Heq.
Qed.

(** X6: 'Process all labels' always runs to its end and handles the label
    folders independently of one another: the recordings are left as they
    are, the settings are kept, a dataset folder without a recordings
    folder is not touched, the dataset folder of every label is the one a
    run of [_process_label] for that label alone produces, and the last
    line reports as many labels as there are recordings folders. *)
Theorem process_all_labels_by_label self d :
  ∃ self' d' notes,
    _process_all_labels split librosa_load sf_write self d = Ok (self', d', notes) ∧
    recordings d' = recordings d ∧
    same_config self self' ∧
    last notes = Some (DoneProcessing (size (recordings d))) ∧
    (∀ l, recordings d !! l = None → dataset d' !! l = dataset d !! l) ∧
    (∀ l entries, recordings d !! l = Some entries →
       ∃ s1 d1, _process_label split librosa_load sf_write self d l = Ok (s1, d1) ∧
                dataset d' !! l = dataset d1 !! l).
Proof.
  assert (Hlabels : ∀ l, l ∈ (map_to_list (recordings d)).*1 ↔ is_Some (recordings d !! l)).
  { intros l. rewrite list_elem_of_fmap. split.
    - intros ([l' entries] & -> & Hin). apply elem_of_map_to_list in Hin. by eexists.
    - intros [entries Hdir]. exists (l, entries). split; [done|].
      by apply elem_of_map_to_list. }
  destruct (process_labels_by_label (map_to_list (recordings d)).*1
              (NoDup_fst_map_to_list _) self d [] 0)
    as (self' & d' & Hrun & Hrec & Hcfg & Hout & Hin).
  { intros l. apply Hlabels. }
  unfold _process_all_labels, _process_all_worker. rewrite Hrun.
  cbn [mbind result_bind fst snd].
  do 3 eexists. split; [reflexivity|]. split; [exact Hrec|]. split; [exact Hcfg|].
  split; [|split].
  - rewrite last_snoc. do 2 f_equal.
    rewrite length_fmap, length_map_to_list. reflexivity.
  - intros l Hnone. apply Hout. rewrite Hlabels, Hnone. by intros [? ?].
  - intros l entries Hdir. apply Hin, Hlabels. by eexists.
Qed.

(** X7: the log of [_process_label] accounts for every .wav file of the
    folder: it is the log before the run, then one line for each file
    that is not written ('No activity:', 'Too short, skip:' or 'Error
    processing'), in the order of the listing, then 'Processed label'
    with the number of files written; the lines and that number add up to
    the number of .wav files. *)
Theorem process_label_accounts self d label entries self1 d1 :
  _process_label split librosa_load sf_write self d label = Ok (self1, d1) →
  recordings d !! label = Some entries →
  txt_log self1 =
    txt_log self
    ++ omap (clip_line split librosa_load self label) (wav_entries entries)
    ++ [ProcessedLabel label
          (length (filter (λ e, clip_kept split librosa_load self label e = true)
                          (wav_entries entries)))] ∧
  length (omap (clip_line split librosa_load self label) (wav_entries entries))
  + length (filter (λ e, clip_kept split librosa_load self label e = true)
                   (wav_entries entries))
  = length (wav_entries entries).
Proof.
  intros Hrun Hdir.
  destruct (process_label_runs self d label entries Hdir)
    as (s1 & ds1 & c1 & Hfold & Hrun').
  rewrite Hrun in Hrun'. injection Hrun' as -> ->.
  destruct (process_files_account label self (wav_entries entries)
              self (makedirs (dataset d) label) 0)
    as (s' & ds' & Hfold' & Hlog); [by repeat split|].
  rewrite Hfold in Hfold'. injection Hfold' as <- <- ->.
  split.
  - simpl. rewrite Hlog, <- app_assoc. reflexivity.
  - generalize (wav_entries entries). intros files.
    induction files as [|e files IH]; [reflexivity|].
    rewrite omap_cons.
    destruct (decide (clip_kept split librosa_load self label e = true)) as [Hk|Hk].
    + rewrite filter_cons_True by done.
      assert (clip_line split librosa_load self label e = None) as ->.
      { unfold clip_line, clip_kept in *.
        by destruct (process_clip split librosa_load self _ e.2) as [[m|proc]|err]. }
      simpl. lia.
    + rewrite filter_cons_False by done.
      destruct (clip_line split librosa_load self label e) as [m|] eqn:Hline;
        [simpl; lia|].
      exfalso. apply Hk. unfold clip_line, clip_kept in *.
      by destruct (process_clip split librosa_load self _ e.2) as [[m|proc]|err].
Qed.

(** X8: what [_process_label] leaves in the dataset folder of the label:
    every recording the loop keeps is there under its own name, holding
    the segment selected from it, and a name none of whose recordings is
    kept holds what it held before the run. *)
Theorem process_label_folder self d label entries self1 d1 :
  _process_label split librosa_load sf_write self d label = Ok (self1, d1) →
  recordings d !! label = Some entries →
  NoDup entries.*1 →
  (∀ entry p,
     entry ∈ wav_entries entries →
     process_clip split librosa_load self (src_of label entry) entry.2 = Ok (Keep p) →
     dataset_file (dataset d1) label entry.1 = Some (sf_write p)) ∧
  (∀ f,
     (∀ entry, entry ∈ wav_entries entries → entry.1 = f →
               clip_kept split librosa_load self label entry = false) →
     dataset_file (dataset d1) label f = dataset_file (dataset d) label f).
Proof.
  intros Hrun Hdir Hnames.
  destruct (process_label_runs self d label entries Hdir)
    as (s1 & ds1 & c1 & Hfold & Hrun').
  rewrite Hrun in Hrun'. injection Hrun' as -> ->. cbn [dataset].
  assert (Hnd : NoDup (wav_entries entries).*1).
  { unfold wav_entries. clear -Hnames.
    induction entries as [|e entries IH]; [constructor|].
    rewrite fmap_cons in Hnames. apply NoDup_cons in Hnames as [Hfresh Hnames].
    destruct (decide (is_wav e.1 = true)) as [He|He].
    - rewrite filter_cons_True by done. rewrite fmap_cons. apply NoDup_cons.
      split; [|by apply IH].
      intros Hin. apply Hfresh. apply list_elem_of_fmap in Hin as (e' & -> & He').
      apply list_elem_of_filter in He' as [_ He']. by apply list_elem_of_fmap_2.
    - rewrite filter_cons_False by done. by apply IH. }
  split.
  - intros entry p Hentry Hkeep.
    destruct (process_files_written label self entry p (wav_entries entries)
                Hnd Hentry Hkeep self (makedirs (dataset d) label) 0)
      as (s' & ds' & c' & Hfold' & Hfile); [by repeat split|].
    rewrite Hfold in Hfold'. injection Hfold' as <- <- <-. exact Hfile.
  - intros f Hnone.
    destruct (process_files_not_kept label self f (wav_entries entries)
                self (makedirs (dataset d) label) 0)
      as (s' & ds' & c' & Hfold' & Hfile); [by repeat split|done|].
    rewrite Hfold in Hfold'. injection Hfold' as <- <- <-.
    rewrite Hfile. apply dataset_file_makedirs.
Qed.

End LabelFolder.

Lemma process_label_accounts_witness :
  ∃ self1 d1,
    _process_label detect_whole_clip Ok id default_builder studio_disk "Bat" = Ok (self1, d1) ∧
    txt_log self1 =
      [TooShortSkip "recordings/Bat/bat_2.wav"; ProcessedLabel "Bat" 1].
Proof.
  destruct (_process_label detect_whole_clip Ok id default_builder studio_disk "Bat")
    as [[self1 d1]|e] eqn:Hrun; [|vm_compute in Hrun; discriminate].
  exists self1, d1. split; [reflexivity|].
  destruct (process_label_accounts detect_whole_clip (list float) Ok id
              default_builder studio_disk "Bat" [long_take; short_take] self1 d1 Hrun eq_refl)
    as [Hlog _].
  rewrite Hlog. vm_compute. reflexivity.
Defined.

Lemma process_label_folder_witness :
  ∃ self1 d1,
    _process_label detect_whole_clip Ok id default_builder studio_disk "Bat" = Ok (self1, d1) ∧
    dataset_file (dataset d1) "Bat" "bat_1.wav" = Some long_take.2 ∧
    dataset_file (dataset d1) "Bat" "bat_2.wav" = None.
Proof.
  destruct (_process_label detect_whole_clip Ok id default_builder studio_disk "Bat")
    as [[self1 d1]|e] eqn:Hrun; [|vm_compute in Hrun; discriminate].
  exists self1, d1. split; [reflexivity|].
  assert (Hnames : NoDup [long_take; short_take].*1).
  { apply NoDup_cons. split; [|apply NoDup_singleton].
    intros Hin. apply list_elem_of_singleton in Hin. discriminate. }
  destruct (process_label_folder detect_whole_clip (list float) Ok id
              default_builder studio_disk "Bat" [long_take; short_take] self1 d1
              Hrun eq_refl Hnames)
    as [Hkept Hother].
  split.
  - apply (Hkept long_take long_take.2).
    + apply elem_of_cons. by left.
    + vm_compute. reflexivity.
  - rewrite (Hother "bat_2.wav"); [reflexivity|].
    intros entry Hentry Hname.
    apply elem_of_cons in Hentry as [->|Hentry]; [discriminate|].
    apply list_elem_of_singleton in Hentry as ->. vm_compute. reflexivity.
Defined.

(** ** Saved models and the names the tester shows *)

Lemma string_length_app (s t : string) :
  String.length (s +:+ t) = String.length s + String.length t.
Proof. induction s as [|c s IH]; simpl; [reflexivity|]. by rewrite IH. Qed.

Lemma string_app_inj_r (t s1 s2 : string) : s1 +:+ t = s2 +:+ t → s1 = s2.
Proof.
  revert s2. induction s1 as [|c s1 IH]; intros [|c' s2] Heq; simpl in Heq.
  - reflexivity.
  - apply (f_equal String.length) in Heq.
    rewrite !string_length_app in Heq. simpl in Heq.
    rewrite ?string_length_app in Heq. lia.
  - apply (f_equal String.length) in Heq.
    rewrite !string_length_app in Heq. simpl in Heq.
    rewrite ?string_length_app in Heq. lia.
  - injection Heq as -> Heq. f_equal. by apply IH.
Qed.

Lemma model_path_inj base_name i j :
  model_path base_name i = model_path base_name j → i = j.
Proof.
  unfold model_path. intros Heq.
  apply (inj (String.app base_name)) in Heq.
  apply (inj (String.app "_")) in Heq.
  apply string_app_inj_r in Heq.
  by apply (inj pretty) in Heq.
Qed.

Lemma labels_path_ne path : labels_path path ≠ path.
Proof.
  unfold labels_path. intros Heq.
  apply (f_equal String.length) in Heq.
  rewrite string_length_app in Heq. simpl in Heq. lia.
Qed.

Lemma model_path_nonempty base_name i : String.eqb (model_path base_name i) "" = false.
Proof.
  apply String.eqb_neq. intros Heq.
  apply (f_equal String.length) in Heq. unfold model_path in Heq.
  rewrite !string_length_app in Heq. simpl in Heq. lia.
Qed.

(** The label map as the tester reads it back. *)
Lemma json_dump_lookup labels idx :
  json_dump (labelmap labels) !! pretty idx = labels !! idx.
Proof.
  unfold json_dump, labelmap.
  rewrite (lookup_kmap (M1 := gmap nat) (M2 := gmap string) pretty).
  apply lookup_map_seq_0.
Qed.

Section SavedModels.

Variable model : Type.

(** The loop stops at the first free index. *)
Lemma free_index_first (fs : gmap string (artifact model)) base_name fuel :
  ∀ i k,
    free_index model fs base_name fuel i = Some k →
    i ≤ k ∧ fs !! model_path base_name k = None ∧
    ∀ j, i ≤ j < k → is_Some (fs !! model_path base_name j).
Proof.
  induction fuel as [|fuel IH]; intros i k Hrun; [discriminate|].
  cbn [free_index] in Hrun.
  destruct (fs !! model_path base_name i) as [a|] eqn:Hi.
  - destruct (IH (S i) k Hrun) as (Hle & Hfree & Hbelow).
    split; [lia|]. split; [exact Hfree|].
    intros j Hj. destruct (decide (j = i)) as [->|Hne]; [by eexists|].
    apply Hbelow. lia.
  - injection Hrun as <-. split; [lia|]. split; [exact Hi|]. intros j Hj. lia.
Qed.

(** It runs out of fuel only on a run of taken names as long as the
    fuel. *)
Lemma free_index_out_of_fuel (fs : gmap string (artifact model)) base_name fuel :
  ∀ i,
    free_index model fs base_name fuel i = None →
    ∀ j, i ≤ j < i + fuel → is_Some (fs !! model_path base_name j).
Proof.
  induction fuel as [|fuel IH]; intros i Hrun j Hj; [lia|].
  cbn [free_index] in Hrun.
  destruct (fs !! model_path base_name i) as [a|] eqn:Hi; [|discriminate].
  destruct (decide (j = i)) as [->|Hne]; [by eexists|].
  apply (IH (S i) Hrun). lia.
Qed.

(** A directory holds no more taken names than files. *)
Lemma taken_names_bounded (fs : gmap string (artifact model)) base_name i n :
  (∀ j, i ≤ j < i + n → is_Some (fs !! model_path base_name j)) →
  n ≤ size fs.
Proof.
  intros Htaken.
  assert (Hnd : NoDup (model_path base_name <$> seq i n)).
  { apply NoDup_fmap_2_strong; [|apply NoDup_seq].
    intros a b _ _. apply model_path_inj. }
  rewrite <- (size_dom (D := gset string) fs).
  assert (Hlen : length (model_path base_name <$> seq i n) = n)
    by (by rewrite length_fmap, length_seq).
  rewrite <- Hlen at 1.
  rewrite <- (size_list_to_set (C := gset string)) by exact Hnd.
  apply subseteq_size. intros name Hname.
  apply elem_of_list_to_set, list_elem_of_fmap in Hname as (j & -> & Hj).
  apply elem_of_seq in Hj. apply elem_of_dom, Htaken. lia.
Qed.

(** X9: [_auto_save_model] always finds a name: with more fuel than
    there are files in the working directory the loop ends, at the first
    index from 1 whose model name is free.  The model goes to that new
    name, so no model file is replaced, and every file that was there
    stays as it was, except a file that already has the name of the label
    map next to the new model: that one is overwritten. *)
Theorem auto_save_takes_first_free_name fuel (fs : gmap string (artifact model))
    base_name m labels :
  size fs < fuel →
  ∃ i,
    1 ≤ i ∧
    _auto_save_model model fuel fs base_name m labels =
      Some (model_path base_name i,
            save_with_labels model fs (model_path base_name i) m labels,
            ModelAutoSaved (model_path base_name i)) ∧
    fs !! model_path base_name i = None ∧
    (∀ j, 1 ≤ j < i → is_Some (fs !! model_path base_name j)) ∧
    save_with_labels model fs (model_path base_name i) m labels
      !! model_path base_name i = Some (ModelFile m) ∧
    save_with_labels model fs (model_path base_name i) m labels
      !! labels_path (model_path base_name i) = Some (LabelFile (json_dump (labelmap labels))) ∧
    (∀ name, is_Some (fs !! name) →
             name ≠ labels_path (model_path base_name i) →
             save_with_labels model fs (model_path base_name i) m labels !! name = fs !! name).
Proof.
  intros Hfuel.
  destruct (free_index model fs base_name fuel 1) as [i|] eqn:Hrun.
  - destruct (free_index_first fs base_name fuel 1 i Hrun) as (Hle & Hfree & Hbelow).
    exists i. split; [exact Hle|]. split.
    { unfold _auto_save_model. rewrite Hrun. reflexivity. }
    split; [exact Hfree|]. split; [exact Hbelow|].
    unfold save_with_labels. split; [|split].
    + rewrite lookup_insert_ne by apply labels_path_ne. apply lookup_insert_eq.
    + apply lookup_insert_eq.
    + intros name [a Hname] Hne.
      rewrite lookup_insert_ne by done.
      rewrite lookup_insert_ne; [done|]. intros <-. congruence.
  - pose proof (taken_names_bounded fs base_name 1 fuel
                  (free_index_out_of_fuel fs base_name fuel 1 Hrun)).
    lia.
Qed.

End SavedModels.

Lemma auto_save_takes_first_free_name_witness :
  ∃ i,
    1 ≤ i ∧
    _auto_save_model nat 2 taken_once "Action" 0 ["Bat"; "Tat"] =
      Some (model_path "Action" i,
            save_with_labels nat taken_once (model_path "Action" i) 0 ["Bat"; "Tat"],
            ModelAutoSaved (model_path "Action" i)) ∧
    taken_once !! model_path "Action" i = None ∧
    is_Some (taken_once !! model_path "Action" 1).
Proof.
  assert (Hsize : size taken_once < 2).
  { vm_compute. lia. }
  destruct (auto_save_takes_first_free_name nat 2 taken_once "Action" 0 ["Bat"; "Tat"] Hsize)
    as (i & Hle & Hrun & Hfree & _).
  exists i. split; [exact Hle|]. split; [exact Hrun|]. split; [exact Hfree|].
  by eexists.
Defined.

Section Names.

Import VoiceTestGUI.

Variable model : Type.
Variable wavfile : Type.
Variable librosa_load : wavfile → result (list float).
Variable melspectrogram : list float → result matrix.
Variable power_to_db : matrix → result matrix.
Variable predict : model → list (list (list (list float))) → nat.

Lemma init_groups_present : groups_present (__init__ (model := model)).
Proof.
  intros g Hg. unfold LABEL_GROUPS in Hg.
  repeat (apply elem_of_cons in Hg as [->|Hg]); [..|by apply elem_of_nil in Hg];
    (split; [|split]); by eexists.
Qed.

Lemma load_model_groups_present (t : tester model) fs group_name path :
  groups_present t → groups_present (_load_model t fs group_name path).
Proof.
  intros Ht. unfold _load_model.
  destruct (String.eqb path ""); [exact Ht|].
  destruct (fs !! path) as [[m|lm|]|]; try exact Ht.
  destruct (fs !! labels_path path) as [[m'|lm|]|]; intros g Hg;
    destruct (Ht g Hg) as (Hm & Hl & Hr); cbn;
    (split; [|split]); try done;
    destruct (decide (g = group_name)) as [->|Hne];
    rewrite ?lookup_insert_eq, ?lookup_insert_ne by done; done || by eexists.
Qed.

Lemma set_result_runs (t : tester model) group value :
  is_Some (result_vars t !! group) →
  set_result t group value =
    Ok (mkTester (models t) (label_maps t) (<[group := value]> (result_vars t))
                 (status_var t)).
Proof. intros [v Hv]. unfold set_result. by rewrite Hv. Qed.

(** The loop that clears the result boxes. *)
Lemma reset_results gs :
  ∀ t : tester model,
    (∀ g, g ∈ gs → is_Some (result_vars t !! g)) →
    ∃ t', for_each (λ t group, set_result t group EmptyString) t gs = Ok t' ∧
          models t' = models t ∧ label_maps t' = label_maps t ∧
          ∀ g, is_Some (result_vars t !! g) → is_Some (result_vars t' !! g).
Proof.
  induction gs as [|g0 gs IH]; intros t Hgs; cbn [for_each].
  - by exists t.
  - rewrite set_result_runs by (apply Hgs; by apply elem_of_cons; left).
    cbn [mbind result_bind].
    set (t1 := mkTester _ _ _ _).
    assert (Hkeys : ∀ g, is_Some (result_vars t !! g) → is_Some (result_vars t1 !! g)).
    { intros g Hg. subst t1. cbn.
      destruct (decide (g = g0)) as [->|Hne];
        rewrite ?lookup_insert_eq, ?lookup_insert_ne by done; done || by eexists. }
    destruct (IH t1) as (t' & Hrun & Hm & Hl & Hr).
    { intros g Hg. apply Hkeys, Hgs. by apply elem_of_cons; right. }
    exists t'. split; [exact Hrun|]. split; [exact Hm|]. split; [exact Hl|].
    intros g Hg. by apply Hr, Hkeys.
Qed.

(** One group of the prediction loop. *)
Lemma predict_group_runs mfe (t : tester model) g :
  is_Some (models t !! g) → is_Some (label_maps t !! g) → is_Some (result_vars t !! g) →
  ∃ v, predict_group predict mfe t g =
         Ok (mkTester (models t) (label_maps t) (<[g := v]> (result_vars t)) (status_var t)) ∧
       ∀ m lm, models t !! g = Some (Some m) → label_maps t !! g = Some lm →
               v = default ("Label " +:+ pretty (predict m mfe))
                           (lm !! pretty (predict m mfe)).
Proof.
  intros [om Hm] [lm Hl] Hr. unfold predict_group. rewrite Hm.
  destruct om as [m|].
  - rewrite Hl. eexists. split; [by apply set_result_runs|].
    intros m' lm' [= <-] [= <-]. reflexivity.
  - eexists. split; [by apply set_result_runs|]. intros m' lm' [=].
Qed.

(** The prediction loop over distinct groups. *)
Lemma predict_loop mfe gs :
  NoDup gs →
  ∀ t : tester model,
    (∀ g, g ∈ gs → is_Some (models t !! g) ∧ is_Some (label_maps t !! g) ∧
                    is_Some (result_vars t !! g)) →
    ∃ t', for_each (predict_group predict mfe) t gs = Ok t' ∧
          models t' = models t ∧ label_maps t' = label_maps t ∧
          (∀ g, g ∉ gs → result_vars t' !! g = result_vars t !! g) ∧
          (∀ g m lm, g ∈ gs → models t !! g = Some (Some m) → label_maps t !! g = Some lm →
                     result_vars t' !! g =
                       Some (default ("Label " +:+ pretty (predict m mfe))
                                     (lm !! pretty (predict m mfe)))).
Proof.
  induction 1 as [|g0 gs Hfresh Hnd IH]; intros t Hgs; cbn [for_each].
  - exists t. repeat split; try done. intros g m lm Hg. by apply elem_of_nil in Hg.
  - destruct (Hgs g0) as (Hm0 & Hl0 & Hr0); [by apply elem_of_cons; left|].
    destruct (predict_group_runs mfe t g0 Hm0 Hl0 Hr0) as (v & -> & Hv).
    cbn [mbind result_bind].
    set (t1 := mkTester _ _ _ _).
    destruct (IH t1) as (t' & Hrun & Hm & Hl & Hout & Hin).
    { intros g Hg. destruct (Hgs g) as (Hmg & Hlg & Hrg); [by apply elem_of_cons; right|].
      subst t1. cbn. split; [done|]. split; [done|].
      destruct (decide (g = g0)) as [->|Hne];
        rewrite ?lookup_insert_eq, ?lookup_insert_ne by done; done || by eexists. }
    exists t'. split; [exact Hrun|]. split; [exact Hm|]. split; [exact Hl|]. split.
    + intros g Hg. apply not_elem_of_cons in Hg as [Hne Hg].
      rewrite Hout by done. subst t1. cbn. by rewrite lookup_insert_ne.
    + intros g m lm Hg Hmg Hlg. apply elem_of_cons in Hg as [->|Hg].
      * rewrite Hout by done. subst t1. cbn. rewrite lookup_insert_eq.
        f_equal. by apply Hv.
      * by apply Hin.
Qed.

(** What [_predict] shows for a group with a model. *)
Lemma predict_shows (t : tester model) group m lm w y mfe :
  groups_present t → group ∈ LABEL_GROUPS →
  models t !! group = Some (Some m) →
  label_maps t !! group = Some lm →
  librosa_load w = Ok y →
  predict_features melspectrogram power_to_db y = Ok mfe →
  ∃ t', _predict librosa_load melspectrogram power_to_db predict t (Some w) = Ok t' ∧
        result_vars t' !! group =
          Some (default ("Label " +:+ pretty (predict m mfe))
                        (lm !! pretty (predict m mfe))).
Proof.
  intros Ht Hgroup Hm Hl Hload Hfeat.
  destruct (reset_results LABEL_GROUPS t) as (t0 & Hreset & Hm0 & Hl0 & Hr0).
  { intros g Hg. by destruct (Ht g Hg) as (_ & _ & ?). }
  destruct (predict_loop mfe LABEL_GROUPS) with (t := t0)
    as (t' & Hloop & _ & _ & _ & Hin).
  { apply (bool_decide_unpack (NoDup LABEL_GROUPS)). by vm_compute. }
  { intros g Hg. destruct (Ht g Hg) as (? & ? & ?).
    rewrite Hm0, Hl0. split; [done|]. split; [done|]. by apply Hr0. }
  exists (_update_status t' PredictionDone). split.
  - unfold _predict. rewrite Hreset. cbn [mbind result_bind].
    rewrite Hload. cbn [mbind result_bind]. rewrite Hfeat. cbn [mbind result_bind].
    rewrite Hloop. reflexivity.
  - cbn. apply Hin; [done|by rewrite Hm0|by rewrite Hl0].
Qed.

(** X10: the names the trainer saves are the names the tester shows.
    After [_auto_save_model] has saved a model trained on [labels], a
    tester that loads the saved file for a group and predicts shows, for
    the class [idx] the model answers, [labels[idx]], and 'Label idx'
    when the model answers a class beyond the labels. *)
Theorem saved_labels_name_the_predictions fuel fs base_name m labels path fs' line
    (t : tester model) group w y mfe :
  _auto_save_model model fuel fs base_name m labels = Some (path, fs', line) →
  groups_present t → group ∈ LABEL_GROUPS →
  librosa_load w = Ok y →
  predict_features melspectrogram power_to_db y = Ok mfe →
  ∃ t', _predict librosa_load melspectrogram power_to_db predict
          (_load_model t fs' group path) (Some w) = Ok t' ∧
        result_vars t' !! group = Some (shown_label labels (predict m mfe)).
Proof.
  intros Hsave Ht Hgroup Hload Hfeat.
  unfold _auto_save_model in Hsave.
  destruct (free_index model fs base_name fuel 1) as [i|]; [|discriminate].
  injection Hsave as <- <- _.
  unfold shown_label. rewrite <- json_dump_lookup.
  apply predict_shows with (y := y); try done.
  - by apply load_model_groups_present.
  - unfold _load_model, save_with_labels. rewrite model_path_nonempty.
    rewrite (lookup_insert_ne _ (labels_path _)) by apply labels_path_ne.
    rewrite lookup_insert_eq, lookup_insert_eq. cbn. apply lookup_insert_eq.
  - unfold _load_model, save_with_labels. rewrite model_path_nonempty.
    rewrite (lookup_insert_ne _ (labels_path _)) by apply labels_path_ne.
    rewrite lookup_insert_eq, lookup_insert_eq. cbn. apply lookup_insert_eq.
Qed.

(** X11: loading a model file that has no label file next to it replaces
    the model of the group and leaves the group's label map as it was, so
    the predictions of the new model are shown under the names of the
    model loaded before (under 'Label idx' when none was). *)
Theorem labels_of_the_previous_model_stay (t : tester model) fs group path m lm w y mfe :
  groups_present t → group ∈ LABEL_GROUPS →
  label_maps t !! group = Some lm →
  path ≠ EmptyString →
  fs !! path = Some (ModelFile m) →
  fs !! labels_path path = None →
  librosa_load w = Ok y →
  predict_features melspectrogram power_to_db y = Ok mfe →
  models (_load_model t fs group path) !! group = Some (Some m) ∧
  label_maps (_load_model t fs group path) = label_maps t ∧
  status_var (_load_model t fs group path) = ModelLoaded group path ∧
  ∃ t', _predict librosa_load melspectrogram power_to_db predict
          (_load_model t fs group path) (Some w) = Ok t' ∧
        result_vars t' !! group =
          Some (default ("Label " +:+ pretty (predict m mfe))
                        (lm !! pretty (predict m mfe))).
Proof.
  intros Ht Hgroup Hlm Hpath Hmodel Hnolabels Hload Hfeat.
  assert (Hloaded : _load_model t fs group path =
                    mkTester (<[group := Some m]> (models t)) (label_maps t)
                             (result_vars t) (ModelLoaded group path)).
  { unfold _load_model. apply String.eqb_neq in Hpath. rewrite Hpath.
    rewrite Hmodel, Hnolabels. reflexivity. }
  split; [rewrite Hloaded; cbn; apply lookup_insert_eq|].
  split; [by rewrite Hloaded|]. split; [by rewrite Hloaded|].
  apply predict_shows with (y := y); try done.
  - by apply load_model_groups_present.
  - rewrite Hloaded. cbn. apply lookup_insert_eq.
  - by rewrite Hloaded.
Qed.

End Names.

Lemma saved_labels_name_the_predictions_witness :
  ∃ t',
    VoiceTestGUI._predict Ok toy_melspectrogram Ok constant_predict
      (VoiceTestGUI._load_model VoiceTestGUI.__init__
         (save_with_labels nat ∅ "Action_1.h5" 1 ["Bat"; "Tat"]) "Action" "Action_1.h5")
      (Some [0.5; 0.25]%float) = Ok t' ∧
    VoiceTestGUI.result_vars t' !! "Action" = Some "Tat".
Proof.
  destruct (predict_features toy_melspectrogram Ok [0.5; 0.25]%float)
    as [mfe|e] eqn:Hfeat; [|vm_compute in Hfeat; discriminate].
  assert (Hgroup : "Action" ∈ VoiceTestGUI.LABEL_GROUPS) by (apply elem_of_cons; by left).
  exact (saved_labels_name_the_predictions nat (list float) Ok toy_melspectrogram Ok
           constant_predict 1 ∅ "Action" 1 ["Bat"; "Tat"]
           "Action_1.h5" (save_with_labels nat ∅ "Action_1.h5" 1 ["Bat"; "Tat"])
           (ModelAutoSaved "Action_1.h5")
           VoiceTestGUI.__init__ "Action" [0.5; 0.25]%float [0.5; 0.25]%float mfe
           eq_refl (init_groups_present nat) Hgroup eq_refl Hfeat).
Defined.

Lemma labels_of_the_previous_model_stay_witness :
  ∃ t',
    VoiceTestGUI._predict Ok toy_melspectrogram Ok constant_predict
      (VoiceTestGUI._load_model VoiceTestGUI.__init__ bare_model "Action" "b.h5")
      (Some [0.5; 0.25]%float) = Ok t' ∧
    VoiceTestGUI.result_vars t' !! "Action" = Some "Label 0".
Proof.
  destruct (predict_features toy_melspectrogram Ok [0.5; 0.25]%float)
    as [mfe|e] eqn:Hfeat; [|vm_compute in Hfeat; discriminate].
  assert (Hgroup : "Action" ∈ VoiceTestGUI.LABEL_GROUPS) by (apply elem_of_cons; by left).
  assert (Hpath : "b.h5" ≠ EmptyString) by discriminate.
  destruct (labels_of_the_previous_model_stay nat (list float) Ok toy_melspectrogram Ok
              constant_predict VoiceTestGUI.__init__ bare_model "Action" "b.h5" 0 ∅
              [0.5; 0.25]%float [0.5; 0.25]%float mfe
              (init_groups_present nat) Hgroup eq_refl Hpath eq_refl eq_refl eq_refl Hfeat)
    as (_ & _ & _ & t' & Hrun & Hshown).
  exists t'. split; [exact Hrun|exact Hshown].
Defined.

(** ** What [_load_dataset] does with the files it finds *)

Lemma error_lines_app lg lg' : error_lines (lg ++ lg') = error_lines lg + error_lines lg'.
Proof. unfold error_lines. by rewrite filter_app, length_app. Qed.

Lemma missing_lines_app lg lg' :
  missing_lines (lg ++ lg') = missing_lines lg + missing_lines lg'.
Proof. unfold missing_lines. by rewrite filter_app, length_app. Qed.

Section LoaderAccounts.

Variable wavfile : Type.
Variable librosa_load : wavfile → result (list float).
Variable melspectrogram : list float → result matrix.
Variable power_to_db : matrix → result matrix.

(** A file becomes an example of the label or an 'Error loading' line. *)
Lemma load_file_counts idx folder (st : load_state) entry :
  ∃ X Y lg,
    load_file librosa_load melspectrogram power_to_db idx folder st entry = (X, Y, lg) ∧
    length X + error_lines lg = S (length st.1.1 + error_lines st.2) ∧
    missing_lines lg = missing_lines st.2 ∧
    ∀ i, i ∈ Y → i ∈ st.1.2 ∨ i = idx.
Proof.
  destruct st as [[X Y] lg]. unfold load_file. cbn [fst snd].
  destruct (librosa_load entry.2 ≫= _) as [mfe|e].
  - do 3 eexists. split; [reflexivity|]. rewrite length_app. simpl.
    split; [lia|]. split; [reflexivity|].
    intros i Hi. apply elem_of_app in Hi as [Hi|Hi]; [by left|].
    right. by apply list_elem_of_singleton in Hi.
  - do 3 eexists. split; [reflexivity|].
    rewrite error_lines_app, missing_lines_app.
    unfold error_lines at 2, missing_lines at 2. simpl.
    split; [lia|]. split; [lia|]. by left.
Qed.

Lemma load_files_counts idx folder files :
  ∀ st : load_state,
    ∃ X Y lg,
      foldl (load_file librosa_load melspectrogram power_to_db idx folder) st files
        = (X, Y, lg) ∧
      length X + error_lines lg = length st.1.1 + error_lines st.2 + length files ∧
      missing_lines lg = missing_lines st.2 ∧
      ∀ i, i ∈ Y → i ∈ st.1.2 ∨ i = idx.
Proof.
  induction files as [|e files IH]; intros st; cbn [foldl].
  - destruct st as [[X Y] lg]. do 3 eexists. split; [reflexivity|]. simpl.
    split; [lia|]. split; [reflexivity|]. by left.
  - destruct (load_file_counts idx folder st e) as (X1 & Y1 & lg1 & -> & Hn1 & Hm1 & HY1).
    destruct (IH (X1, Y1, lg1)) as (X & Y & lg & -> & Hn & Hm & HY).
    cbn [fst snd] in *. do 3 eexists. split; [reflexivity|]. simpl.
    split; [lia|]. split; [congruence|].
    intros i Hi. destruct (HY i Hi) as [Hi'|Hi']; [by apply HY1|by right].
Qed.

(** A label gives its .wav files, or one 'Folder not found' line. *)
Lemma load_label_counts base_dir ds (st : load_state) il :
  ∃ X Y lg,
    load_label librosa_load melspectrogram power_to_db base_dir ds st il = (X, Y, lg) ∧
    length X + error_lines lg
      = length st.1.1 + error_lines st.2 + length (wav_files_of ds il.2) ∧
    missing_lines lg = missing_lines st.2 + (if missing_folder ds il.2 then 1 else 0) ∧
    ∀ i, i ∈ Y → i ∈ st.1.2 ∨ (i = il.1 ∧ is_Some (ds !! il.2)).
Proof.
  unfold load_label, wav_files_of, missing_folder.
  destruct (ds !! il.2) as [dir|] eqn:Hdir.
  - destruct (load_files_counts il.1 (path_join base_dir il.2)
                (filter (λ e, is_wav e.1 = true) (map_to_list dir)) st)
      as (X & Y & lg & -> & Hn & Hm & HY).
    do 3 eexists. split; [reflexivity|]. split; [exact Hn|]. split; [lia|].
    intros i Hi. destruct (HY i Hi) as [Hi'|Hi']; [by left|right]. split; [done|by eexists].
  - do 3 eexists. split; [reflexivity|].
    rewrite error_lines_app, missing_lines_app.
    unfold error_lines at 2, missing_lines at 2. simpl.
    split; [lia|]. split; [lia|]. by left.
Qed.

Lemma load_labels_counts base_dir ds ils :
  ∀ st : load_state,
    ∃ X Y lg,
      foldl (load_label librosa_load melspectrogram power_to_db base_dir ds) st ils
        = (X, Y, lg) ∧
      length X + error_lines lg
        = length st.1.1 + error_lines st.2 + length (ils.*2 ≫= wav_files_of ds) ∧
      missing_lines lg
        = missing_lines st.2 + length (filter (λ l, missing_folder ds l = true) ils.*2) ∧
      ∀ i, i ∈ Y → i ∈ st.1.2 ∨ ∃ l, (i, l) ∈ ils ∧ is_Some (ds !! l).
Proof.
  induction ils as [|il ils IH]; intros st; cbn [foldl].
  - destruct st as [[X Y] lg]. do 3 eexists. split; [reflexivity|]. simpl.
    split; [lia|]. split; [lia|]. by left.
  - destruct (load_label_counts base_dir ds st il) as (X1 & Y1 & lg1 & -> & Hn1 & Hm1 & HY1).
    destruct (IH (X1, Y1, lg1)) as (X & Y & lg & -> & Hn & Hm & HY).
    cbn [fst snd] in *. do 3 eexists. split; [reflexivity|].
    rewrite fmap_cons, bind_cons, length_app. split; [lia|]. split.
    + destruct (missing_folder ds il.2) eqn:Hmiss.
      * rewrite filter_cons_True by done. simpl. lia.
      * rewrite filter_cons_False by (rewrite Hmiss; done). lia.
    + intros i Hi. destruct (HY i Hi) as [Hi'|(l & Hl & Hdir)].
      * destruct (HY1 i Hi') as [Hi''|[-> Hdir]]; [by left|right].
        exists il.2. split; [|done]. apply elem_of_cons. left. by destruct il.
      * right. exists l. split; [|done]. by apply elem_of_cons; right.
Qed.

(** X12: [_load_dataset] drops no file silently: the examples it returns
    and the 'Error loading' lines of its log add up to the .wav files in
    the folders of the selected labels; the log has one 'Folder not
    found' line for each selected label without a folder, and no example
    carries the index of such a label. *)
Theorem load_dataset_accounts model_type base_dir ds labels X Y lg :
  _load_dataset librosa_load melspectrogram power_to_db model_type base_dir ds
    = Ok (X, Y, lg) →
  LABEL_GROUPS !! model_type = Some labels →
  length X + error_lines lg = length (labels ≫= wav_files_of ds) ∧
  missing_lines lg = length (filter (λ l, missing_folder ds l = true) labels) ∧
  ∀ idx l, labels !! idx = Some l → missing_folder ds l = true → idx ∉ Y.
Proof.
  unfold _load_dataset. intros Hrun Hlabels. rewrite Hlabels in Hrun.
  destruct (load_labels_counts base_dir ds (zip (seq 0 (length labels)) labels)
              ([], [], [SelectedLabels labels]))
    as (X' & Y' & lg' & Hfold & Hn & Hm & HY).
  rewrite Hfold in Hrun. injection Hrun as <- <- <-.
  rewrite snd_zip in Hn, Hm by (by rewrite length_seq).
  rewrite error_lines_app, missing_lines_app.
  unfold error_lines at 2, missing_lines at 2.
  unfold error_lines at 2 in Hn. unfold missing_lines at 2 in Hm.
  simpl in *. split; [lia|]. split; [lia|].
  intros idx l Hidx Hmiss Hin.
  destruct (HY idx Hin) as [Hnil|(l' & Hl' & [dir Hdir])]; [by apply elem_of_nil in Hnil|].
  apply elem_of_lookup_zip_with in Hl' as (i & a & b & [= -> ->] & Ha & Hb).
  apply lookup_seq in Ha as [-> _]. simpl in Hidx.
  rewrite Hidx in Hb. injection Hb as ->.
  unfold missing_folder in Hmiss. by rewrite Hdir in Hmiss.
Qed.

End LoaderAccounts.

Lemma load_dataset_accounts_witness :
  ∃ X Y lg,
    _load_dataset load_nonempty toy_melspectrogram Ok "Action" "dataset" patchy_dataset
      = Ok (X, Y, lg) ∧
    length X + error_lines lg = 2 ∧
    missing_lines lg = 1.
Proof.
  destruct (_load_dataset load_nonempty toy_melspectrogram Ok "Action" "dataset" patchy_dataset)
    as [[[X Y] lg]|e] eqn:Hrun; [|vm_compute in Hrun; discriminate].
  exists X, Y, lg. split; [reflexivity|].
  destruct (load_dataset_accounts (list float) load_nonempty toy_melspectrogram Ok
              "Action" "dataset" patchy_dataset ["Bat"; "Tat"] X Y lg Hrun eq_refl)
    as (Hn & Hm & _).
  split; [rewrite Hn|rewrite Hm]; vm_compute; reflexivity.
Defined.

(** ** Running [_process_label] again, and what the trainer then finds *)

Lemma filter_all {A : Type} (P : A → Prop) `{∀ x, Decision (P x)} (l : list A) :
  Forall P l → filter P l = l.
Proof.
  induction 1 as [|x l Hx _ IH]; [reflexivity|].
  rewrite filter_cons_True by done. by rewrite IH.
Qed.

Lemma NoDup_wav_entries {wavfile : Type} (entries : list (string * wavfile)) :
  NoDup entries.*1 → NoDup (wav_entries entries).*1.
Proof.
  unfold wav_entries. intros Hnames.
  induction entries as [|e entries IH]; [constructor|].
  rewrite fmap_cons in Hnames. apply NoDup_cons in Hnames as [Hfresh Hnames].
  destruct (decide (is_wav e.1 = true)) as [He|He].
  - rewrite filter_cons_True by done. rewrite fmap_cons. apply NoDup_cons.
    split; [|by apply IH].
    intros Hin. apply Hfresh. apply list_elem_of_fmap in Hin as (e' & -> & He').
    apply list_elem_of_filter in He' as [_ He']. by apply list_elem_of_fmap_2.
  - rewrite filter_cons_False by done. by apply IH.
Qed.

Section Again.

Variable split : list float → float → list interval.
Variable wavfile : Type.
Variable librosa_load : wavfile → result (list float).
Variable sf_write : list float → wavfile.

(** The loop counts the files of a fresh folder: with distinct .wav
    names, none of them in the folder yet, the folder grows by one file
    with each segment written. *)
Lemma process_files_counts_folder label files :
  ∀ self ds count dir,
    NoDup files.*1 →
    Forall (λ e : string * wavfile, is_wav e.1 = true) files →
    ds !! label = Some dir →
    size dir = count →
    (∀ f, is_Some (dir !! f) → (f ∉ files.*1) ∧ is_wav f = true) →
    ∃ self' ds' count' dir',
      foldl (process_file split librosa_load sf_write label) (self, ds, count) files
        = (self', ds', count') ∧
      ds' !! label = Some dir' ∧
      size dir' = count' ∧
      ∀ f, is_Some (dir' !! f) → is_wav f = true.
Proof.
  induction files as [|e files IH]; intros self ds count dir Hnd Hwav Hdir Hsize Hkeys;
    cbn [foldl].
  - exists self, ds, count, dir. split; [reflexivity|]. split; [exact Hdir|].
    split; [exact Hsize|]. intros f Hf. by apply Hkeys.
  - rewrite fmap_cons in Hnd. apply NoDup_cons in Hnd as [Hfresh Hnd].
    apply Forall_cons in Hwav as [He Hwav].
    assert (Hkeys' : ∀ f, is_Some (dir !! f) → (f ∉ files.*1) ∧ is_wav f = true).
    { intros f Hf. destruct (Hkeys f Hf) as [Hnot Hw]. split; [|done].
      intros Hin. apply Hnot. rewrite fmap_cons. by apply elem_of_cons; right. }
    unfold process_file at 2.
    destruct (process_clip split librosa_load self _ e.2) as [[m|proc]|err].
    + by apply (IH _ ds count dir).
    + assert (Hnew : dir !! e.1 = None).
      { apply eq_None_not_Some. intros Hsome. destruct (Hkeys _ Hsome) as [Hnot _].
        apply Hnot. rewrite fmap_cons. by apply elem_of_cons; left. }
      apply (IH _ _ (S count) (<[e.1 := sf_write proc]> dir)); try done.
      * unfold write_file. rewrite lookup_insert_eq, Hdir. reflexivity.
      * rewrite map_size_insert_None by done. by rewrite Hsize.
      * intros f Hf. destruct (decide (f = e.1)) as [->|Hne]; [done|].
        rewrite lookup_insert_ne in Hf by done. by apply Hkeys'.
    + by apply (IH _ ds count dir).
Qed.

(** X13: on a label whose dataset folder is empty or absent,
    [_process_label] ends its log with 'Processed label' and a count that
    is the number of .wav files then in the label's dataset folder: the
    files [_load_dataset] will find for that label. *)
Theorem processed_count_is_folder_size self d label entries self1 d1 :
  _process_label split librosa_load sf_write self d label = Ok (self1, d1) →
  recordings d !! label = Some entries →
  NoDup entries.*1 →
  (∀ f, dataset_file (dataset d) label f = None) →
  ∃ count,
    last (txt_log self1) = Some (ProcessedLabel label count) ∧
    length (wav_files_of (dataset d1) label) = count.
Proof.
  intros Hrun Hdir Hnames Hfresh.
  destruct (process_label_runs split wavfile librosa_load sf_write self d label entries Hdir)
    as (s1 & ds1 & c1 & Hfold & Hrun').
  rewrite Hrun in Hrun'. injection Hrun' as -> ->.
  assert (Hempty : default ∅ (dataset d !! label) = (∅ : gmap string wavfile)).
  { apply map_empty. intros f. specialize (Hfresh f). unfold dataset_file in Hfresh.
    destruct (dataset d !! label) as [dir|]; [exact Hfresh|apply lookup_empty]. }
  destruct (process_files_counts_folder label (wav_entries entries)
              self (makedirs (dataset d) label) 0 ∅)
    as (s' & ds' & c' & dir' & Hfold' & Hdir' & Hsize & Hwav).
  { by apply NoDup_wav_entries. }
  { unfold wav_entries. apply Forall_forall. intros e He.
    by apply list_elem_of_filter in He as [He _]. }
  { by rewrite makedirs_lookup, Hempty. }
  { apply map_size_empty. }
  { intros f [w Hf]. by rewrite lookup_empty in Hf. }
  rewrite Hfold in Hfold'. injection Hfold' as <- <- <-.
  exists c1. split.
  - cbn [_log txt_log]. apply last_snoc.
  - unfold wav_files_of. cbn [dataset]. rewrite Hdir'.
    rewrite filter_all.
    + by rewrite length_map_to_list.
    + apply Forall_forall. intros [f w] Hin. apply elem_of_map_to_list in Hin.
      apply Hwav. by eexists.
Qed.

(** The folder of the label exists after the loop when it did before. *)
Lemma process_files_folder_stays label files :
  ∀ self ds count,
    is_Some (ds !! label) →
    ∃ self' ds' count' dir',
      foldl (process_file split librosa_load sf_write label) (self, ds, count) files
        = (self', ds', count') ∧
      ds' !! label = Some dir'.
Proof.
  induction files as [|e files IH]; intros self ds count [dir Hdir]; cbn [foldl].
  - by exists self, ds, count, dir.
  - unfold process_file at 2.
    destruct (process_clip split librosa_load self _ e.2) as [[m|proc]|err];
      apply IH; try by eexists.
    unfold write_file. rewrite lookup_insert_eq. by eexists.
Qed.

(** X14: running [_process_label] a second time changes nothing on disk:
    the dataset tree after the second run is the tree after the first,
    file for file, and the second run keeps as many recordings as the
    first. *)
Theorem process_label_again self d label entries self1 d1 :
  _process_label split librosa_load sf_write self d label = Ok (self1, d1) →
  recordings d !! label = Some entries →
  NoDup entries.*1 →
  ∃ self2 count,
    _process_label split librosa_load sf_write self1 d1 label = Ok (self2, d1) ∧
    last (txt_log self1) = Some (ProcessedLabel label count) ∧
    last (txt_log self2) = Some (ProcessedLabel label count).
Proof.
  intros Hrun Hdir Hnames.
  destruct (process_label_runs split wavfile librosa_load sf_write self d label entries Hdir)
    as (s1 & ds1 & c1 & Hfold & Hrun').
  rewrite Hrun in Hrun'. injection Hrun' as -> ->.
  set (files := wav_entries entries) in *.
  set (self1 := _log s1 (ProcessedLabel label c1)).
  assert (Hcfg : same_config self self1).
  { destruct (process_files_frame split wavfile librosa_load sf_write label files
                self (makedirs (dataset d) label) 0)
      as (s' & ds' & c' & Hfold' & Hcfg & _).
    rewrite Hfold in Hfold'. by injection Hfold' as <- <- <-. }
  destruct (process_files_folder_stays label files self (makedirs (dataset d) label) 0)
    as (s' & ds' & c' & dir1 & Hfold' & Hdir1).
  { rewrite makedirs_lookup. by eexists. }
  rewrite Hfold in Hfold'. injection Hfold' as <- <- <-.
  assert (Hmk : makedirs ds1 label = ds1) by (unfold makedirs; by rewrite Hdir1).
  destruct (foldl (process_file split librosa_load sf_write label) (self1, ds1, 0) files)
    as [[s2 ds2] c2] eqn:Hfold2.
  assert (Hrun2 : _process_label split librosa_load sf_write self1 (mkDisk (recordings d) ds1) label
                  = Ok (_log s2 (ProcessedLabel label c2), mkDisk (recordings d) ds2)).
  { unfold _process_label. cbn [recordings dataset]. rewrite Hdir, Hmk.
    fold files. rewrite Hfold2. reflexivity. }
  assert (Hcount : c2 = c1).
  { destruct (process_files_account split wavfile librosa_load sf_write label self files
                self (makedirs (dataset d) label) 0) as (s' & ds' & Ha & _);
      [by repeat split|].
    destruct (process_files_account split wavfile librosa_load sf_write label self files
                self1 ds1 0) as (s'' & ds'' & Hb & _); [exact Hcfg|].
    rewrite Hfold in Ha. rewrite Hfold2 in Hb. congruence. }
  assert (Hsame : ds2 = ds1).
  { apply map_eq. intros l. destruct (decide (l = label)) as [->|Hne].
    - destruct (process_files_folder_stays label files self1 ds1 0)
        as (s' & ds' & c' & dir2 & Hfold' & Hdir2); [by eexists|].
      rewrite Hfold2 in Hfold'. injection Hfold' as <- <- <-.
      rewrite Hdir1, Hdir2. f_equal. apply map_eq. intros f.
      assert (Hfile : dataset_file ds2 label f = dataset_file ds1 label f).
      { destruct (decide (Exists (λ e : string * wavfile,
                            e.1 = f ∧ clip_kept split librosa_load self label e = true) files))
          as [Hex|Hnone].
        - apply Exists_exists in Hex as (e & He & <- & Hkept).
          assert (∃ p, process_clip split librosa_load self (src_of label e) e.2 = Ok (Keep p))
            as [p Hp].
          { unfold clip_kept in Hkept.
            destruct (process_clip split librosa_load self (src_of label e) e.2)
              as [[m|p]|err]; try discriminate. by exists p. }
          destruct (process_files_written split wavfile librosa_load sf_write label self e p files
                      (NoDup_wav_entries entries Hnames) He Hp
                      self (makedirs (dataset d) label) 0)
            as (s' & ds' & c' & Ha & Hfile1); [by repeat split|].
          destruct (process_files_written split wavfile librosa_load sf_write label self e p files
                      (NoDup_wav_entries entries Hnames) He Hp self1 ds1 0 Hcfg)
            as (s'' & ds'' & c'' & Hb & Hfile2).
          rewrite Hfold in Ha. injection Ha as <- <- <-.
          rewrite Hfold2 in Hb. injection Hb as <- <- <-.
          by rewrite Hfile1, Hfile2.
        - destruct (process_files_not_kept split wavfile librosa_load sf_write label self f files
                      self1 ds1 0 Hcfg)
            as (s' & ds' & c' & Hb & Hfile2).
          { intros e He Hname.
            destruct (clip_kept split librosa_load self label e) eqn:Hkept; [|done].
            exfalso. apply Hnone. apply Exists_exists. by exists e. }
          rewrite Hfold2 in Hb. by injection Hb as <- <- <-. }
      unfold dataset_file in Hfile. by rewrite Hdir1, Hdir2 in Hfile.
    - destruct (process_files_other_folders split wavfile librosa_load sf_write
                  label l files Hne self1 ds1 0)
        as (s' & ds' & c' & Hb & Hother).
      rewrite Hfold2 in Hb. by injection Hb as <- <- <-. }
  exists (_log s2 (ProcessedLabel label c2)), c1.
  rewrite Hrun2, Hsame, Hcount. split; [reflexivity|].
  split; cbn [_log txt_log]; apply last_snoc.
Qed.

End Again.

Lemma processed_count_is_folder_size_witness :
  ∃ self1 d1,
    _process_label detect_whole_clip Ok id default_builder studio_disk "Bat" = Ok (self1, d1) ∧
    last (txt_log self1) = Some (ProcessedLabel "Bat" 1) ∧
    length (wav_files_of (dataset d1) "Bat") = 1.
Proof.
  destruct (_process_label detect_whole_clip Ok id default_builder studio_disk "Bat")
    as [[self1 d1]|e] eqn:Hrun; [|vm_compute in Hrun; discriminate].
  exists self1, d1. split; [reflexivity|].
  assert (Hnames : NoDup [long_take; short_take].*1).
  { apply (bool_decide_unpack _). by vm_compute. }
  destruct (processed_count_is_folder_size detect_whole_clip (list float) Ok id
              default_builder studio_disk "Bat" [long_take; short_take] self1 d1
              Hrun eq_refl Hnames (λ f, eq_refl))
    as (count & Hlast & Hlen).
  assert (Hone : last (txt_log self1) = Some (ProcessedLabel "Bat" 1)).
  { apply (f_equal (λ r, match r with
                         | Ok (s, _) => last (txt_log s)
                         | Raise _ => None
                         end)) in Hrun.
    rewrite <- Hrun. vm_compute. reflexivity. }
  split; [exact Hone|].
  rewrite Hlen. rewrite Hone in Hlast. by injection Hlast as <-.
Defined.

Lemma process_label_again_witness :
  ∃ self1 d1 self2,
    _process_label detect_whole_clip Ok id default_builder studio_disk "Bat" = Ok (self1, d1) ∧
    _process_label detect_whole_clip Ok id self1 d1 "Bat" = Ok (self2, d1).
Proof.
  destruct (_process_label detect_whole_clip Ok id default_builder studio_disk "Bat")
    as [[self1 d1]|e] eqn:Hrun; [|vm_compute in Hrun; discriminate].
  assert (Hnames : NoDup [long_take; short_take].*1).
  { apply (bool_decide_unpack _). by vm_compute. }
  destruct (process_label_again detect_whole_clip (list float) Ok id
              default_builder studio_disk "Bat" [long_take; short_take] self1 d1
              Hrun eq_refl Hnames)
    as (self2 & count & Hrun2 & _).
  exists self1, d1, self2. split; [reflexivity|exact Hrun2].
Defined.

(** ** Saving under a chosen name *)

Section ChosenName.

Import VoiceTestGUI.

Variable model : Type.
Variable wavfile : Type.
Variable librosa_load : wavfile → result (list float).
Variable melspectrogram : list float → result matrix.
Variable power_to_db : matrix → result matrix.
Variable predict : model → list (list (list (list float))) → nat.

(** X15: [_save_model] writes nothing when no model has been trained or
    when the dialog returns no path; with a model and a path it writes
    the model and its label map there, whatever was at that path before,
    and a tester that loads the path for a group then shows the trainer's
    [labels[idx]] for the class [idx] the model answers ('Label idx'
    beyond the labels). *)
Theorem save_model_names_the_predictions fs m labels path (t : tester model) group w y mfe :
  path ≠ EmptyString →
  groups_present t → group ∈ LABEL_GROUPS →
  librosa_load w = Ok y →
  predict_features melspectrogram power_to_db y = Ok mfe →
  _save_model model fs None path labels = (fs, Some NoModelTrainedYet) ∧
  _save_model model fs (Some m) EmptyString labels = (fs, None) ∧
  (_save_model model fs (Some m) path labels).2 = Some (ModelSaved path) ∧
  ∃ t', _predict librosa_load melspectrogram power_to_db predict
          (_load_model t (_save_model model fs (Some m) path labels).1 group path) (Some w)
          = Ok t' ∧
        result_vars t' !! group = Some (shown_label labels (predict m mfe)).
Proof.
  intros Hpath Ht Hgroup Hload Hfeat.
  apply String.eqb_neq in Hpath.
  split; [reflexivity|]. split; [reflexivity|].
  unfold _save_model. rewrite Hpath. cbn [fst snd]. split; [reflexivity|].
  unfold shown_label. rewrite <- json_dump_lookup.
  apply (predict_shows model wavfile librosa_load melspectrogram power_to_db predict)
    with (y := y); try done.
  - by apply load_model_groups_present.
  - unfold _load_model, save_with_labels. rewrite Hpath.
    rewrite (lookup_insert_ne _ (labels_path _)) by apply labels_path_ne.
    rewrite lookup_insert_eq, lookup_insert_eq. cbn. apply lookup_insert_eq.
  - unfold _load_model, save_with_labels. rewrite Hpath.
    rewrite (lookup_insert_ne _ (labels_path _)) by apply labels_path_ne.
    rewrite lookup_insert_eq, lookup_insert_eq. cbn. apply lookup_insert_eq.
Qed.

End ChosenName.

Lemma save_model_names_the_predictions_witness :
  ∃ t',
    VoiceTestGUI._predict Ok toy_melspectrogram Ok constant_predict
      (VoiceTestGUI._load_model VoiceTestGUI.__init__
         (_save_model nat bare_model (Some 1) "b.h5" ["Den"; "Quat"]).1 "Device" "b.h5")
      (Some [0.5; 0.25]%float) = Ok t' ∧
    VoiceTestGUI.result_vars t' !! "Device" = Some "Quat".
Proof.
  destruct (predict_features toy_melspectrogram Ok [0.5; 0.25]%float)
    as [mfe|e] eqn:Hfeat; [|vm_compute in Hfeat; discriminate].
  assert (Hgroup : "Device" ∈ VoiceTestGUI.LABEL_GROUPS)
    by (apply elem_of_cons; right; apply elem_of_cons; by left).
  assert (Hpath : "b.h5" ≠ EmptyString) by discriminate.
  destruct (save_model_names_the_predictions nat (list float) Ok toy_melspectrogram Ok
              constant_predict bare_model 1 ["Den"; "Quat"] "b.h5"
              VoiceTestGUI.__init__ "Device" [0.5; 0.25]%float [0.5; 0.25]%float mfe
              Hpath (init_groups_present nat) Hgroup eq_refl Hfeat)
    as (_ & _ & _ & t' & Hrun & Hshown).
  exists t'. split; [exact Hrun|exact Hshown].
Defined.

(** ** The detector on a silent clip *)

Section Silence.

Import Reals.









End Silence.

Section SilentClip.

Import Reals.







End SilentClip.
